(** * QobuzDL-Bot: the API client's secret discovery and signing, and the
      download-and-tag pipeline

    A shallow embedding of [qobuz_client.py], [downloader.py] and
    [metadata_utils.py].  Python [str] values are represented by their UTF-8
    encoding as a Rocq [string] (one [ascii] per byte); integers are [Z].
    Stateful code runs in a small state-and-exception monad over an explicit
    [World] (file system, issued network requests, log records, the client
    object); everything the program obtains from outside (the provider's
    answers, the clock, third-party libraries) is gathered in an [Env]. *)

From Stdlib Require Import ZArith List String Ascii Bool Lia DecimalString.
From stdpp Require Import base option list gmap strings.

Local Open Scope string_scope.
Local Open Scope Z_scope.

(* ================================================================== *)
(** ** Python built-ins used by the sources *)
(* ================================================================== *)

Module Py.

(** [str(n)] for an [int]. *)
Definition str_of_Z (z : Z) : string := NilZero.string_of_int (Z.to_int z).

(** [f"{n:02}"]: sign-aware zero padding to width two. *)
Definition format_02 (z : Z) : string :=
  if (0 <=? z) && (z <? 10) then "0" +:+ str_of_Z z else str_of_Z z.

(** [not s] for a [str]. *)
Definition is_empty (s : string) : bool :=
  match s with EmptyString => true | String _ _ => false end.

(** [s.startswith(p)] *)
Definition startswith (p s : string) : bool := String.prefix p s.

Fixpoint rev_string (s : string) (acc : string) : string :=
  match s with
  | EmptyString => acc
  | String c s' => rev_string s' (String c acc)
  end.

(** [s.endswith(p)] *)
Definition endswith (p s : string) : bool :=
  String.prefix (rev_string p "") (rev_string s "").

(** The body of [s.replace(old, new)] for a non-empty [old]: scan from the
    left; at a position where [old] starts, emit [new] and skip
    [len(old)] characters ([skip] counts the characters of a matched
    occurrence that are still to be passed over). *)
Fixpoint replace_from (old new : string) (skip : nat) (s : string) : string :=
  match s with
  | EmptyString => EmptyString
  | String c s' =>
      match skip with
      | S k => replace_from old new k s'
      | O =>
          if String.prefix old s
          then new +:+ replace_from old new (Nat.pred (String.length old)) s'
          else String c (replace_from old new O s')
      end
  end.

(** [s.replace("", new)] puts [new] before every character and at the
    end. *)
Fixpoint intersperse_all (new : string) (s : string) : string :=
  match s with
  | EmptyString => new
  | String c s' => new +:+ String c (intersperse_all new s')
  end.

(** [s.replace(old, new)] *)
Definition replace (old new s : string) : string :=
  if is_empty old then intersperse_all new s else replace_from old new O s.

(** A byte that continues a UTF-8 character. *)
Definition is_continuation (c : ascii) : bool :=
  let n := nat_of_ascii c in (128 <=? n)%nat && (n <=? 191)%nat.

(** [s[:n]] for [n >= 0]: the first [n] characters, a character being a
    byte that is not a continuation byte, with the continuation bytes that
    follow it. *)
Fixpoint take (n : nat) (s : string) : string :=
  match s with
  | EmptyString => EmptyString
  | String c s' =>
      if is_continuation c then String c (take n s')
      else
        match n with
        | O => EmptyString
        | S n' => String c (take n' s')
        end
  end.

(** [len(s)], in characters. *)
Fixpoint len (s : string) : nat :=
  match s with
  | EmptyString => O
  | String c s' => if is_continuation c then len s' else S (len s')
  end.

(** [s[:-n]] for [n > 0]: everything but the last [n] characters, the
    empty string when [s] has no more than [n]. *)
Definition drop_last (n : nat) (s : string) : string :=
  take (len s - n) s.

(** A text that does not begin in the middle of a character. *)
Definition at_boundary (s : string) : bool :=
  match s with
  | EmptyString => true
  | String c _ => negb (is_continuation c)
  end.

(** [s.split(sep)[0]] for a one-character separator. *)
Fixpoint split_first (sep : ascii) (s : string) : string :=
  match s with
  | EmptyString => EmptyString
  | String c s' =>
      if Ascii.eqb c sep then EmptyString else String c (split_first sep s')
  end.

(** [sep.join(l)] *)
Definition join (sep : string) (l : list string) : string := String.concat sep l.

Definition is_upper (c : ascii) : bool :=
  let n := nat_of_ascii c in (65 <=? n)%nat && (n <=? 90)%nat.
Definition is_lower (c : ascii) : bool :=
  let n := nat_of_ascii c in (97 <=? n)%nat && (n <=? 122)%nat.
Definition lower_char (c : ascii) : ascii :=
  if is_upper c then ascii_of_nat (nat_of_ascii c + 32) else c.
Definition upper_char (c : ascii) : ascii :=
  if is_lower c then ascii_of_nat (nat_of_ascii c - 32) else c.

(** [s.lower()], on the ASCII letters (the only letters the patterns of
    [qobuz_client.py] let through). *)
Fixpoint lower (s : string) : string :=
  match s with
  | EmptyString => EmptyString
  | String c s' => String (lower_char c) (lower s')
  end.

(** [s.capitalize()]: first character upper-cased, the rest lower-cased. *)
Definition capitalize (s : string) : string :=
  match s with
  | EmptyString => EmptyString
  | String c s' => String (upper_char c) (lower s')
  end.

(** [posixpath.join(a, b)] *)
Definition os_path_join (a b : string) : string :=
  if startswith "/" b then b
  else if is_empty a || endswith "/" a then a +:+ b
  else a +:+ "/" +:+ b.

(** [s.rstrip("/")] *)
Fixpoint lstrip_slash (s : string) : string :=
  match s with
  | String c s' => if Ascii.eqb c "/"%char then lstrip_slash s' else s
  | EmptyString => EmptyString
  end.
Definition rstrip_slash (s : string) : string :=
  rev_string (lstrip_slash (rev_string s "")) "".

(** [p[:p.rfind("/") + 1]] *)
Fixpoint upto_last_slash (p : string) : option string :=
  match p with
  | EmptyString => None
  | String c p' =>
      match upto_last_slash p' with
      | Some h => Some (String c h)
      | None => if Ascii.eqb c "/"%char then Some (String c EmptyString) else None
      end
  end.

(** [posixpath.dirname(p)] *)
Definition os_path_dirname (p : string) : string :=
  match upto_last_slash p with
  | None => EmptyString
  | Some head => if is_empty (rstrip_slash head) then head else rstrip_slash head
  end.

(** Bytes of a string as numbers, and back. *)
Definition bytes_of (s : string) : list Z :=
  List.map (fun c => Z.of_nat (nat_of_ascii c)) (list_ascii_of_string s).
Definition string_of_bytes (l : list Z) : string :=
  string_of_list_ascii (List.map (fun b => ascii_of_nat (Z.to_nat b)) l).

(** [s.split(sep)] for a one-character separator; [piece] is the piece
    being read. *)
Fixpoint split_from (sep : ascii) (s : string) (piece : string) : list string :=
  match s with
  | EmptyString => [piece]
  | String c s' =>
      if Ascii.eqb c sep then piece :: split_from sep s' ""
      else split_from sep s' (piece +:+ String c "")
  end.
Definition split (sep : ascii) (s : string) : list string := split_from sep s "".

(** The bound [i] of a slice of a sequence of length [n], put in range. *)
Definition slice_bound (n i : Z) : Z :=
  if i <? 0 then Z.max 0 (i + n) else Z.min i n.

(** [l[start:stop]] *)
Definition slice {A} (l : list A) (start stop : Z) : list A :=
  let n := Z.of_nat (List.length l) in
  let lo := slice_bound n start in
  let hi := slice_bound n stop in
  List.firstn (Z.to_nat (hi - lo)) (List.skipn (Z.to_nat lo) l).


End Py.

(* ================================================================== *)
(** ** [hashlib.md5(...).hexdigest()] (RFC 1321) *)
(* ================================================================== *)

Module hashlib.

Definition mask32 (x : Z) : Z := Z.land x 4294967295.
Definition add32 (a b : Z) : Z := mask32 (a + b).
Definition not32 (a : Z) : Z := Z.lxor a 4294967295.
Definition rotl32 (x n : Z) : Z :=
  mask32 (Z.lor (Z.shiftl x n) (Z.shiftr x (32 - n))).

(** [floor(2^32 * abs(sin(i + 1)))] for [i = 0..63]. *)
Definition K : list Z :=
  [3614090360; 3905402710; 606105819; 3250441966; 4118548399; 1200080426;
   2821735955; 4249261313; 1770035416; 2336552879; 4294925233; 2304563134;
   1804603682; 4254626195; 2792965006; 1236535329; 4129170786; 3225465664;
   643717713; 3921069994; 3593408605; 38016083; 3634488961; 3889429448;
   568446438; 3275163606; 4107603335; 1163531501; 2850285829; 4243563512;
   1735328473; 2368359562; 4294588738; 2272392833; 1839030562; 4259657740;
   2763975236; 1272893353; 4139469664; 3200236656; 681279174; 3936430074;
   3572445317; 76029189; 3654602809; 3873151461; 530742520; 3299628645;
   4096336452; 1126891415; 2878612391; 4237533241; 1700485571; 2399980690;
   4293915773; 2240044497; 1873313359; 4264355552; 2734768916; 1309151649;
   4149444226; 3174756917; 718787259; 3951481745].

Definition shifts : list Z :=
  [7; 12; 17; 22; 7; 12; 17; 22; 7; 12; 17; 22; 7; 12; 17; 22;
   5; 9; 14; 20; 5; 9; 14; 20; 5; 9; 14; 20; 5; 9; 14; 20;
   4; 11; 16; 23; 4; 11; 16; 23; 4; 11; 16; 23; 4; 11; 16; 23;
   6; 10; 15; 21; 6; 10; 15; 21; 6; 10; 15; 21; 6; 10; 15; 21].

Record state := State { sa : Z; sb : Z; sc : Z; sd : Z }.

Definition init : state := State 1732584193 4023233417 2562383102 271733878.

Definition nthZ (l : list Z) (i : Z) : Z := List.nth (Z.to_nat i) l 0.

(** One of the 64 operations of a block, on the 16 words [M]. *)
Definition step (M : list Z) (st : state) (i : Z) : state :=
  let '(State a b c d) := st in
  let '(f, g) :=
    if i <? 16 then (Z.lor (Z.land b c) (Z.land (not32 b) d), i)
    else if i <? 32 then (Z.lor (Z.land d b) (Z.land (not32 d) c), (5 * i + 1) mod 16)
    else if i <? 48 then (Z.lxor (Z.lxor b c) d, (3 * i + 5) mod 16)
    else (Z.lxor c (Z.lor b (not32 d)), (7 * i) mod 16) in
  let f' := add32 (add32 (add32 f a) (nthZ K i)) (nthZ M g) in
  State d (add32 b (rotl32 f' (nthZ shifts i))) b c.

(** Little-endian 32-bit words of a byte list. *)
Fixpoint words (l : list Z) : list Z :=
  match l with
  | b0 :: b1 :: b2 :: b3 :: l' =>
      (b0 + 256 * b1 + 65536 * b2 + 16777216 * b3) :: words l'
  | _ => []
  end.

Definition block (st : state) (bytes : list Z) : state :=
  let M := words bytes in
  let st' := List.fold_left (step M) (List.map Z.of_nat (List.seq 0 64)) st in
  State (add32 (sa st) (sa st')) (add32 (sb st) (sb st'))
        (add32 (sc st) (sc st')) (add32 (sd st) (sd st')).

Fixpoint blocks (n : nat) (st : state) (bytes : list Z) : state :=
  match n with
  | O => st
  | S n' => blocks n' (block st (List.firstn 64 bytes)) (List.skipn 64 bytes)
  end.

Definition le_bytes (n : nat) (x : Z) : list Z :=
  List.map (fun i => Z.land (Z.shiftr x (8 * Z.of_nat i)) 255) (List.seq 0 n).

Definition pad (msg : list Z) : list Z :=
  let len := Z.of_nat (List.length msg) in
  msg ++ [128] ++ List.repeat 0 (Z.to_nat ((55 - len) mod 64))
      ++ le_bytes 8 (Z.land (8 * len) 18446744073709551615).

Definition digest (msg : list Z) : list Z :=
  let p := pad msg in
  let st := blocks (List.length p / 64) init p in
  le_bytes 4 (sa st) ++ le_bytes 4 (sb st) ++ le_bytes 4 (sc st) ++ le_bytes 4 (sd st).

Definition hex_digit (n : Z) : ascii :=
  ascii_of_nat (Z.to_nat (if n <? 10 then 48 + n else 87 + n)).

Fixpoint hex (l : list Z) : string :=
  match l with
  | [] => EmptyString
  | b :: l' => String (hex_digit (b / 16)) (String (hex_digit (b mod 16)) (hex l'))
  end.

(** [hashlib.md5(s.encode("utf-8")).hexdigest()] *)
Definition md5_hexdigest (s : string) : string := hex (digest (Py.bytes_of s)).

End hashlib.

(* ================================================================== *)
(** ** [base64.standard_b64decode(s).decode("utf-8")] *)
(* ================================================================== *)

Module base64.

(** Value of a character of the standard alphabet. *)
Definition value (c : ascii) : option Z :=
  let n := Z.of_nat (nat_of_ascii c) in
  if (65 <=? n) && (n <=? 90) then Some (n - 65)
  else if (97 <=? n) && (n <=? 122) then Some (n - 71)
  else if (48 <=? n) && (n <=? 57) then Some (n + 4)
  else if n =? 43 then Some 62
  else if n =? 47 then Some 63
  else None.

(** The decoding loop of CPython's [binascii.a2b_base64] without strict
    mode, as [base64.b64decode] calls it: characters outside the alphabet
    are skipped; a pad character ends the input once it completes a
    quad; leftover characters of an incomplete quad are an error.
    [quad_pos] is the position inside the current group of four,
    [leftchar] the bits carried over, [pads] the number of pad characters
    seen since the last data character, [out] the bytes so far,
    reversed. *)
Fixpoint a2b (s : string) (quad_pos : Z) (leftchar : Z) (pads : Z) (out : list Z)
  : option (list Z) :=
  match s with
  | EmptyString => if quad_pos =? 0 then Some (List.rev out) else None
  | String c s' =>
      if Ascii.eqb c "="%char then
        if (2 <=? quad_pos) && (4 <=? quad_pos + (pads + 1)) then Some (List.rev out)
        else a2b s' quad_pos leftchar (if 2 <=? quad_pos then pads + 1 else pads) out
      else
        match value c with
        | None => a2b s' quad_pos leftchar pads out
        | Some v =>
            if quad_pos =? 0 then a2b s' 1 v 0 out
            else if quad_pos =? 1 then
              a2b s' 2 (Z.land v 15) 0 (Z.lor (Z.shiftl leftchar 2) (Z.shiftr v 4) :: out)
            else if quad_pos =? 2 then
              a2b s' 3 (Z.land v 3) 0 (Z.lor (Z.shiftl leftchar 4) (Z.shiftr v 2) :: out)
            else
              a2b s' 0 0 0 (Z.lor (Z.shiftl leftchar 6) v :: out)
        end
  end.

Definition is_ascii (s : string) : bool :=
  List.forallb (fun b => b <? 128) (Py.bytes_of s).

(** [base64.standard_b64decode(s)] for a [str] argument: [None] stands for
    the exception ([ValueError] for a non-ASCII string, [binascii.Error]
    for a malformed one). *)
Definition standard_b64decode (s : string) : option (list Z) :=
  if is_ascii s then a2b s 0 0 0 [] else None.

Definition cont (b : Z) : bool := (128 <=? b) && (b <=? 191).

(** Well-formed UTF-8 (no overlong forms, no surrogates, nothing above
    U+10FFFF), which is what [bytes.decode("utf-8")] accepts. *)
Fixpoint valid_utf8 (fuel : nat) (l : list Z) : bool :=
  match fuel with
  | O => false
  | S fuel' =>
      match l with
      | [] => true
      | b0 :: l1 =>
          if b0 <? 128 then valid_utf8 fuel' l1
          else if (194 <=? b0) && (b0 <=? 223) then
            match l1 with
            | b1 :: l2 => cont b1 && valid_utf8 fuel' l2
            | _ => false
            end
          else if (224 <=? b0) && (b0 <=? 239) then
            match l1 with
            | b1 :: b2 :: l3 =>
                cont b1 && cont b2
                && (if b0 =? 224 then 160 <=? b1 else if b0 =? 237 then b1 <=? 159 else true)
                && valid_utf8 fuel' l3
            | _ => false
            end
          else if (240 <=? b0) && (b0 <=? 244) then
            match l1 with
            | b1 :: b2 :: b3 :: l4 =>
                cont b1 && cont b2 && cont b3
                && (if b0 =? 240 then 144 <=? b1 else if b0 =? 244 then b1 <=? 143 else true)
                && valid_utf8 fuel' l4
            | _ => false
            end
          else false
      end
  end.

(** [bytes.decode("utf-8")]; the result is again the UTF-8 text. *)
Definition decode_utf8 (l : list Z) : option string :=
  if valid_utf8 (S (List.length l)) l then Some (Py.string_of_bytes l) else None.

(** [base64.standard_b64decode(s).decode("utf-8")], [None] when either
    step raises. *)
Definition b64decode_utf8 (s : string) : option string :=
  match standard_b64decode s with
  | Some bytes => decode_utf8 bytes
  | None => None
  end.

End base64.

(* ================================================================== *)
(** ** Data model: JSON documents of the provider, exceptions, requests *)
(* ================================================================== *)

(** A value put into a query string or an f-string: [None], an [int] or a
    [str]. *)
Inductive pyval := PyNone | PyInt (z : Z) | PyStr (s : string).

(** [str(v)] *)
Definition py_str (v : pyval) : string :=
  match v with PyNone => "None" | PyInt z => Py.str_of_Z z | PyStr s => s end.

(** [str(s)] for a value that may be [None]. *)
Definition py_str_opt (o : option string) : string :=
  match o with Some s => s | None => "None" end.

(** A JSON object is read through the keys the program looks up; a field is
    [None] when the key is absent ([d[k]] then raises [KeyError], [d.get(k)]
    gives [None]). *)
Record track_item := {
  ti_id : option pyval;                  (* track["id"] *)
  ti_title : option string;              (* track["title"] *)
}.

Record album_data := {
  al_artist_name : option string;        (* ["artist"]["name"] *)
  al_title : option string;              (* ["title"] *)
  al_release_date_original : option string;  (* .get("release_date_original", "") *)
  al_image : bool;                       (* "image" in album_data *)
  al_image_large : option string;        (* ["image"]["large"] *)
  al_image_small : option string;        (* ["image"]["small"], [Some ""] for null *)
  al_tracks_items : option (list track_item);  (* ["tracks"]["items"] *)
  al_copyright : option string;          (* .get("copyright") *)
}.

Record track_data := {
  t_title : option string;               (* ["title"] *)
  t_version : option string;             (* .get("version") *)
  t_work : option string;                (* .get("work") *)
  t_track_number : option Z;             (* ["track_number"] *)
  t_duration : option Z;                 (* .get("duration") *)
  t_copyright : option string;           (* .get("copyright") *)
  t_album : option album_data;           (* ["album"] *)
}.

(** The answer of [track/getFileUrl]: [file_info.get("url")]. *)
Record file_info := { fi_url : option string }.

(** The answer of [user/login]. *)
Record login_data := { lg_user_auth_token : option string; lg_error : option string }.

(** A finite Python [float], [m * 2^e], as the pair [(m, e)]. *)
Definition pyfloat : Type := Z * Z.

(** [audio.info] of a [mutagen.flac.FLAC]; an absent attribute is [None]. *)
Record flac_info := {
  bits_per_sample : option Z;
  sample_rate : Z;
  fl_bitrate : option Z;
  fl_length : pyfloat;
}.

Inductive exn :=
| Exception (msg : string)             (* [raise Exception(msg)] in the sources *)
| KeyError (key : string)
| HTTPStatusError (status : Z)         (* [raise_for_status()] *)
| TransportError (msg : string)        (* the HTTP library could not complete *)
| JSONDecodeError
| OSError (msg : string)
| ZeroDivisionError
| LibraryError (msg : string).         (* raised inside mutagen or PIL *)

Inductive http_request :=
| Get (headers : gmap string string) (url : string) (params : gmap string pyval)
| Stream (url : string).

Inductive response :=
| NoResponse (msg : string)            (* the transport raised *)
| Response (status : Z) (content : string).

(** A streamed answer: status, the [content-length] header, the chunks that
    [aiter_bytes(chunk_size=1024*64)] yields, and the transport error that
    interrupts the stream after them, if any. *)
Inductive stream_response :=
| NoStream (msg : string)
| StreamResponse (status : Z) (content_length : option Z) (chunks : list string)
    (broken : option string).

(** One constructor per [logger] call of the three modules. *)
Inductive log_record :=
| LogScraping                                    (* info: "Scraping Qobuz bundle ..." *)
| LogInitialized (app_id : string)               (* info *)
| LogProvidedAppId (app_id : string)             (* info *)
| LogProvidedToken                               (* info *)
| LogLoginSuccessful                             (* info *)
| LogFoundActiveSecret                           (* info *)
| LogTokenUnauthorized                           (* warning *)
| LogFileExists (filename : string)              (* info *)
| LogThumbnailFailed (e : exn)                   (* warning *)
| LogCoverDownloaded (url : string)              (* info *)
| LogCoverFailed (url : string) (e : exn)        (* debug *)
| LogNoCover                                     (* warning: "Failed to download any cover art" *)
| LogTrackFailed (title : string) (e : exn)      (* error: "Failed to download track ..." *)
| LogThumbnailCreated (thumb_path : string)      (* info *)
| LogThumbnailError (e : exn)                    (* error *)
| LogAudioInfoError (e : exn).                   (* error *)

(** The [QobuzClient] object. *)
Record QobuzClient := {
  email : option string;
  password : option string;
  user_auth_token : option string;
  app_id : option string;
  active_secret : option string;
  secrets : list string;
  headers : gmap string string;          (* self.client.headers *)
}.

(** The [QobuzDownloader] object (its client lives in the world). *)
Record QobuzDownloader := {
  base_path : string;
  quality : Z;
}.

(** What is mutable: the clock readings taken, the requests sent (oldest
    first), the log, regular files and directories, the progress callback's
    invocations, and the client object. *)
Record World := {
  clock_reads : nat;
  sent : list http_request;
  logs : list log_record;
  files : gmap string string;
  dirs : gset string;
  progress : list (Z * Z * string);
  client : QobuzClient;
}.

(** What the program gets from outside. *)
Record Env := {
  (** [int(time.time())] at the n-th reading of the clock *)
  time_time : nat -> Z;
  (** the network: the answer to a request is a function of the request
      (headers, URL, query); time enters through the [request_ts] of a
      signed request *)
  http : http_request -> response;
  http_stream : string -> stream_response;
  (** [resp.json()], by the document expected at the call site *)
  json_track : string -> option track_data;
  json_album : string -> option album_data;
  json_file_info : string -> option file_info;
  json_login : string -> option login_data;
  (** [re]: [_BUNDLE_URL_REGEX.search(text).group(1)],
      [_APP_ID_REGEX.search(text).group("app_id")],
      the [("seed", "timezone")] groups of [_SEED_TIMEZONE_REGEX.finditer(text)],
      and the [("timezone", "info", "extras")] groups of
      [re.finditer(_INFO_EXTRAS_REGEX.format(timezones=p), text)] *)
  re_bundle_url : string -> option string;
  re_app_id : string -> option string;
  re_seed_timezone : string -> list (string * string);
  re_info_extras : string -> string -> list (string * string * string);
  (** [pathvalidate.sanitize_filename] *)
  sanitize_filename : string -> string;
  (** mutagen: [FLAC(path).info], [MP3(path).info.bitrate], and what
      [tag_flac] / [tag_mp3] leave in the temporary file (by [is_mp3], the
      bytes the file held when the function was called, the two documents
      and the cover's bytes) *)
  flac_read : string -> option flac_info;
  mp3_bitrate : string -> option Z;
  tag_write : bool -> string -> track_data -> album_data -> option string -> exn + string;
  (** mutagen, for bytes without an ID3 header (for which [id3.ID3(path)]
      raises [ID3NoHeaderError]): what [id3.ID3().save(path)] makes of
      them; [None] for other bytes *)
  id3_save_empty : string -> option string;
  (** PIL: the 320x320 JPEG made of a cover's bytes *)
  pil_thumbnail : string -> exn + string;
  (** floating point: [f"{sr_hz / 1000:g}"], [int(bitrate / 1000)] and
      [int(size * 8 / length / 1000)] for a non-zero length *)
  format_khz : Z -> string;
  kbps : Z -> Z;
  kbps_from_size : Z -> pyfloat -> Z;
}.

(* ================================================================== *)
(** ** The state-and-exception monad *)
(* ================================================================== *)

Definition M (A : Type) : Type := World -> World * (exn + A).

Definition ret {A} (a : A) : M A := fun w => (w, inr a).
Definition raise {A} (e : exn) : M A := fun w => (w, inl e).
Definition bind {A B} (m : M A) (k : A -> M B) : M B :=
  fun w => match m w with
           | (w', inl e) => (w', inl e)
           | (w', inr a) => k a w'
           end.
(** [try: m except Exception as e: h e] (also the bare [except:]) *)
Definition try_except {A} (m : M A) (h : exn -> M A) : M A :=
  fun w => match m w with
           | (w', inl e) => h e w'
           | (w', inr a) => (w', inr a)
           end.

Notation "'let!' x ':=' m 'in' k" := (bind m (fun x => k))
  (at level 10, x name, m at level 100, k at level 200).
Notation "'let!' ' pat ':=' m 'in' k" := (bind m (fun x => match x with pat => k end))
  (at level 10, pat pattern, m at level 100, k at level 200).
Notation "m ';;' k" := (bind m (fun _ => k))
  (at level 100, k at level 200, right associativity).

Definition gets {A} (f : World -> A) : M A := fun w => (w, inr (f w)).
Definition modify (f : World -> World) : M unit := fun w => (f w, inr tt).

(** [d[k]] on a JSON object *)
Definition item {A} (key : string) (o : option A) : M A :=
  match o with Some a => ret a | None => raise (KeyError key) end.

Definition set_clock_reads (n : nat) (w : World) : World :=
  {| clock_reads := n; sent := sent w; logs := logs w; files := files w;
     dirs := dirs w; progress := progress w; client := client w |}.
Definition set_sent (l : list http_request) (w : World) : World :=
  {| clock_reads := clock_reads w; sent := l; logs := logs w; files := files w;
     dirs := dirs w; progress := progress w; client := client w |}.
Definition set_logs (l : list log_record) (w : World) : World :=
  {| clock_reads := clock_reads w; sent := sent w; logs := l; files := files w;
     dirs := dirs w; progress := progress w; client := client w |}.
Definition set_files (f : gmap string string) (w : World) : World :=
  {| clock_reads := clock_reads w; sent := sent w; logs := logs w; files := f;
     dirs := dirs w; progress := progress w; client := client w |}.
Definition set_dirs (d : gset string) (w : World) : World :=
  {| clock_reads := clock_reads w; sent := sent w; logs := logs w; files := files w;
     dirs := d; progress := progress w; client := client w |}.
Definition set_progress (p : list (Z * Z * string)) (w : World) : World :=
  {| clock_reads := clock_reads w; sent := sent w; logs := logs w; files := files w;
     dirs := dirs w; progress := p; client := client w |}.
Definition set_client (c : QobuzClient) (w : World) : World :=
  {| clock_reads := clock_reads w; sent := sent w; logs := logs w; files := files w;
     dirs := dirs w; progress := progress w; client := c |}.

(** [logger.<level>(...)] *)
Definition log (r : log_record) : M unit :=
  modify (fun w => set_logs (logs w ++ [r]) w).

(** [int(time.time())] *)
Definition time_now (env : Env) : M Z :=
  fun w => (set_clock_reads (S (clock_reads w)) w, inr (time_time env (clock_reads w))).

(** [await <client>.get(url, params=params)] with the client's headers *)
Definition http_get (env : Env) (hdrs : gmap string string) (url : string)
    (params : gmap string pyval) : M (Z * string) :=
  let req := Get hdrs url params in
  modify (fun w => set_sent (sent w ++ [req]) w);;
  match http env req with
  | NoResponse msg => raise (TransportError msg)
  | Response status content => ret (status, content)
  end.

(** [resp.raise_for_status()]: anything but 2xx raises. *)
Definition raise_for_status (status : Z) : M unit :=
  if (200 <=? status) && (status <? 300) then ret tt else raise (HTTPStatusError status).

(** [resp.json()] *)
Definition json {A} (parse : string -> option A) (content : string) : M A :=
  match parse content with Some d => ret d | None => raise JSONDecodeError end.

(** [os.path.exists(p)]: a regular file or a directory *)
Definition path_exists (w : World) (p : string) : bool :=
  bool_decide (is_Some (files w !! p)) || bool_decide (p ∈ dirs w).
Definition os_path_exists (p : string) : M bool := gets (fun w => path_exists w p).

(** [os.makedirs(p, exist_ok=True)]; the directories above [p] are not
    tracked. *)
Definition os_makedirs (p : string) : M unit :=
  modify (fun w => set_dirs ({[p]} ∪ dirs w) w).

(** writing [content] to a file opened with ["wb"] *)
Definition write_file (p content : string) : M unit :=
  modify (fun w => set_files (<[p := content]> (files w)) w).

(** reading a file's bytes *)
Definition read_file (p : string) : M string :=
  let! o := gets (fun w => files w !! p) in
  match o with Some c => ret c | None => raise (OSError "No such file or directory") end.

(** [os.remove(p)] *)
Definition os_remove (p : string) : M unit :=
  let! o := gets (fun w => files w !! p) in
  match o with
  | Some _ => modify (fun w => set_files (delete p (files w)) w)
  | None => raise (OSError "cannot remove")
  end.

(** [os.rename(src, dst)] for regular files *)
Definition os_rename (src dst : string) : M unit :=
  let! c := read_file src in
  modify (fun w => set_files (<[dst := c]> (delete src (files w))) w).

(** Truth value of an optional [str]: [None] and [""] are false. *)
Definition truthy (o : option string) : bool :=
  match o with Some s => negb (Py.is_empty s) | None => false end.

(* ================================================================== *)
(** ** metadata_utils.py *)
(* ================================================================== *)

Module metadata_utils.

Definition COPYRIGHT : string := Py.string_of_bytes [226; 132; 151].  (* "℗" *)
Definition PHON_COPYRIGHT : string := Py.string_of_bytes [194; 169].  (* "©" *)

Definition get_title (track_dict : track_data) : M string :=
  let! title := item "title" (t_title track_dict) in
  let version := t_version track_dict in
  let title := if truthy version
               then title +:+ " (" +:+ py_str_opt version +:+ ")" else title in
  let title := if truthy (t_work track_dict)
               then py_str_opt (t_work track_dict) +:+ ": " +:+ title else title in
  ret title.

Definition format_copyright (s : string) : string :=
  if negb (Py.is_empty s) then
    let s := Py.replace "(P)" PHON_COPYRIGHT s in
    let s := Py.replace "(C)" COPYRIGHT s in
    s
  else s.

(** [track_data.get("copyright") or album_data.get("copyright") or "n/a"] *)
Definition copyright_source (track : track_data) (album : album_data) : string :=
  if truthy (t_copyright track) then py_str_opt (t_copyright track)
  else if truthy (al_copyright album) then py_str_opt (al_copyright album)
  else "n/a".

(** [tag_flac] and [tag_mp3]: the file is opened with mutagen, the tags and the
    picture are set (among them
    [format_copyright (copyright_source track_data album_data)]), the file
    is saved, a file already at [final_name] is removed and the temporary
    file renamed.  What mutagen leaves in the file is [tag_write].
    [tag_mp3] begins by saving an empty ID3 header into a file that has
    none, before it reads the documents. *)
Definition tag_file (env : Env) (is_mp3 : bool) (filename final_name : string)
    (track : track_data) (album : album_data) (cover_path : option string) : M unit :=
  let! audio := read_file filename in
  (* [except ID3NoHeaderError: audio = id3.ID3(); audio.save(filename)] *)
  (if is_mp3 then
     match id3_save_empty env audio with
     | Some with_header => write_file filename with_header
     | None => ret tt
     end
   else ret tt);;
  (* [if cover_path:] and, in the embedding function, [os.path.isfile] *)
  let! cover :=
    if truthy cover_path then gets (fun w => files w !! py_str_opt cover_path)
    else ret None in
  let! tagged :=
    match tag_write env is_mp3 audio track album cover with
    | inl e => raise e
    | inr c => ret c
    end in
  write_file filename tagged;;
  let! present := os_path_exists final_name in
  (if present then os_remove final_name else ret tt);;
  os_rename filename final_name.

Definition tag_flac (env : Env) := tag_file env false.
Definition tag_mp3 (env : Env) := tag_file env true.

Definition create_thumbnail (env : Env) (image_path : option string) : M (option string) :=
  let! present :=
    match image_path with
    | Some p => if Py.is_empty p then ret false else os_path_exists p
    | None => ret false
    end in
  if negb present then ret None
  else
    let p := py_str_opt image_path in
    try_except
      (let thumb_path := Py.os_path_join (Py.os_path_dirname p) "thumb.jpg" in
       let! img := read_file p in
       let! thumb := match pil_thumbnail env img with
                     | inl e => raise e
                     | inr t => ret t
                     end in
       write_file thumb_path thumb;;
       log (LogThumbnailCreated thumb_path);;
       ret (Some thumb_path))
      (fun e => log (LogThumbnailError e);; ret None).

Definition is_hires (bt_depth sr_hz : Z) : bool := (16 <? bt_depth) || (48000 <? sr_hz).

Definition quality_type (bt_depth sr_hz : Z) : string :=
  if is_hires bt_depth sr_hz then "Hi-Res" else "CD".

Definition get_audio_info (env : Env) (file_path : string) : M string :=
  try_except
    (if Py.endswith ".flac" file_path then
       let! content := read_file file_path in
       let! info := match flac_read env content with
                    | Some i => ret i
                    | None => raise (LibraryError "not a FLAC file")
                    end in
       let bt_depth := default 16 (bits_per_sample info) in
       let sr_hz := sample_rate info in
       let has_bitrate := match fl_bitrate info with Some b => 0 <? b | None => false end in
       let! bitrate :=
         if has_bitrate then ret (kbps env (default 0 (fl_bitrate info)))
         else if fst (fl_length info) =? 0 then raise ZeroDivisionError
         else ret (kbps_from_size env (Z.of_nat (String.length content)) (fl_length info)) in
       let sr_str := format_khz env sr_hz in
       ret ("FLAC " +:+ quality_type bt_depth sr_hz +:+ " " +:+ Py.str_of_Z bt_depth
            +:+ "-Bit / " +:+ sr_str +:+ " kHz / " +:+ Py.str_of_Z bitrate +:+ " kbps")
     else if Py.endswith ".mp3" file_path then
       let! content := read_file file_path in
       let! b := match mp3_bitrate env content with
                 | Some b => ret b
                 | None => raise (LibraryError "not an MP3 file")
                 end in
       ret ("MP3 " +:+ Py.str_of_Z (kbps env b) +:+ " kbps")
     else ret "")
    (fun e => log (LogAudioInfoError e);; ret "").

(** The characters that the class of [r"([^\\u2192\\/]+)"] leaves out.
    The pattern is a raw string, so the regular expression reads the two
    backslashes as an escaped backslash and what follows them as plain
    characters: the class is everything but the backslash, [u], [2], [1],
    [9] and the slash. *)
Definition genre_break (c : ascii) : bool :=
  List.existsb (Ascii.eqb c) ["\"; "u"; "2"; "1"; "9"; "/"]%char.

(** [re.findall(r"([^...]+)", s)]: the maximal runs of characters outside
    the class, from left to right; [run] is the run being read. *)
Fixpoint findall_runs (excluded : ascii -> bool) (s : string) (run : string) : list string :=
  match s with
  | EmptyString => if Py.is_empty run then [] else [run]
  | String c s' =>
      if excluded c
      then (if Py.is_empty run then [] else [run]) ++ findall_runs excluded s' ""
      else findall_runs excluded s' (run +:+ String c "")
  end.

(** [[no_repeats.append(g) for g in genres if g not in no_repeats]] *)
Fixpoint append_new (genres : list string) (no_repeats : list string) : list string :=
  match genres with
  | [] => no_repeats
  | g :: rest =>
      if List.existsb (String.eqb g) no_repeats
      then append_new rest no_repeats
      else append_new rest (no_repeats ++ [g])
  end.

Definition format_genres (genres : list string) : string :=
  match genres with
  | [] => ""
  | _ =>
      let genres := findall_runs genre_break (Py.join "/" genres) "" in
      let no_repeats := append_new genres [] in
      Py.join ", " no_repeats
  end.


End metadata_utils.

(* ================================================================== *)
(** ** qobuz_client.py *)
(* ================================================================== *)

Module qobuz_client.

Definition _BASE_URL : string := "https://play.qobuz.com".
Definition base_url : string := "https://www.qobuz.com/api.json/0.2/".

(** [secrets_raw]: an [OrderedDict] from timezone to a list of strings,
    as its items in order. *)
Definition ordered_dict : Type := list (string * list string).

(** [d[k] = v]: an existing key keeps its place. *)
Fixpoint od_set (d : ordered_dict) (k : string) (v : list string) : ordered_dict :=
  match d with
  | [] => [(k, v)]
  | (k', v') :: d' => if String.eqb k' k then (k, v) :: d' else (k', v') :: od_set d' k v
  end.

Fixpoint od_get (d : ordered_dict) (k : string) : option (list string) :=
  match d with
  | [] => None
  | (k', v') :: d' => if String.eqb k' k then Some v' else od_get d' k
  end.

Fixpoint od_remove (d : ordered_dict) (k : string) : ordered_dict :=
  match d with
  | [] => []
  | (k', v') :: d' => if String.eqb k' k then d' else (k', v') :: od_remove d' k
  end.

(** [d.move_to_end(k, last=False)] for a key of [d] *)
Definition od_move_to_front (d : ordered_dict) (k : string) : ordered_dict :=
  match od_get d k with
  | Some v => (k, v) :: od_remove d k
  | None => d
  end.

(** [d[k] += extra]: [KeyError] for an absent key. *)
Definition od_extend (d : ordered_dict) (k : string) (extra : list string)
  : exn + ordered_dict :=
  match od_get d k with
  | Some v => inr (od_set d k (v ++ extra))
  | None => inl (KeyError k)
  end.

(** The loop over [seed_matches]. *)
Definition collect_seeds (seed_matches : list (string * string)) : ordered_dict :=
  List.fold_left (fun d '(seed, timezone) => od_set d timezone [seed]) seed_matches [].

(** [keypairs = list(secrets_raw.items()); if len(keypairs) > 1:
    secrets_raw.move_to_end(keypairs[1][0], last=False)] *)
Definition reorder (secrets_raw : ordered_dict) : ordered_dict :=
  match secrets_raw with
  | _ :: (k1, _) :: _ => od_move_to_front secrets_raw k1
  | _ => secrets_raw
  end.

(** ["|".join([tz.capitalize() for tz in secrets_raw])] *)
Definition timezones_pattern (secrets_raw : ordered_dict) : string :=
  Py.join "|" (List.map (fun kv => Py.capitalize (fst kv)) secrets_raw).

(** The loop over [info_extras_matches]. *)
Fixpoint add_info_extras (d : ordered_dict) (ms : list (string * string * string))
  : exn + ordered_dict :=
  match ms with
  | [] => inr d
  | (timezone, info, extras) :: ms' =>
      match od_extend d (Py.lower timezone) [info; extras] with
      | inl e => inl e
      | inr d' => add_info_extras d' ms'
      end
  end.

(** [base64.standard_b64decode("".join(parts)[:-44]).decode("utf-8")] *)
Definition decode_candidate (parts : list string) : option string :=
  base64.b64decode_utf8 (Py.drop_last 44 (Py.join "" parts)).

(** The loop that fills [self.secrets]: a candidate that does not decode
    is passed over. *)
Fixpoint decode_loop (d : ordered_dict) (acc : list string) : list string :=
  match d with
  | [] => acc
  | (tz, parts) :: d' =>
      match decode_candidate parts with
      | Some decoded => decode_loop d' (acc ++ [decoded])%list
      | None => decode_loop d' acc
      end
  end.

(** [secrets_raw] as it stands before the decoding loop. *)
Definition candidates (env : Env) (bundle_js : string) : exn + ordered_dict :=
  let secrets_raw := collect_seeds (re_seed_timezone env bundle_js) in
  let secrets_raw := reorder secrets_raw in
  let info_extras_matches := re_info_extras env (timezones_pattern secrets_raw) bundle_js in
  add_info_extras secrets_raw info_extras_matches.

(** The part of [_scrape_bundle] under "Get Secrets": from the bundle's
    text to the value of [self.secrets]. *)
Definition scrape_secrets (env : Env) (bundle_js : string) : exn + list string :=
  match candidates env bundle_js with
  | inl e => inl e
  | inr secrets_raw => inr (decode_loop secrets_raw [])
  end.

Definition set_app_id (v : option string) (c : QobuzClient) : QobuzClient :=
  {| email := email c; password := password c; user_auth_token := user_auth_token c;
     app_id := v; active_secret := active_secret c; secrets := secrets c;
     headers := headers c |}.
Definition set_active_secret (v : option string) (c : QobuzClient) : QobuzClient :=
  {| email := email c; password := password c; user_auth_token := user_auth_token c;
     app_id := app_id c; active_secret := v; secrets := secrets c;
     headers := headers c |}.
Definition set_secrets (v : list string) (c : QobuzClient) : QobuzClient :=
  {| email := email c; password := password c; user_auth_token := user_auth_token c;
     app_id := app_id c; active_secret := active_secret c; secrets := v;
     headers := headers c |}.
Definition set_user_auth_token (v : option string) (c : QobuzClient) : QobuzClient :=
  {| email := email c; password := password c; user_auth_token := v;
     app_id := app_id c; active_secret := active_secret c; secrets := secrets c;
     headers := headers c |}.
Definition set_header (k v : string) (c : QobuzClient) : QobuzClient :=
  {| email := email c; password := password c; user_auth_token := user_auth_token c;
     app_id := app_id c; active_secret := active_secret c; secrets := secrets c;
     headers := <[k := v]> (headers c) |}.

Definition update_client (f : QobuzClient -> QobuzClient) : M unit :=
  modify (fun w => set_client (f (client w)) w).

(** [QobuzClient(email, password, token, app_id, app_secret)] *)
Definition __init__ (email password token app_id app_secret : option string) : QobuzClient :=
  {| email := email; password := password; user_auth_token := token;
     app_id := app_id; active_secret := app_secret;
     secrets := if truthy app_secret then [py_str_opt app_secret] else [];
     headers :=
       {[ "User-Agent" :=
            "Mozilla/5.0 (Windows NT 10.0; Win64; x64; rv:83.0) Gecko/20100101 Firefox/83.0";
          "Content-Type" := "application/json;charset=UTF-8" ]} |}.

Definition _scrape_bundle (env : Env) : M unit :=
  log LogScraping;;
  let! '(status, text) := http_get env ∅ (_BASE_URL +:+ "/login") ∅ in
  raise_for_status status;;
  match re_bundle_url env text with
  | None => raise (Exception "Could not find bundle URL")
  | Some path =>
      let bundle_url := _BASE_URL +:+ path in
      let! '(status, bundle_js) := http_get env ∅ bundle_url ∅ in
      raise_for_status status;;
      match re_app_id env bundle_js with
      | None => raise (Exception "Could not find App ID in bundle")
      | Some id =>
          update_client (set_app_id (Some id));;
          match scrape_secrets env bundle_js with
          | inl e => raise e
          | inr decoded =>
              update_client (set_secrets decoded);;
              update_client (set_header "X-App-Id" id);;
              log (LogInitialized id)
          end
      end
  end.

Record signature := { ts : Z; sig : string }.

(** [params[key]] *)
Definition param (params : gmap string pyval) (key : string) : M pyval :=
  item key (params !! key).

Definition _generate_sig (env : Env) (entity method : string)
    (params : gmap string pyval) (secret : option string) : M signature :=
  let! ts := time_now env in
  let! r_sig :=
    if String.eqb method "getFileUrl" then
      let! format_id := param params "format_id" in
      let! track_id := param params "track_id" in
      ret ("trackgetFileUrlformat_id" +:+ py_str format_id +:+ "intentstreamtrack_id"
           +:+ py_str track_id +:+ Py.str_of_Z ts +:+ py_str_opt secret)
    else if String.eqb method "getUserFavorites" then
      ret ("favoritegetUserFavorites" +:+ Py.str_of_Z ts +:+ py_str_opt secret)
    else
      ret (entity +:+ method +:+ Py.str_of_Z ts +:+ py_str_opt secret) in
  let r_sig_hashed := hashlib.md5_hexdigest r_sig in
  ret {| ts := ts; sig := r_sig_hashed |}.

(** The query of a signed [track/getFileUrl] call. *)
Definition file_url_params (sig_data : signature) (track_id : pyval) (format_id : Z)
  : gmap string pyval :=
  {[ "request_ts" := PyInt (ts sig_data); "request_sig" := PyStr (sig sig_data);
     "track_id" := track_id; "format_id" := PyInt format_id;
     "intent" := PyStr "stream" ]}.

(** [await self.client.get(f"{self.base_url}{endpoint}", params=params)] *)
Definition client_get (env : Env) (endpoint : string) (params : gmap string pyval)
  : M (Z * string) :=
  let! hdrs := gets (fun w => headers (client w)) in
  http_get env hdrs (base_url +:+ endpoint) params.

Definition test_track_id : Z := 5966783.

(** One turn of the loop of [_find_active_secret] for a non-empty
    [secret]: [true] when the function returns from inside the loop. *)
Definition probe (env : Env) (secret : string) : M bool :=
  try_except
    (let! sig := _generate_sig env "track" "getFileUrl"
                   {[ "track_id" := PyInt test_track_id; "format_id" := PyInt 5 ]}
                   (Some secret) in
     let params := file_url_params sig (PyInt test_track_id) 5 in
     let! '(status_code, _) := client_get env "track/getFileUrl" params in
     if (status_code =? 200) || (status_code =? 403) then
       update_client (set_active_secret (Some secret));;
       log LogFoundActiveSecret;;
       ret true
     else if status_code =? 401 then
       log LogTokenUnauthorized;;
       ret false
     else ret false)
    (fun _ => ret false).

Fixpoint find_loop (env : Env) (candidates : list string) : M unit :=
  match candidates with
  | [] => raise (Exception "Could not find a valid app secret")
  | secret :: rest =>
      if Py.is_empty secret then find_loop env rest
      else
        let! found := probe env secret in
        if found then ret tt else find_loop env rest
  end.

Definition _find_active_secret (env : Env) : M unit :=
  let! candidates := gets (fun w => secrets (client w)) in
  find_loop env candidates.

Definition login (env : Env) (email password : string) : M unit :=
  let! c := gets client in
  let params : gmap string pyval :=
    {[ "email" := PyStr email;
       "password" := PyStr password;
       "app_id" := match app_id c with Some id => PyStr id | None => PyNone end ]} in
  let! '(_, content) := client_get env "user/login" params in
  let! data := json (json_login env) content in
  match lg_user_auth_token data with
  | None =>
      raise (Exception ("Login failed: " +:+ default "Unknown error" (lg_error data)))
  | Some token =>
      update_client (set_user_auth_token (Some token));;
      update_client (set_header "X-User-Auth-Token" token);;
      log LogLoginSuccessful;;
      _find_active_secret env
  end.

Definition initialize (env : Env) : M bool :=
  let! c := gets client in
  (if negb (truthy (app_id c)) || negb (truthy (active_secret c)) then _scrape_bundle env
   else
     update_client (set_header "X-App-Id" (py_str_opt (app_id c)));;
     log (LogProvidedAppId (py_str_opt (app_id c))));;
  let! c := gets client in
  (if truthy (user_auth_token c) then
     update_client (set_header "X-User-Auth-Token" (py_str_opt (user_auth_token c)));;
     log LogProvidedToken;;
     if negb (truthy (active_secret c)) then _find_active_secret env else ret tt
   else if truthy (email c) && truthy (password c) then
     login env (py_str_opt (email c)) (py_str_opt (password c))
   else
     if negb (truthy (active_secret c)) then _find_active_secret env else ret tt);;
  ret true.

(** [request(endpoint, params)], with the reader of the expected JSON *)
Definition request {A} (env : Env) (parse : string -> option A) (endpoint : string)
    (params : gmap string pyval) : M A :=
  let! '(status, content) := client_get env endpoint params in
  raise_for_status status;;
  json parse content.

Definition get_album (env : Env) (album_id : pyval) : M album_data :=
  request env (json_album env) "album/get" {[ "album_id" := album_id ]}.

Definition get_track (env : Env) (track_id : pyval) : M track_data :=
  request env (json_track env) "track/get" {[ "track_id" := track_id ]}.

Definition get_file_url (env : Env) (track_id : pyval) (format_id : Z) : M file_info :=
  let! secret := gets (fun w => active_secret (client w)) in
  let! sig_data := _generate_sig env "track" "getFileUrl"
                     {[ "track_id" := track_id; "format_id" := PyInt format_id ]} secret in
  let params := file_url_params sig_data track_id format_id in
  request env (json_file_info env) "track/getFileUrl" params.

End qobuz_client.

(* ================================================================== *)
(** ** downloader.py *)
(* ================================================================== *)

Module downloader.

Import qobuz_client metadata_utils.

(** The [player_info] dictionary. *)
Record player_info := {
  pi_title : string;
  pi_performer : string;
  pi_duration : option Z;
  pi_cover : option string;
  pi_thumbnail : option string;
  pi_folder_path : string;
}.

(** The two shapes [download_track] returns: [return final_path] and
    [return final_path, caption, player_info]. *)
Inductive dl_result :=
| ReturnPath (final_path : string)
| ReturnTriple (final_path : string) (caption : string) (info : player_info).

Definition result_path (r : dl_result) : string :=
  match r with ReturnPath p => p | ReturnTriple p _ _ => p end.

(** The body of the [for url in urls_to_try] loop and what follows it;
    [cover_path] is returned from inside the loop on the first 200. *)
Fixpoint cover_loop (env : Env) (cover_path : string) (urls_to_try : list string)
  : M (option string) :=
  match urls_to_try with
  | [] => log LogNoCover;; ret None
  | url :: rest =>
      if Py.is_empty url then cover_loop env cover_path rest
      else
        let! written :=
          try_except
            (let! '(status_code, content) := http_get env ∅ url ∅ in
             if status_code =? 200 then
               write_file cover_path content;;
               log (LogCoverDownloaded url);;
               ret true
             else ret false)
            (fun e => log (LogCoverFailed url e);; ret false) in
        if written then ret (Some cover_path) else cover_loop env cover_path rest
  end.

(** [album_data["image"][key]]: the [KeyError] names the key that is
    absent, ["image"] or, under it, [key]. *)
Definition image_entry (album_data : album_data) (key : string) (entry : option string)
  : M string :=
  item (if al_image album_data then key else "image") entry.

Definition _download_cover (env : Env) (album_data : album_data) (folder_path : string)
  : M (option string) :=
  let cover_path := Py.os_path_join folder_path "cover.jpg" in
  let! present := os_path_exists cover_path in
  if present then ret (Some cover_path)
  else
    let! base_url := image_entry album_data "large" (al_image_large album_data) in
    let! small := image_entry album_data "small" (al_image_small album_data) in
    let urls_to_try :=
      [ Py.replace "_600.jpg" "_org.jpg" base_url;   (* Original *)
        base_url;                                    (* 600px *)
        small ]                                      (* fallback *) in
    cover_loop env cover_path urls_to_try.

(** [await f.write(chunk)] on the open temporary file *)
Definition append_file (p chunk : string) : M unit :=
  modify (fun w => set_files (<[p := default "" (files w !! p) +:+ chunk]> (files w)) w).

(** The [async for chunk in response.aiter_bytes(...)] loop. *)
Fixpoint write_chunks (tmp_path : string) (pbar_callback : bool) (total_size : Z)
    (filename : string) (downloaded : Z) (chunks : list string) : M unit :=
  match chunks with
  | [] => ret tt
  | chunk :: rest =>
      append_file tmp_path chunk;;
      let downloaded := downloaded + Z.of_nat (String.length chunk) in
      (if pbar_callback
       then modify (fun w => set_progress (progress w ++ [(downloaded, total_size, filename)]) w)
       else ret tt);;
      write_chunks tmp_path pbar_callback total_size filename downloaded rest
  end.

(** The "Start download" block. *)
Definition stream_to_file (env : Env) (url tmp_path : string) (pbar_callback : bool)
    (filename : string) : M unit :=
  modify (fun w => set_sent (sent w ++ [Stream url]) w);;
  match http_stream env url with
  | NoStream msg => raise (TransportError msg)
  | StreamResponse status content_length chunks broken =>
      raise_for_status status;;
      let total_size := default 0 content_length in
      write_file tmp_path "";;
      write_chunks tmp_path pbar_callback total_size filename 0 chunks;;
      match broken with
      | Some msg => raise (TransportError msg)
      | None => ret tt
      end
  end.

(** [sanitize_filename(f"{artist_name} - {album_title} ({year})")] under
    the download root *)
Definition album_folder (env : Env) (self : QobuzDownloader)
    (artist_name album_title year : string) : string :=
  let folder_name :=
    sanitize_filename env (artist_name +:+ " - " +:+ album_title +:+ " (" +:+ year +:+ ")") in
  Py.os_path_join (base_path self) folder_name.

(** [pbar_callback] tells whether a progress callback was passed; its
    invocations are recorded in [progress]. *)
Definition download_track (env : Env) (self : QobuzDownloader) (track_id : pyval)
    (album_data : option album_data) (folder_path : option string)
    (pbar_callback : bool) : M dl_result :=
  let! '(album_data, track_data) :=
    match album_data with
    | None =>
        let! track_meta := get_track env track_id in
        let! album_data := item "album" (t_album track_meta) in
        ret (album_data, track_meta)
    | Some album_data =>
        let! track_data := get_track env track_id in
        ret (album_data, track_data)
    end in
  (* Get download URL *)
  let! file_info := get_file_url env track_id (quality self) in
  let url := fi_url file_info in
  if negb (truthy url) then
    raise (Exception "No download URL available. It might be a demo or restricted.")
  else
  (* Prepare paths *)
  let! artist_name := item "artist" (al_artist_name album_data) in
  let! album_title := item "title" (al_title album_data) in
  let year := Py.split_first "-" (default "" (al_release_date_original album_data)) in
  let folder_path :=
    if truthy folder_path then py_str_opt folder_path
    else album_folder env self artist_name album_title year in
  os_makedirs folder_path;;
  let is_mp3 := quality self =? 5 in
  let extension := if is_mp3 then ".mp3" else ".flac" in
  let! number := item "track_number" (t_track_number track_data) in
  let track_number := Py.format_02 number in
  let! track_title := get_title track_data in
  let filename := sanitize_filename env (track_number +:+ ". " +:+ track_title +:+ extension) in
  let final_path := Py.os_path_join folder_path filename in
  let! present := os_path_exists final_path in
  if present then
    log (LogFileExists filename);;
    ret (ReturnPath final_path)
  else
  (* Temp *)
  let tmp_path := final_path +:+ ".tmp" in
  (* Download cover if not exists *)
  let! cover_path := _download_cover env album_data folder_path in
  (* Start download *)
  stream_to_file env (py_str_opt url) tmp_path pbar_callback filename;;
  (* Prepare thumbnail *)
  let thumb_path := Py.os_path_join folder_path "thumb.jpg" in
  let! stale := os_path_exists thumb_path in
  (if stale then try_except (os_remove thumb_path) (fun _ => ret tt) else ret tt);;
  let! thumb_path :=
    try_except (create_thumbnail env cover_path)
               (fun e => log (LogThumbnailFailed e);; ret None) in
  (* Tagging *)
  (if is_mp3 then tag_mp3 env else tag_flac env)
    tmp_path final_path track_data album_data cover_path;;
  let! caption := get_audio_info env final_path in
  let player_info :=
    {| pi_title := track_title;
       pi_performer := artist_name;
       pi_duration := t_duration track_data;
       pi_cover := cover_path;
       pi_thumbnail := thumb_path;
       pi_folder_path := folder_path |} in
  ret (ReturnTriple final_path caption player_info).

(** The [for i, track in enumerate(tracks)] loop. *)
Fixpoint album_loop (env : Env) (self : QobuzDownloader) (album_data : album_data)
    (folder_path : string) (pbar_callback : bool) (tracks : list track_item)
    (downloaded_data : list dl_result) : M (list dl_result) :=
  match tracks with
  | [] => ret downloaded_data
  | track :: rest =>
      let! downloaded_data :=
        try_except
          (let! id := item "id" (ti_id track) in
           let! result := download_track env self id (Some album_data) (Some folder_path)
                            pbar_callback in
           ret (downloaded_data ++ [result])%list)
          (fun e =>
             let! title := item "title" (ti_title track) in
             log (LogTrackFailed title e);;
             ret downloaded_data) in
      album_loop env self album_data folder_path pbar_callback rest downloaded_data
  end.

Definition download_album (env : Env) (self : QobuzDownloader) (album_id : pyval)
    (pbar_callback : bool) : M (list dl_result) :=
  let! album_data := get_album env album_id in
  let! tracks := item "tracks" (al_tracks_items album_data) in
  let! artist_name := item "artist" (al_artist_name album_data) in
  let! album_title := item "title" (al_title album_data) in
  let year := Py.split_first "-" (default "" (al_release_date_original album_data)) in
  let folder_path := album_folder env self artist_name album_title year in
  album_loop env self album_data folder_path pbar_callback tracks [].

End downloader.

(* ================================================================== *)
(** ** main.py: the user settings, the callback data and the paging *)
(* ================================================================== *)

Module main.

(** *** [UserSettings] *)

(** The settings document:
    [{str(user_id): {"quality": ..., "lang": ...}}]. *)
Abbreviation settings_doc := (gmap string (gmap string pyval)).

(** The JSON files on disk, each represented by the document that
    [json.load] reads from it and [json.dump] writes to it; [None] stands
    for a file that does not hold JSON.  The documents are those the
    program writes: an object of objects. *)
Abbreviation json_files := (gmap string (option settings_doc)).

Record UserSettings := {
  file_path : string;
  settings : settings_doc;
}.

Definition _load (file_path : string) (disk : json_files) : exn + settings_doc :=
  match disk !! file_path with
  | Some (Some doc) => inr doc
  | Some None => inl JSONDecodeError
  | None => inr ∅
  end.

(** [UserSettings(file_path)] *)
Definition __init__ (file_path : string) (disk : json_files) : exn + UserSettings :=
  match _load file_path disk with
  | inl e => inl e
  | inr doc => inr {| file_path := file_path; settings := doc |}
  end.

Definition _save (self : UserSettings) (disk : json_files) : json_files :=
  <[file_path self := Some (settings self)]> disk.

(** [self.settings.get(str(user_id), {}).get(key, fallback)] *)
Definition get_entry (key : string) (fallback : pyval) (self : UserSettings) (user_id : Z)
  : pyval :=
  default fallback (default ∅ (settings self !! Py.str_of_Z user_id) !! key).

(** [if str(user_id) not in self.settings: self.settings[str(user_id)] = {}]
    and [self.settings[str(user_id)][key] = value] *)
Definition set_entry (key : string) (self : UserSettings) (user_id : Z) (value : pyval)
  : UserSettings :=
  let uid := Py.str_of_Z user_id in
  let settings :=
    if bool_decide (is_Some (settings self !! uid)) then settings self
    else <[uid := ∅]> (settings self) in
  {| file_path := file_path self;
     settings := <[uid := <[key := value]> (default ∅ (settings !! uid))]> settings |}.

(** [QUALITY] is [int(os.getenv("DEFAULT_QUALITY", 6))]. *)
Definition get_quality (QUALITY : Z) (self : UserSettings) (user_id : Z) : pyval :=
  get_entry "quality" (PyInt QUALITY) self user_id.

Definition set_quality (self : UserSettings) (user_id : Z) (quality : pyval)
    (disk : json_files) : UserSettings * json_files :=
  let self := set_entry "quality" self user_id quality in
  (self, _save self disk).

Definition get_lang (self : UserSettings) (user_id : Z) : pyval :=
  get_entry "lang" (PyStr "ru") self user_id.

Definition set_lang (self : UserSettings) (user_id : Z) (lang : pyval)
    (disk : json_files) : UserSettings * json_files :=
  let self := set_entry "lang" self user_id lang in
  (self, _save self disk).

(** *** Callback data *)

(** What reading callback data can raise. *)
Inductive raised := IndexError | ValueError.

(** [parts[i]] *)
Definition part (parts : list string) (i : nat) : raised + string :=
  match parts !! i with Some p => inr p | None => inl IndexError end.

(** [int(s)]; [int] is the interpreter's conversion of a [str], [None]
    where it raises. *)
Definition to_int (int : string -> option Z) (s : string) : raised + Z :=
  match int s with Some z => inr z | None => inl ValueError end.

(** The buttons of a page of search results ([perform_search]):
    [f"ar:{artist['id']}:{offset}:{query}"[:64]],
    [f"al:{album['id']}:0:{offset}:{query}"[:64]] and, in the navigation
    row, [f"sp:{offset-limit}:{query}"[:64]] and
    [f"sp:{offset+limit}:{query}"[:64]]. *)
Definition artist_button (artist_id : pyval) (offset : Z) (query : string) : string :=
  Py.take 64 ("ar:" +:+ py_str artist_id +:+ ":" +:+ Py.str_of_Z offset +:+ ":" +:+ query).
Definition album_button (album_id : pyval) (offset : Z) (query : string) : string :=
  Py.take 64 ("al:" +:+ py_str album_id +:+ ":0:" +:+ Py.str_of_Z offset +:+ ":" +:+ query).
Definition search_page_button (offset : Z) (query : string) : string :=
  Py.take 64 ("sp:" +:+ Py.str_of_Z offset +:+ ":" +:+ query).

(** [cb_search_page]: the query and the offset it passes to
    [perform_search]. *)
Definition cb_search_page (int : string -> option Z) (data : string) : raised + (string * Z) :=
  let parts := Py.split ":" data in
  match part parts 1 with
  | inl e => inl e
  | inr p =>
      match to_int int p with
      | inl e => inl e
      | inr offset =>
          let query := Py.join ":" (List.skipn 2 parts) in
          inr (query, offset)
      end
  end.

(** [cb_artist]: the artist, the offset and the query it reads. *)
Definition cb_artist (int : string -> option Z) (data : string)
  : raised + (string * Z * string) :=
  let parts := Py.split ":" data in
  match part parts 1 with
  | inl e => inl e
  | inr artist_id =>
      match (if (2 <? List.length parts)%nat
             then match part parts 2 with inl e => inl e | inr p => to_int int p end
             else inr 0) with
      | inl e => inl e
      | inr search_offset =>
          let search_query := if (3 <? List.length parts)%nat
                              then default "" (parts !! 3%nat) else "main" in
          inr (artist_id, search_offset, search_query)
      end
  end.

(** [cb_album_details]: the album, the track offset and the context it
    reads. *)
Definition cb_album_details (int : string -> option Z) (data : string)
  : raised + (string * Z * string) :=
  let parts := Py.split ":" data in
  match part parts 1 with
  | inl e => inl e
  | inr album_id =>
      match part parts 2 with
      | inl e => inl e
      | inr p =>
          match to_int int p with
          | inl e => inl e
          | inr track_offset =>
              let context_data := Py.join ":" (List.skipn 3 parts) in
              inr (album_id, track_offset, context_data)
          end
      end
  end.

(** The page of tracks [cb_album_details] shows: [limit = 8]. *)
Definition tracks_slice {A} (track_offset : Z) (tracks : list A) : list A :=
  let limit := 8 in
  let total_tracks := Z.of_nat (List.length tracks) in
  let start := track_offset in
  let end_ := Z.min (track_offset + limit) total_tracks in
  Py.slice tracks start end_.

(** Its navigation row, and its last button, the way back:
    [callback_data=context_data[:64]]. *)
Definition album_nav (album_id : string) (track_offset total_tracks : Z)
    (context_data : string) : list string :=
  let limit := 8 in
  ((if limit <=? track_offset
    then [Py.take 64 ("al:" +:+ album_id +:+ ":" +:+ Py.str_of_Z (track_offset - limit)
                      +:+ ":" +:+ context_data)]
    else [])
   ++ (if track_offset + limit <? total_tracks
       then [Py.take 64 ("al:" +:+ album_id +:+ ":" +:+ Py.str_of_Z (track_offset + limit)
                         +:+ ":" +:+ context_data)]
       else []))%list.
Definition album_back_button (context_data : string) : string := Py.take 64 context_data.

(** The handlers of callback queries, in the order of their
    registration, each with its filter on the callback data. *)
Inductive handler :=
| CbMenuQuality | CbMenuLang | CbMenuMain | CbSetQuality | CbSetLang | CbArtist
| CbArtistAlbums | CbSearchPage | CallbackTrack | CbAlbumDetails | CbDlFullAlbum
| CallbacksNum.

Definition callback_query_handlers : list ((string -> bool) * handler) :=
  [ (String.eqb "menu:quality", CbMenuQuality);
    (String.eqb "menu:lang", CbMenuLang);
    (String.eqb "menu:main", CbMenuMain);
    (Py.startswith "set_quality:", CbSetQuality);
    (Py.startswith "set_lang:", CbSetLang);
    (Py.startswith "ar:", CbArtist);
    (Py.startswith "aa:", CbArtistAlbums);
    (Py.startswith "sp:", CbSearchPage);
    (Py.startswith "dl_track:", CallbackTrack);
    (Py.startswith "al:", CbAlbumDetails);
    (Py.startswith "dl_full:", CbDlFullAlbum);
    (Py.startswith "dl_album:", CallbacksNum) ].

(** The handler that receives a callback query: the first one whose
    filter accepts the data. *)
Definition dispatch (data : string) : option handler :=
  option_map snd (List.find (fun h => fst h data) callback_query_handlers).

End main.

(* ================================================================== *)
(** ** A sample provider, used to run the model on concrete inputs *)
(* ================================================================== *)

Module Sample.

Import qobuz_client metadata_utils downloader.

(** [f"{sr_hz / 1000:g}"] for a sample rate between 0 and 999999 Hz: the
    quotient has at most six significant digits, so ["g"] prints it
    exactly, without trailing zeros. *)
Definition khz (sr : Z) : string :=
  let frac := sr mod 1000 in
  let int_part := Py.str_of_Z (sr / 1000) in
  if frac =? 0 then int_part
  else if frac mod 100 =? 0 then int_part +:+ "." +:+ Py.str_of_Z (frac / 100)
  else if frac mod 10 =? 0 then
    int_part +:+ "." +:+ (if frac <? 100 then "0" else "") +:+ Py.str_of_Z (frac / 10)
  else
    int_part +:+ "." +:+ (if frac <? 10 then "00" else if frac <? 100 then "0" else "")
    +:+ Py.str_of_Z frac.

Definition album : album_data :=
  {| al_artist_name := Some "Artist"; al_title := Some "Album";
     al_release_date_original := Some "2020-05-01";
     al_image := true;
     al_image_large := Some "https://img.example/cover_600.jpg";
     al_image_small := Some "https://img.example/cover_50.jpg";
     al_tracks_items :=
       Some [ {| ti_id := Some (PyInt 1); ti_title := Some "One" |};
              {| ti_id := Some (PyInt 2); ti_title := Some "Two" |};
              {| ti_id := Some (PyInt 3); ti_title := Some "Three" |} ];
     al_copyright := Some "(C) 2020 Label" |}.

Definition track (n : Z) (title : string) : track_data :=
  {| t_title := Some title; t_version := None; t_work := None;
     t_track_number := Some n; t_duration := Some 180;
     t_copyright := Some "(P) 2020 Label"; t_album := Some album |}.

Definition url_is (u : string) (req : http_request) : bool :=
  match req with Get _ url _ => String.eqb url u | Stream _ => false end.

Definition int_param_is (k : string) (v : Z) (req : http_request) : bool :=
  match req with
  | Get _ _ params => match params !! k with Some (PyInt z) => z =? v | _ => false end
  | Stream _ => false
  end.

Definition str_param_is (k : string) (v : string) (req : http_request) : bool :=
  match req with
  | Get _ _ params => match params !! k with Some (PyStr s) => String.eqb s v | _ => false end
  | Stream _ => false
  end.

(** A catalogue of three tracks; track 2 has no stream URL; of the cover
    URLs only the small one answers 200. *)
Definition catalogue (req : http_request) : response :=
  if url_is "https://www.qobuz.com/api.json/0.2/track/get" req then
    if int_param_is "track_id" 1 req then Response 200 "track-1"
    else if int_param_is "track_id" 2 req then Response 200 "track-2"
    else if int_param_is "track_id" 3 req then Response 200 "track-3"
    else Response 404 ""
  else if url_is "https://www.qobuz.com/api.json/0.2/track/getFileUrl" req then
    if int_param_is "track_id" 2 req then Response 200 "no-url" else Response 200 "file-url"
  else if url_is "https://www.qobuz.com/api.json/0.2/album/get" req then Response 200 "album"
  else if url_is "https://img.example/cover_50.jpg" req then Response 200 "JPEG"
  else Response 404 "".

Definition flac_24_44 : flac_info :=
  {| bits_per_sample := Some 24; sample_rate := 44100; fl_bitrate := Some 1411200;
     fl_length := (180, 0) |}.
Definition flac_16_44 : flac_info :=
  {| bits_per_sample := Some 16; sample_rate := 44100; fl_bitrate := Some 900000;
     fl_length := (180, 0) |}.

(** An environment around a given network and [re] behaviour; its
    floating-point entries are exact for sample rates below 1000000 Hz,
    bitrates below 2^53 and lengths that are whole seconds. *)
Definition make_env (net : http_request -> response)
    (seeds : string -> list (string * string))
    (infos : string -> string -> list (string * string * string))
    (flac : string -> option flac_info) : Env :=
  {| time_time := fun n => 1700000000 + Z.of_nat n;
     http := net;
     http_stream := fun url => StreamResponse 200 (Some 8) ["fLaC"; "DATA"] None;
     json_track := fun c =>
       if String.eqb c "track-1" then Some (track 1 "One")
       else if String.eqb c "track-2" then Some (track 2 "Two")
       else if String.eqb c "track-3" then Some (track 3 "Three")
       else None;
     json_album := fun c => if String.eqb c "album" then Some album else None;
     json_file_info := fun c =>
       if String.eqb c "file-url" then Some {| fi_url := Some "https://cdn.example/stream" |}
       else if String.eqb c "no-url" then Some {| fi_url := None |}
       else None;
     json_login := fun c =>
       if String.eqb c "login-ok"
       then Some {| lg_user_auth_token := Some "token"; lg_error := None |}
       else None;
     re_bundle_url := fun _ => Some "/resources/7.1.3-b011/bundle.js";
     re_app_id := fun _ => Some "123456789";
     re_seed_timezone := seeds;
     re_info_extras := infos;
     sanitize_filename := fun s => s;
     flac_read := flac;
     mp3_bitrate := fun c => Some 320000;
     tag_write := fun _ c _ _ _ => inr (c +:+ "+tags");
     id3_save_empty := fun c => if Py.startswith "ID3" c then None else Some ("ID3" +:+ c);
     pil_thumbnail := fun c => inr "THUMB";
     format_khz := khz;
     kbps := fun b => b / 1000;
     kbps_from_size := fun size len => (size * 8) / fst len / 1000 |}.

Definition env : Env :=
  make_env catalogue (fun _ => []) (fun _ _ => []) (fun _ => Some flac_24_44).

(** A bundle with three timezones, each with one info/extras entry; the
    payloads are the base64 text of three 32-character secrets, followed
    by 44 filler characters. *)
Definition three_seeds (text : string) : list (string * string) :=
  [ ("OTc5NTQ5NDM3", "berlin"); ("MTBiMjUxYzI4", "london"); ("ZDJmZTljM2E0", "abidjan") ].
Definition three_infos (pattern text : string) : list (string * string * string) :=
  if String.eqb pattern "London|Berlin|Abidjan" then
    [ ("Berlin", "ZmNjNGEzZmFhZDQ4Nj",
       "diNWNkMjVkY2I=QQQQQQQQQQQQQQQQQQQQQQQQQQQQQQQQQQQQQQQQQQQQ");
      ("London", "NmNmYmY2NGQ2YjcxMD",
       "VmMjUzZDlhMmU=QQQQQQQQQQQQQQQQQQQQQQQQQQQQQQQQQQQQQQQQQQQQ");
      ("Abidjan", "YjVkNmU3ZjgwOTFhMm",
       "IzYzRkNWU2Zjc=QQQQQQQQQQQQQQQQQQQQQQQQQQQQQQQQQQQQQQQQQQQQ") ]
  else [].
Definition env_three_timezones : Env :=
  make_env catalogue three_seeds three_infos (fun _ => Some flac_24_44).

(** A bundle with two timezones and no info/extras entry: the seed of the
    first leaves nothing after the 44-character cut, the seed of the
    second leaves the single character [w], which is not valid base64. *)
Definition two_seeds (text : string) : list (string * string) :=
  [ ("=", "berlin"); ("w============================================", "london") ].
Definition env_two_timezones : Env :=
  make_env catalogue two_seeds (fun _ _ => []) (fun _ => Some flac_24_44).

(** A client that was given an app id, a secret and a token. *)
Definition configured_client : QobuzClient :=
  set_header "X-User-Auth-Token" "token"
    (set_header "X-App-Id" "123456789"
       (__init__ None None (Some "token") (Some "123456789") (Some "s3cr3t"))).

Definition world (c : QobuzClient) (fs : gmap string string) : World :=
  {| clock_reads := 0; sent := []; logs := []; files := fs; dirs := ∅;
     progress := []; client := c |}.

Definition fresh : World := world configured_client ∅.

Definition self : QobuzDownloader := {| base_path := "./downloads"; quality := 6 |}.

(** A provider that answers the first signed probe (the one stamped
    1700000000) with 401, the next with 403, any later one with 400. *)
Definition probing (req : http_request) : response :=
  if url_is "https://www.qobuz.com/api.json/0.2/track/getFileUrl" req then
    if int_param_is "request_ts" 1700000000 req then Response 401 ""
    else if int_param_is "request_ts" 1700000001 req then Response 403 ""
    else Response 400 ""
  else Response 404 "".
Definition env_probing : Env :=
  make_env probing (fun _ => []) (fun _ _ => []) (fun _ => None).

(** A client holding four candidates, the second of them empty, and no
    active secret. *)
Definition searching_client : QobuzClient :=
  set_secrets ["first"; ""; "second"; "third"]
    (set_header "X-App-Id" "123456789" (__init__ None None (Some "token") None None)).

(** A provider that lets the user log in and answers every signed probe
    with 400. *)
Definition rejecting (req : http_request) : response :=
  if url_is "https://www.qobuz.com/api.json/0.2/user/login" req then Response 200 "login-ok"
  else if url_is "https://www.qobuz.com/api.json/0.2/track/getFileUrl" req then Response 400 ""
  else Response 404 "".
Definition env_rejecting : Env :=
  make_env rejecting (fun _ => []) (fun _ _ => []) (fun _ => None).

(** The client of a configuration with e-mail, password, app id and app
    secret, as constructed, and as it is when [login] calls
    [_find_active_secret]. *)
Definition password_client : QobuzClient :=
  __init__ (Some "user@example.org") (Some "hunter2") None (Some "123456789") (Some "s3cr3t").
Definition logged_in_client : QobuzClient :=
  set_header "X-User-Auth-Token" "token"
    (set_user_auth_token (Some "token")
       (set_header "X-App-Id" "123456789" password_client)).

(** A provider whose web player serves the login page and the bundle, and
    whose API lets the user log in and answers every signed probe with
    403. *)
Definition web_player (req : http_request) : response :=
  if url_is "https://play.qobuz.com/login" req then Response 200 "<html>"
  else if url_is "https://play.qobuz.com/resources/7.1.3-b011/bundle.js" req
  then Response 200 "bundle.js"
  else if url_is "https://www.qobuz.com/api.json/0.2/user/login" req then Response 200 "login-ok"
  else if url_is "https://www.qobuz.com/api.json/0.2/track/getFileUrl" req then Response 403 ""
  else Response 404 "".
Definition env_web_player : Env :=
  make_env web_player three_seeds three_infos (fun _ => None).

(** The client of a configuration with e-mail and password only. *)
Definition unconfigured_client : QobuzClient :=
  __init__ (Some "user@example.org") (Some "hunter2") None None None.

(** A provider that refuses the login with status 401 and an [error]
    entry in the body. *)
Definition refusing (req : http_request) : response :=
  if url_is "https://www.qobuz.com/api.json/0.2/user/login" req
  then Response 401 "login-refused"
  else Response 404 "".
Definition env_refusing : Env :=
  {| time_time := time_time env;
     http := refusing;
     http_stream := http_stream env;
     json_track := json_track env;
     json_album := json_album env;
     json_file_info := json_file_info env;
     json_login := fun c =>
       if String.eqb c "login-refused"
       then Some {| lg_user_auth_token := None;
                    lg_error := Some "Invalid username/email and password combination" |}
       else None;
     re_bundle_url := re_bundle_url env;
     re_app_id := re_app_id env;
     re_seed_timezone := re_seed_timezone env;
     re_info_extras := re_info_extras env;
     sanitize_filename := sanitize_filename env;
     flac_read := flac_read env;
     mp3_bitrate := mp3_bitrate env;
     tag_write := tag_write env;
     id3_save_empty := id3_save_empty env;
     pil_thumbnail := pil_thumbnail env;
     format_khz := format_khz env;
     kbps := kbps env;
     kbps_from_size := kbps_from_size env |}.

(** [int] on the decimal text of an integer. *)
Definition int (s : string) : option Z := option_map Z.of_int (NilZero.int_of_string s).

(** A bundle on which the 44-character cut shows.  The payload of each of
    the first two timezones is the base64 text, without padding, of a
    30-character secret; it is followed, for [london], by 44 characters of
    the base64 alphabet and, for [berlin], by 44 two-byte characters.
    What the cut leaves of the third candidate is not valid base64. *)
Definition forty_four_e_acute : string :=
  Py.string_of_bytes (List.concat (List.repeat [195; 169] 44)).
Definition cut_seeds (text : string) : list (string * string) :=
  [ ("OTc5NTQ5NDM3", "berlin"); ("MTBiMjUxYzI4", "london"); ("YQ", "abidjan") ].
Definition cut_infos (pattern text : string) : list (string * string * string) :=
  if String.eqb pattern "London|Berlin|Abidjan" then
    [ ("Berlin", "ZmNjNGEzZmFhZDQ4Nj", "diNWNkMjVk" +:+ forty_four_e_acute);
      ("London", "NmNmYmY2NGQ2YjcxMD",
       "VmMjUzZDlhQUJDREVGR0hJSktMTU5PUFFSU1RVVldYWVphYmNkZWZn");
      ("Abidjan", "QQQQQQQQQQQQQQQQQQQQQQ", "QQQQQQQQQQQQQQQQQQQQQQ") ]
  else [].
Definition env_cut : Env :=
  make_env catalogue cut_seeds cut_infos (fun _ => Some flac_24_44).

(** A provider whose file names are sanitized by leaving out the
    slashes. *)
Fixpoint strip_slashes (s : string) : string :=
  match s with
  | EmptyString => EmptyString
  | String c s' => if Ascii.eqb c "/" then strip_slashes s' else String c (strip_slashes s')
  end.
Definition env_sanitizing : Env :=
  {| time_time := time_time env;
     http := http env;
     http_stream := http_stream env;
     json_track := json_track env;
     json_album := json_album env;
     json_file_info := json_file_info env;
     json_login := json_login env;
     re_bundle_url := re_bundle_url env;
     re_app_id := re_app_id env;
     re_seed_timezone := re_seed_timezone env;
     re_info_extras := re_info_extras env;
     sanitize_filename := strip_slashes;
     flac_read := flac_read env;
     mp3_bitrate := mp3_bitrate env;
     tag_write := tag_write env;
     id3_save_empty := id3_save_empty env;
     pil_thumbnail := pil_thumbnail env;
     format_khz := format_khz env;
     kbps := kbps env;
     kbps_from_size := kbps_from_size env |}.

(** A tagger that fails on the track document, as mutagen's callers do
    when [track_number] is missing. *)
Definition env_failing_tagger : Env :=
  {| time_time := time_time env;
     http := http env;
     http_stream := http_stream env;
     json_track := json_track env;
     json_album := json_album env;
     json_file_info := json_file_info env;
     json_login := json_login env;
     re_bundle_url := re_bundle_url env;
     re_app_id := re_app_id env;
     re_seed_timezone := re_seed_timezone env;
     re_info_extras := re_info_extras env;
     sanitize_filename := sanitize_filename env;
     flac_read := flac_read env;
     mp3_bitrate := mp3_bitrate env;
     tag_write := fun _ _ _ _ _ => inl (KeyError "track_number");
     id3_save_empty := id3_save_empty env;
     pil_thumbnail := pil_thumbnail env;
     format_khz := format_khz env;
     kbps := kbps env;
     kbps_from_size := kbps_from_size env |}.

End Sample.

(* ================================================================== *)
(** ** Vocabulary of the statements *)
(* ================================================================== *)

Definition copyright_sign : string := Py.string_of_bytes [194; 169].        (* U+00A9 *)
Definition phonogram_sign : string := Py.string_of_bytes [226; 132; 151].   (* U+2117 *)

(** Whether [get_audio_info] can compute a bitrate for a FLAC stream: the
    reported one is positive, or the length is not zero. *)
Definition bitrate_available (info : flac_info) : bool :=
  match fl_bitrate info with Some b => 0 <? b | None => false end
  || negb (fst (fl_length info) =? 0).

(** The world after one reading of the clock. *)
Definition tick (w : World) : World := set_clock_reads (S (clock_reads w)) w.

(** Keys of an [OrderedDict] after [d[k] = ...]: a new key goes to the
    end, a known one stays where it is. *)
Fixpoint add_key (ks : list string) (k : string) : list string :=
  match ks with
  | [] => [k]
  | k' :: ks' => if String.eqb k' k then ks else k' :: add_key ks' k
  end.

(** The timezones of the seed matches, each once, in the order in which
    the bundle first shows them. *)
Definition discovered_timezones (seed_matches : list (string * string)) : list string :=
  List.fold_left add_key (List.map snd seed_matches) [].

(** The seed of the last match that names [tz]. *)
Definition seed_of (seed_matches : list (string * string)) (tz : string) : option string :=
  List.fold_left (fun acc '(seed, timezone) => if String.eqb timezone tz then Some seed else acc)
    seed_matches None.

(** The [info] and [extras] strings matched for [tz], in document order. *)
Definition info_extras_of (info_extras_matches : list (string * string * string)) (tz : string)
  : list string :=
  List.flat_map (fun '(timezone, info, extras) =>
                   if String.eqb (Py.lower timezone) tz then [info; extras] else [])
    info_extras_matches.

(** The signature of a [track/getFileUrl] call made when the clock reads
    [now], and the request that carries it. *)
Definition file_url_signature (now : Z) (track_id : pyval) (format_id : Z)
    (secret : option string) : qobuz_client.signature :=
  {| qobuz_client.ts := now;
     qobuz_client.sig :=
       hashlib.md5_hexdigest
         ("trackgetFileUrlformat_id" +:+ py_str (PyInt format_id) +:+ "intentstreamtrack_id"
          +:+ py_str track_id +:+ Py.str_of_Z now +:+ py_str_opt secret) |}.

Definition file_url_request (hdrs : gmap string string) (now : Z) (track_id : pyval)
    (format_id : Z) (secret : option string) : http_request :=
  Get hdrs (qobuz_client.base_url +:+ "track/getFileUrl")
    (qobuz_client.file_url_params (file_url_signature now track_id format_id secret)
       track_id format_id).

(** The probe of [secret]: quality 5 of the fixed test track. *)
Definition probe_request (hdrs : gmap string string) (now : Z) (secret : string) : http_request :=
  file_url_request hdrs now (PyInt qobuz_client.test_track_id) 5 (Some secret).

(** The answer to the probe of the [i]-th candidate, when the first probe
    takes the [n]-th reading of the clock. *)
Definition probe_answer (env : Env) (hdrs : gmap string string) (n i : nat) (secret : string)
  : response :=
  http env (probe_request hdrs (time_time env (n + i)) secret).

(** Status 200 or 403: the secret is accepted. *)
Definition accepted (r : response) : bool :=
  match r with
  | Response status _ => (status =? 200) || (status =? 403)
  | NoResponse _ => false
  end.

(** Status 401: the token is not authorized. *)
Definition unauthorized (r : response) : bool :=
  match r with
  | Response status _ => status =? 401
  | NoResponse _ => false
  end.

(** The warnings logged while the candidates [cs] are probed in vain. *)
Definition unauthorized_logs (env : Env) (hdrs : gmap string string) (n : nat)
    (cs : list string) : list log_record :=
  List.concat
    (imap (fun i c => if unauthorized (probe_answer env hdrs n i c)
                      then [LogTokenUnauthorized] else []) cs).

(** The candidates that are not the empty string. *)
Definition non_empty (l : list string) : list string :=
  List.filter (fun s => negb (Py.is_empty s)) l.

(** A cover request answered with status 200. *)
Definition cover_ok (r : response) : bool :=
  match r with
  | Response status _ => status =? 200
  | NoResponse _ => false
  end.

(** The request [_download_cover] sends for [url]. *)
Definition cover_request (url : string) : http_request := Get ∅ url ∅.

(** The request of [get_track]. *)
Definition track_get_request (hdrs : gmap string string) (track_id : pyval) : http_request :=
  Get hdrs (qobuz_client.base_url +:+ "track/get") {[ "track_id" := track_id ]}.

(** The title [get_title] composes, when the track has one. *)
Definition title_of (track : track_data) : option string :=
  match t_title track with
  | None => None
  | Some title =>
      let title := if truthy (t_version track)
                   then title +:+ " (" +:+ py_str_opt (t_version track) +:+ ")" else title in
      Some (if truthy (t_work track)
            then py_str_opt (t_work track) +:+ ": " +:+ title else title)
  end.

(** The destination [download_track] computes from the track document, the
    album context and the folder it was given: folder, file name and final
    path. *)
Definition destination (env : Env) (self : QobuzDownloader) (track : track_data)
    (album_context : option album_data) (folder_path : option string)
  : option (string * string * string) :=
  match (match album_context with Some a => Some a | None => t_album track end) with
  | None => None
  | Some album =>
      match al_artist_name album, al_title album, t_track_number track, title_of track with
      | Some artist_name, Some album_title, Some number, Some track_title =>
          let year := Py.split_first "-" (default "" (al_release_date_original album)) in
          let folder :=
            if truthy folder_path then py_str_opt folder_path
            else downloader.album_folder env self artist_name album_title year in
          let extension := if quality self =? 5 then ".mp3" else ".flac" in
          let filename :=
            sanitize_filename env
              (Py.format_02 number +:+ ". " +:+ track_title +:+ extension) in
          Some (folder, filename, Py.os_path_join folder filename)
      | _, _, _, _ => None
      end
  end.

(** A 2xx status. *)
Definition is_success (status : Z) : bool := (200 <=? status) && (status <? 300).

(** The failure records the album loop writes. *)
Definition is_track_failure (r : log_record) : bool :=
  match r with LogTrackFailed _ _ => true | _ => false end.
Definition track_failures (l : list log_record) : list log_record :=
  List.filter is_track_failure l.

(** The attempt the album loop makes on one track. *)
Definition attempt (env : Env) (self : QobuzDownloader) (album : album_data)
    (folder_path : string) (pbar_callback : bool) (track : track_item) : M downloader.dl_result :=
  let! id := item "id" (ti_id track) in
  downloader.download_track env self id (Some album) (Some folder_path) pbar_callback.

(** The outcomes of the successive attempts on [tracks] from the world
    [w]: each attempt runs in the world its predecessors left, a failed one
    followed by its log record. *)
Fixpoint attempts (env : Env) (self : QobuzDownloader) (album : album_data)
    (folder_path : string) (pbar_callback : bool) (tracks : list track_item) (w : World)
  : list (exn + downloader.dl_result) :=
  match tracks with
  | [] => []
  | track :: rest =>
      let '(w1, outcome) := attempt env self album folder_path pbar_callback track w in
      let w2 :=
        match outcome with
        | inl e => set_logs (logs w1 ++ [LogTrackFailed (default "" (ti_title track)) e]) w1
        | inr _ => w1
        end in
      outcome :: attempts env self album folder_path pbar_callback rest w2
  end.

(** The results among the outcomes, and the failure records they call for. *)
Definition successes (outcomes : list (exn + downloader.dl_result)) : list downloader.dl_result :=
  omap (fun o => match o with inr r => Some r | inl _ => None end) outcomes.

Fixpoint failure_records (tracks : list track_item) (outcomes : list (exn + downloader.dl_result))
  : list log_record :=
  match tracks, outcomes with
  | track :: tracks', inl e :: outcomes' =>
      LogTrackFailed (default "" (ti_title track)) e :: failure_records tracks' outcomes'
  | _ :: tracks', inr _ :: outcomes' => failure_records tracks' outcomes'
  | _, _ => []
  end.

(** A computation that leaves an observation of the world unchanged,
    whether it returns or raises. *)
Definition preserves {A X} (f : World -> X) (m : M A) : Prop :=
  forall w, f (fst (m w)) = f w.

(** The failure records in the log. *)
Definition logged_failures (w : World) : list log_record := track_failures (logs w).

(** The request of [login]. *)
Definition login_request (c : QobuzClient) (email password : string) : http_request :=
  Get (headers c) (qobuz_client.base_url +:+ "user/login")
    {[ "email" := PyStr email;
       "password" := PyStr password;
       "app_id" := match app_id c with Some id => PyStr id | None => PyNone end ]}.

(** The two requests of [_scrape_bundle]: the login page and the bundle at
    [path], both sent by a client of their own, without the API client's
    headers. *)
Definition login_page_request : http_request := Get ∅ (qobuz_client._BASE_URL +:+ "/login") ∅.
Definition bundle_request (path : string) : http_request :=
  Get ∅ (qobuz_client._BASE_URL +:+ path) ∅.

(** The reports of the progress callback while [chunks] arrive, after
    [downloaded] bytes: the byte count so far, the announced total and the
    file name, once per chunk. *)
Fixpoint progress_reports (total_size : Z) (filename : string) (downloaded : Z)
    (chunks : list string) : list (Z * Z * string) :=
  match chunks with
  | [] => []
  | chunk :: rest =>
      let downloaded := downloaded + Z.of_nat (String.length chunk) in
      (downloaded, total_size, filename) :: progress_reports total_size filename downloaded rest
  end.

(** [pat in s] for two [str]. *)
Fixpoint contains (pat s : string) : bool :=
  String.prefix pat s
  || match s with
     | EmptyString => false
     | String _ s' => contains pat s'
     end.

(** The genres as [format_genres] lists them when no name holds a
    character of the pattern's class: the non-empty names, each at its
    first place. *)
Definition distinct_names (genres : list string) : list string :=
  List.rev (remove_dups (List.rev (List.filter (fun g => negb (Py.is_empty g)) genres))).

(** A name free of the characters at which [format_genres] cuts. *)
Definition plain_name (g : string) : bool :=
  List.forallb (fun c => negb (metadata_utils.genre_break c)) (list_ascii_of_string g).

(** [genre_runs s runs]: cut at the characters of the class, the text
    [s] falls into the pieces [runs], from left to right.  A piece is a
    non-empty stretch of characters outside the class that ends where the
    text ends or where a character of the class follows; the characters
    of the class belong to no piece. *)
Inductive genre_runs : string -> list string -> Prop :=
| runs_end : genre_runs "" []
| runs_break c s runs :
    metadata_utils.genre_break c = true -> genre_runs s runs ->
    genre_runs (String c s) runs
| runs_last run :
    run <> "" -> plain_name run = true -> genre_runs run [run]
| runs_piece run c s runs :
    run <> "" -> plain_name run = true -> metadata_utils.genre_break c = true ->
    genre_runs s runs -> genre_runs (run +:+ String c s) (run :: runs).

(** A character of the decimal text of an integer: a digit or the minus
    sign. *)
Definition is_decimal_char (c : ascii) : bool :=
  List.existsb (Ascii.eqb c) ["0"; "1"; "2"; "3"; "4"; "5"; "6"; "7"; "8"; "9"; "-"]%char.

(** An identifier made of ASCII characters other than the colon. *)
Definition plain_id (s : string) : bool :=
  List.forallb (fun c => (nat_of_ascii c <? 128)%nat && negb (Ascii.eqb c ":"))
    (list_ascii_of_string s).

(** The data of the button that leads to the page of an album's tracks at
    [track_offset]. *)
Definition album_page_button (album_id : string) (track_offset : Z) (context_data : string)
  : string :=
  Py.take 64 ("al:" +:+ album_id +:+ ":" +:+ Py.str_of_Z track_offset +:+ ":" +:+ context_data).

(** A text without a colon. *)
Definition colon_free (s : string) : bool :=
  List.forallb (fun c => negb (Ascii.eqb c ":")) (list_ascii_of_string s).

(** The pages of an album's tracks, eight a page: what [cb_album_details]
    shows at the offsets 0, 8, 16, ... below the number of tracks. *)
Definition album_pages {A} (tracks : list A) : list (list A) :=
  List.map (fun k => main.tracks_slice (8 * Z.of_nat k) tracks)
    (List.seq 0 (Nat.div (List.length tracks + 7) 8)).

(** A name without a slash. *)
Definition slash_free (s : string) : bool :=
  List.forallb (fun c => negb (Ascii.eqb c "/")) (list_ascii_of_string s).

(** [path] is where [download_track] puts one of the [tracks] in [folder]:
    [os.path.join(folder, sanitize_filename(f"{number:02}. {title}{ext}"))],
    the number and the title being those of the document the provider
    serves for the track's id. *)
Definition album_track_file (env : Env) (self : QobuzDownloader) (folder : string)
    (tracks : list track_item) (path : string) : Prop :=
  exists item id hdrs status content track_doc number title,
    In item tracks
    /\ ti_id item = Some id
    /\ http env (track_get_request hdrs id) = Response status content
    /\ json_track env content = Some track_doc
    /\ t_track_number track_doc = Some number
    /\ title_of track_doc = Some title
    /\ path = Py.os_path_join folder
                (sanitize_filename env
                   (Py.format_02 number +:+ ". " +:+ title
                    +:+ (if quality self =? 5 then ".mp3" else ".flac"))).

(* ================================================================== *)
(** * Properties *)
(* ================================================================== *)

(** ** The library models on known values *)

Example md5_empty : hashlib.md5_hexdigest "" = "d41d8cd98f00b204e9800998ecf8427e".
Proof. vm_compute. reflexivity. Qed.
Example md5_abc : hashlib.md5_hexdigest "abc" = "900150983cd24fb0d6963f7d28e17f72".
Proof. vm_compute. reflexivity. Qed.
Example md5_long :
  hashlib.md5_hexdigest
    "trackgetFileUrlformat_id5intentstreamtrack_id59667831700000000abcdef0123456789"
  = "873e84a6f4cbaf998a4acf5287788775".
Proof. vm_compute. reflexivity. Qed.
Example py_tests :
  Py.replace "(P)" "X" "a(P)(P)b(P" = "aXXb(P" /\ Py.format_02 5 = "05" /\ Py.format_02 12 = "12"
  /\ Py.str_of_Z (-5) = "-5" /\ Py.str_of_Z 0 = "0" /\ Py.drop_last 2 "abc" = "a" /\ Py.drop_last 5 "abc" = ""
  /\ Py.replace "" "-" "ab" = "-a-b-" /\ Py.capitalize "berlin" = "Berlin" /\ Py.lower "BerLin" = "berlin"
  /\ Py.os_path_join "./downloads" "x" = "./downloads/x" /\ Py.endswith ".flac" "a.flac" = true
  /\ Py.split_first "-" "2020-01-02" = "2020" /\ Py.replace "aa" "b" "aaa" = "ba".
Proof. vm_compute. repeat split; reflexivity. Qed.
Example py_character_tests :
  Py.len (Py.string_of_bytes [97; 195; 169; 226; 132; 151]) = 3%nat
  /\ Py.take 2 (Py.string_of_bytes [97; 195; 169; 226; 132; 151])
     = Py.string_of_bytes [97; 195; 169]
  /\ Py.drop_last 1 (Py.string_of_bytes [97; 195; 169; 226; 132; 151])
     = Py.string_of_bytes [97; 195; 169]
  /\ Py.drop_last 2 (Py.string_of_bytes [97; 195; 169; 226; 132; 151]) = "a"
  /\ Py.drop_last 44 (Py.string_of_bytes [195; 169]) = "".
Proof. vm_compute. repeat split; reflexivity. Qed.
Example b64_tests :
  base64.b64decode_utf8 "YWJjZGVm" = Some "abcdef" /\ base64.b64decode_utf8 "" = Some ""
  /\ base64.b64decode_utf8 "=" = Some "" /\ base64.b64decode_utf8 "ww==" = None
  /\ base64.b64decode_utf8 "w" = None /\ base64.b64decode_utf8 "ww" = None
  /\ base64.b64decode_utf8 "YW_Jj" = Some "abc" /\ base64.b64decode_utf8 "YQ==YWJj" = Some "a"
  /\ base64.b64decode_utf8 "YQ=x=" = Some (Py.string_of_bytes [97; 12]) /\ base64.b64decode_utf8 "w6k=" = Some (Py.string_of_bytes [195; 169])
  /\ base64.b64decode_utf8 "gA==" = None /\ base64.b64decode_utf8 "=YWJj" = Some "abc"
  /\ base64.b64decode_utf8 "YWI" = None /\ base64.b64decode_utf8 "7aCA" = None
  /\ base64.b64decode_utf8 "4oSX" = Some (Py.string_of_bytes [226; 132; 151]).
Proof. vm_compute. repeat split; reflexivity. Qed.

(** ** Running the monad *)

Lemma bind_success {A B} (m : M A) (k : A -> M B) w w' b :
  bind m k w = (w', inr b) ->
  exists w1 a, m w = (w1, inr a) /\ k a w1 = (w', inr b).
Proof.
  unfold bind. destruct (m w) as [w1 [e | a]]; intros H.
  - discriminate.
  - exists w1, a. split; [reflexivity | exact H].
Qed.

Lemma item_success {A} key (o : option A) w w' a :
  item key o w = (w', inr a) -> o = Some a /\ w' = w.
Proof. destruct o; cbn; intros H; inversion H; auto. Qed.

(** ** metadata_utils *)

(** C9: the code at [(P)] and [(C)]: the marker [(P)] comes out as the
    copyright sign U+00A9 and [(C)] as the phonogram sign U+2117, the
    reverse of the substitution the specification describes. *)
Theorem format_copyright_glyphs_swapped :
  metadata_utils.format_copyright "(P) 2020 Label" = copyright_sign +:+ " 2020 Label"
  /\ metadata_utils.format_copyright "(C) 2020 Label" = phonogram_sign +:+ " 2020 Label"
  /\ metadata_utils.format_copyright "(P) 2020 Label" <> phonogram_sign +:+ " 2020 Label"
  /\ metadata_utils.format_copyright "(C) 2020 Label" <> copyright_sign +:+ " 2020 Label".
Proof.
  repeat split; try (vm_compute; reflexivity); vm_compute; discriminate.
Qed.

Lemma is_hires_iff bt sr :
  metadata_utils.is_hires bt sr = true <-> (16 < bt \/ 48000 < sr).
Proof.
  unfold metadata_utils.is_hires. rewrite orb_true_iff, !Z.ltb_lt. reflexivity.
Qed.

Lemma quality_type_hires bt sr :
  metadata_utils.quality_type bt sr = "Hi-Res" <-> (16 < bt \/ 48000 < sr).
Proof.
  rewrite <- is_hires_iff. unfold metadata_utils.quality_type.
  destruct (metadata_utils.is_hires bt sr); split; intros H; try reflexivity; discriminate.
Qed.

Lemma quality_type_cd bt sr :
  metadata_utils.quality_type bt sr = "CD" <-> ~ (16 < bt \/ 48000 < sr).
Proof.
  rewrite <- is_hires_iff. unfold metadata_utils.quality_type.
  destruct (metadata_utils.is_hires bt sr); split; intros H.
  - discriminate.
  - exfalso. apply H. reflexivity.
  - intros X. discriminate.
  - reflexivity.
Qed.

(** C10: for a FLAC file that mutagen reads and whose bitrate can be
    computed, the info string names the quality "Hi-Res" exactly when the
    bit depth exceeds 16 or the sample rate exceeds 48000 Hz, and "CD"
    otherwise; 24 bit at 44100 Hz is "Hi-Res", 16 bit at 44100 Hz is "CD". *)
Theorem get_audio_info_classification env file_path w content info :
  Py.endswith ".flac" file_path = true ->
  files w !! file_path = Some content ->
  flac_read env content = Some info ->
  bitrate_available info = true ->
  let bt_depth := default 16 (bits_per_sample info) in
  let sr_hz := sample_rate info in
  (exists rest,
      metadata_utils.get_audio_info env file_path w
      = (w, inr ("FLAC " +:+ metadata_utils.quality_type bt_depth sr_hz +:+ " "
                 +:+ Py.str_of_Z bt_depth +:+ "-Bit / " +:+ rest)))
  /\ (metadata_utils.quality_type bt_depth sr_hz = "Hi-Res" <-> (16 < bt_depth \/ 48000 < sr_hz))
  /\ (metadata_utils.quality_type bt_depth sr_hz = "CD" <-> ~ (16 < bt_depth \/ 48000 < sr_hz))
  /\ metadata_utils.quality_type 24 44100 = "Hi-Res"
  /\ metadata_utils.quality_type 16 44100 = "CD".
Proof.
  intros Hext Hfile Hread Hbr bt_depth sr_hz.
  split; [| split; [apply quality_type_hires | split; [apply quality_type_cd | split; reflexivity]]].
  unfold metadata_utils.get_audio_info, try_except. rewrite Hext.
  unfold bind at 1. unfold read_file at 1. unfold bind at 1. unfold gets at 1.
  rewrite Hfile. unfold ret at 1. rewrite Hread.
  unfold bind at 1. unfold ret at 1.
  unfold bitrate_available in Hbr.
  destruct (match fl_bitrate info with Some b => 0 <? b | None => false end) eqn:Hb.
  - unfold bind, ret. eexists. reflexivity.
  - cbn in Hbr. destruct (fst (fl_length info) =? 0); [discriminate |].
    unfold bind, ret. eexists. reflexivity.
Qed.

Lemma get_audio_info_classification_witness :
  Py.endswith ".flac" "a/01. One.flac" = true
  /\ exists rest,
       metadata_utils.get_audio_info Sample.env "a/01. One.flac"
         (Sample.world Sample.configured_client {[ "a/01. One.flac" := "fLaC" ]})
       = (Sample.world Sample.configured_client {[ "a/01. One.flac" := "fLaC" ]},
          inr ("FLAC Hi-Res 24-Bit / " +:+ rest)).
Proof.
  split; [reflexivity |].
  apply (get_audio_info_classification Sample.env "a/01. One.flac"
           (Sample.world Sample.configured_client {[ "a/01. One.flac" := "fLaC" ]})
           "fLaC" Sample.flac_24_44); vm_compute; reflexivity.
Defined.

(** ** qobuz_client: signatures *)

Lemma generate_sig_run env entity method params secret w :
  qobuz_client._generate_sig env entity method params secret w
  = (tick w,
     let now := time_time env (clock_reads w) in
     if String.eqb method "getFileUrl" then
       match params !! "format_id", params !! "track_id" with
       | Some format_id, Some track_id =>
           inr {| qobuz_client.ts := now;
                  qobuz_client.sig :=
                    hashlib.md5_hexdigest
                      ("trackgetFileUrlformat_id" +:+ py_str format_id +:+ "intentstreamtrack_id"
                       +:+ py_str track_id +:+ Py.str_of_Z now +:+ py_str_opt secret) |}
       | None, _ => inl (KeyError "format_id")
       | Some _, None => inl (KeyError "track_id")
       end
     else if String.eqb method "getUserFavorites" then
       inr {| qobuz_client.ts := now;
              qobuz_client.sig :=
                hashlib.md5_hexdigest
                  ("favoritegetUserFavorites" +:+ Py.str_of_Z now +:+ py_str_opt secret) |}
     else
       inr {| qobuz_client.ts := now;
              qobuz_client.sig :=
                hashlib.md5_hexdigest
                  (entity +:+ method +:+ Py.str_of_Z now +:+ py_str_opt secret) |}).
Proof.
  unfold qobuz_client._generate_sig, qobuz_client.param, time_now, tick, bind, item, ret, raise.
  destruct (String.eqb method "getFileUrl").
  - destruct (params !! "format_id"); [| reflexivity].
    destruct (params !! "track_id"); reflexivity.
  - destruct (String.eqb method "getUserFavorites"); reflexivity.
Qed.

(** C5: [_generate_sig] returns the timestamp read from the clock and the
    hexadecimal MD5 digest of the method's canonical string: the
    [getFileUrl] template when the parameters hold [format_id] and
    [track_id], [entity + method + ts + secret] for a method that has no
    template; the same inputs at the same timestamp give the same result. *)
Theorem generate_sig_digest env entity method params secret w :
  let now := time_time env (clock_reads w) in
  (forall format_id track_id,
      method = "getFileUrl" ->
      params !! "format_id" = Some format_id ->
      params !! "track_id" = Some track_id ->
      qobuz_client._generate_sig env entity method params secret w
      = (tick w,
         inr {| qobuz_client.ts := now;
                qobuz_client.sig :=
                  hashlib.md5_hexdigest
                    ("trackgetFileUrlformat_id" +:+ py_str format_id +:+ "intentstreamtrack_id"
                     +:+ py_str track_id +:+ Py.str_of_Z now +:+ py_str_opt secret) |}))
  /\ (method <> "getFileUrl" -> method <> "getUserFavorites" ->
      qobuz_client._generate_sig env entity method params secret w
      = (tick w,
         inr {| qobuz_client.ts := now;
                qobuz_client.sig :=
                  hashlib.md5_hexdigest
                    (entity +:+ method +:+ Py.str_of_Z now +:+ py_str_opt secret) |}))
  /\ (forall w',
        time_time env (clock_reads w') = now ->
        snd (qobuz_client._generate_sig env entity method params secret w')
        = snd (qobuz_client._generate_sig env entity method params secret w)).
Proof.
  intros now. repeat split.
  - intros format_id track_id -> Hf Ht. rewrite generate_sig_run. cbn [String.eqb].
    rewrite Hf, Ht. reflexivity.
  - intros H1 H2. rewrite generate_sig_run.
    apply String.eqb_neq in H1. apply String.eqb_neq in H2. rewrite H1, H2. reflexivity.
  - intros w' Hts. rewrite !generate_sig_run. cbn [snd]. rewrite Hts. reflexivity.
Qed.

Lemma generate_sig_digest_witness :
  qobuz_client._generate_sig Sample.env "track" "getFileUrl"
    {[ "track_id" := PyInt 5966783; "format_id" := PyInt 5 ]} (Some "abcdef0123456789")
    Sample.fresh
  = (tick Sample.fresh,
     inr {| qobuz_client.ts := 1700000000;
            qobuz_client.sig := "873e84a6f4cbaf998a4acf5287788775" |}).
Proof.
  pose proof (proj1 (generate_sig_digest Sample.env "track" "getFileUrl"
                       {[ "track_id" := PyInt 5966783; "format_id" := PyInt 5 ]}
                       (Some "abcdef0123456789") Sample.fresh)
                    (PyInt 5) (PyInt 5966783) eq_refl) as H.
  rewrite H; [| vm_compute; reflexivity ..].
  vm_compute. reflexivity.
Defined.

(** ** qobuz_client: the candidate secrets *)

Section OrderedDict.
Import qobuz_client.

Lemma od_get_set d k v k' :
  od_get (od_set d k v) k' = if String.eqb k k' then Some v else od_get d k'.
Proof.
  induction d as [| [k0 v0] d IH]; cbn.
  - reflexivity.
  - destruct (String.eqb k0 k) eqn:E0; cbn.
    + apply String.eqb_eq in E0. subst k0.
      destruct (String.eqb k k'); reflexivity.
    + rewrite IH. destruct (String.eqb k0 k') eqn:E1; [| reflexivity].
      apply String.eqb_eq in E1. subst k'. rewrite String.eqb_sym, E0. reflexivity.
Qed.

Lemma keys_od_set d k v : List.map fst (od_set d k v) = add_key (List.map fst d) k.
Proof.
  induction d as [| [k0 v0] d IH]; cbn.
  - reflexivity.
  - destruct (String.eqb k0 k) eqn:E0; cbn.
    + apply String.eqb_eq in E0. subst k0. reflexivity.
    + rewrite IH. reflexivity.
Qed.

Lemma od_get_None d k : od_get d k = None <-> ~ In k (List.map fst d).
Proof.
  induction d as [| [k0 v0] d IH]; cbn.
  - tauto.
  - destruct (String.eqb k0 k) eqn:E0.
    + apply String.eqb_eq in E0. split; [discriminate | tauto].
    + apply String.eqb_neq in E0. rewrite IH. tauto.
Qed.

Lemma In_od_get d k v : List.NoDup (List.map fst d) -> In (k, v) d -> od_get d k = Some v.
Proof.
  induction d as [| [k0 v0] d IH]; cbn; [tauto |].
  intros Hnd [Heq | Hin].
  - inversion Heq; subst. rewrite String.eqb_refl. reflexivity.
  - inversion Hnd as [| ? ? Hnotin Hnd']; subst.
    destruct (String.eqb k0 k) eqn:E0.
    + apply String.eqb_eq in E0. subst k0. exfalso. apply Hnotin.
      change k with (fst (k, v)). apply in_map, Hin.
    + apply IH; assumption.
Qed.

Lemma add_key_In ks k k' : In k' (add_key ks k) <-> In k' ks \/ k' = k.
Proof.
  induction ks as [| k0 ks IH]; cbn.
  - intuition.
  - destruct (String.eqb k0 k) eqn:E0; cbn.
    + apply String.eqb_eq in E0. subst k0. intuition.
    + rewrite IH. intuition.
Qed.

Lemma add_key_NoDup ks k : List.NoDup ks -> List.NoDup (add_key ks k).
Proof.
  induction ks as [| k0 ks IH]; cbn; intros Hnd.
  - constructor; [intros [] | constructor].
  - destruct (String.eqb k0 k) eqn:E0; [assumption |].
    inversion Hnd as [| ? ? Hnotin Hnd']; subst. constructor.
    + rewrite add_key_In. intros [H | H]; [tauto |].
      subst k0. rewrite String.eqb_refl in E0. discriminate.
    + apply IH, Hnd'.
Qed.

(** The seed loop from any starting dictionary. *)
Lemma keys_seed_loop ms d :
  List.map fst (List.fold_left (fun d '(seed, timezone) => od_set d timezone [seed]) ms d)
  = List.fold_left add_key (List.map snd ms) (List.map fst d).
Proof.
  revert d. induction ms as [| [seed tz] ms IH]; intros d; cbn.
  - reflexivity.
  - rewrite IH, keys_od_set. reflexivity.
Qed.

Lemma keys_collect_seeds ms : List.map fst (collect_seeds ms) = discovered_timezones ms.
Proof. apply keys_seed_loop. Qed.

Lemma fold_add_key_NoDup ks l : List.NoDup l -> List.NoDup (List.fold_left add_key ks l).
Proof.
  revert l. induction ks as [| k ks IH]; intros l Hnd; cbn; [assumption |].
  apply IH, add_key_NoDup, Hnd.
Qed.

Lemma discovered_timezones_NoDup ms : List.NoDup (discovered_timezones ms).
Proof. apply fold_add_key_NoDup. constructor. Qed.

Lemma get_seed_loop ms d tz :
  od_get (List.fold_left (fun d '(seed, timezone) => od_set d timezone [seed]) ms d) tz
  = match List.fold_left
            (fun acc '(seed, timezone) => if String.eqb timezone tz then Some seed else acc)
            ms None with
    | Some seed => Some [seed]
    | None => od_get d tz
    end.
Proof.
  revert d. induction ms as [| [seed t] ms IH] using rev_ind; intros d.
  - reflexivity.
  - rewrite !fold_left_app. cbn. rewrite od_get_set.
    destruct (String.eqb t tz); [reflexivity | apply IH].
Qed.

Lemma get_collect_seeds ms tz :
  od_get (collect_seeds ms) tz = option_map (fun seed => [seed]) (seed_of ms tz).
Proof.
  unfold collect_seeds, seed_of. rewrite get_seed_loop.
  destruct (List.fold_left _ ms None); reflexivity.
Qed.

Lemma od_get_remove_ne d k k' : k <> k' -> od_get (od_remove d k) k' = od_get d k'.
Proof.
  intros Hne. induction d as [| [k0 v0] d IH]; cbn; [reflexivity |].
  destruct (String.eqb k0 k) eqn:E0; cbn.
  - apply String.eqb_eq in E0. subst k0.
    apply String.eqb_neq in Hne. rewrite Hne. reflexivity.
  - rewrite IH. reflexivity.
Qed.

Lemma od_get_move_to_front d k1 k :
  od_get (od_move_to_front d k1) k = od_get d k.
Proof.
  unfold od_move_to_front. destruct (od_get d k1) as [v |] eqn:E; [| reflexivity].
  cbn [od_get]. destruct (String.eqb k1 k) eqn:E1.
  - apply String.eqb_eq in E1. subst k1. exact (eq_sym E).
  - apply String.eqb_neq in E1. apply od_get_remove_ne, E1.
Qed.

(** Reordering changes places, not contents. *)
Lemma od_get_reorder d k : od_get (reorder d) k = od_get d k.
Proof.
  unfold reorder. destruct d as [| kv0 [| [k1 v1] d]]; try reflexivity.
  apply od_get_move_to_front.
Qed.

Lemma reorder_keys d k0 k1 ks :
  List.map fst d = k0 :: k1 :: ks -> k0 <> k1 ->
  List.map fst (reorder d) = k1 :: k0 :: ks.
Proof.
  destruct d as [| [a va] [| [b vb] d]]; cbn; try discriminate.
  intros [= -> -> <-] Hne. unfold od_move_to_front. cbn.
  apply String.eqb_neq in Hne. rewrite Hne, String.eqb_refl. reflexivity.
Qed.

Lemma od_extend_keys d k extra d' :
  od_extend d k extra = inr d' -> List.map fst d' = List.map fst d.
Proof.
  unfold od_extend. destruct (od_get d k) as [v |] eqn:E; [| discriminate].
  intros [= <-]. rewrite keys_od_set.
  assert (Hin : In k (List.map fst d)).
  { destruct (in_dec string_dec k (List.map fst d)) as [H | H]; [exact H |].
    apply od_get_None in H. congruence. }
  clear E. induction (List.map fst d) as [| k0 ks IH]; cbn; [destruct Hin |].
  destruct (String.eqb k0 k) eqn:E0; [reflexivity |].
  destruct Hin as [-> | Hin]; [rewrite String.eqb_refl in E0; discriminate |].
  rewrite IH by exact Hin. reflexivity.
Qed.

Lemma od_extend_get d k extra d' k' :
  od_extend d k extra = inr d' ->
  od_get d' k' = if String.eqb k k' then option_map (fun v => (v ++ extra)%list) (od_get d k')
                 else od_get d k'.
Proof.
  unfold od_extend. destruct (od_get d k) as [v |] eqn:E; [| discriminate].
  intros [= <-]. rewrite od_get_set. destruct (String.eqb k k') eqn:E1; [| reflexivity].
  apply String.eqb_eq in E1. subst k'. rewrite E. reflexivity.
Qed.

Lemma add_info_extras_keys ms : forall d d',
  add_info_extras d ms = inr d' -> List.map fst d' = List.map fst d.
Proof.
  induction ms as [| [[tz info] extras] ms IH]; intros d d'; cbn.
  - intros [= <-]. reflexivity.
  - destruct (od_extend d (Py.lower tz) [info; extras]) as [e | d1] eqn:E; [discriminate |].
    intros H. rewrite (IH _ _ H). eapply od_extend_keys, E.
Qed.

Lemma add_info_extras_get ms : forall d d' k,
  add_info_extras d ms = inr d' ->
  od_get d' k = option_map (fun v => (v ++ info_extras_of ms k)%list) (od_get d k).
Proof.
  induction ms as [| [[tz info] extras] ms IH]; intros d d' k; cbn.
  - intros [= <-]. destruct (od_get d k); cbn; [rewrite app_nil_r |]; reflexivity.
  - destruct (od_extend d (Py.lower tz) [info; extras]) as [e | d1] eqn:E; [discriminate |].
    intros H. rewrite (IH _ _ _ H), (od_extend_get _ _ _ _ k E).
    unfold info_extras_of. cbn [List.flat_map].
    destruct (String.eqb (Py.lower tz) k); [| reflexivity].
    destruct (od_get d k); cbn; [| reflexivity].
    rewrite <- app_assoc. reflexivity.
Qed.

(** The info/extras loop raises no [KeyError] when every match names a key. *)
Lemma add_info_extras_total ms : forall d,
  Forall (fun m => In (Py.lower (fst (fst m))) (List.map fst d)) ms ->
  exists d', add_info_extras d ms = inr d'.
Proof.
  induction ms as [| [[tz info] extras] ms IH]; intros d Hall; cbn.
  - eexists. reflexivity.
  - inversion Hall as [| ? ? Hin Hall']; subst. cbn in Hin.
    destruct (od_extend d (Py.lower tz) [info; extras]) as [e | d1] eqn:E.
    + exfalso. unfold od_extend in E.
      destruct (od_get d (Py.lower tz)) eqn:G; [discriminate |].
      apply od_get_None in G. contradiction.
    + apply IH. rewrite (od_extend_keys _ _ _ _ E). exact Hall'.
Qed.

Lemma decode_loop_omap d : forall acc,
  decode_loop d acc = (acc ++ omap (fun kv => decode_candidate (snd kv)) d)%list.
Proof.
  induction d as [| [tz parts] d IH]; intros acc; cbn.
  - rewrite app_nil_r. reflexivity.
  - destruct (decode_candidate parts) as [s |]; cbn.
    + rewrite IH, <- app_assoc. reflexivity.
    + apply IH.
Qed.

End OrderedDict.


Lemma reorder_NoDup d :
  List.NoDup (List.map fst d) -> List.NoDup (List.map fst (qobuz_client.reorder d)).
Proof.
  intros Hnd. destruct d as [| [k0 v0] [| [k1 v1] d]]; try exact Hnd.
  assert (Hne : k0 <> k1).
  { inversion Hnd as [| ? ? Hnotin _]; subst. intros ->. apply Hnotin. left. reflexivity. }
  rewrite (reorder_keys ((k0, v0) :: (k1, v1) :: d) k0 k1 (List.map fst d) eq_refl Hne).
  cbn in Hnd. inversion Hnd as [| ? ? H0 Hnd1]; subst.
  inversion Hnd1 as [| ? ? H1 Hnd2]; subst.
  constructor.
  - intros [H | H]; [congruence | contradiction].
  - constructor; [| exact Hnd2]. intros H. apply H0. right. exact H.
Qed.

Lemma len_app p s : Py.len (p +:+ s) = (Py.len p + Py.len s)%nat.
Proof.
  induction p as [| c p IH]; [reflexivity |].
  change (String c p +:+ s) with (String c (p +:+ s)). cbn [Py.len].
  destruct (Py.is_continuation c); rewrite IH; reflexivity.
Qed.

Lemma take_none s : Py.at_boundary s = true -> Py.take 0 s = "".
Proof.
  destruct s as [| c s]; [reflexivity |]. cbn [Py.at_boundary Py.take].
  intros H. apply negb_true_iff in H. rewrite H. reflexivity.
Qed.

Lemma take_len_app p s : Py.at_boundary s = true -> Py.take (Py.len p) (p +:+ s) = p.
Proof.
  intros Hs. induction p as [| c p IH]; [exact (take_none s Hs) |].
  change (String c p +:+ s) with (String c (p +:+ s)). cbn [Py.len Py.take].
  destruct (Py.is_continuation c); rewrite IH; reflexivity.
Qed.

(** [(payload + suffix)[:-n]] is [payload] when [suffix] is [n]
    characters. *)
Lemma drop_last_app n payload suffix :
  Py.len suffix = n -> Py.at_boundary suffix = true ->
  Py.drop_last n (payload +:+ suffix) = payload.
Proof.
  intros Hn Hs. unfold Py.drop_last. rewrite len_app, Hn.
  replace (Py.len payload + n - n)%nat with (Py.len payload) by lia.
  exact (take_len_app payload suffix Hs).
Qed.

Lemma drop_last_short n s :
  (Py.len s <= n)%nat -> Py.at_boundary s = true -> Py.drop_last n s = "".
Proof.
  intros Hn Hs. unfold Py.drop_last.
  replace (Py.len s - n)%nat with 0%nat by lia. exact (take_none s Hs).
Qed.

(** C4: when every info/extras match names a discovered timezone, the
    secrets are the candidates taken in candidate order.  Each candidate
    is the seed followed by the info and extras strings of its timezone;
    of their concatenation the last 44 characters are discarded, whatever
    they are, and what stands before them is base64-decoded (nothing
    stands before them in a concatenation of 44 characters or fewer, and
    the candidate is then the empty secret); a candidate whose remainder
    does not decode is left out and the others keep their order. *)
Theorem scrape_secrets_decodes_in_order env bundle_js :
  let seed_matches := re_seed_timezone env bundle_js in
  let ordered := qobuz_client.reorder (qobuz_client.collect_seeds seed_matches) in
  let info_extras_matches :=
    re_info_extras env (qobuz_client.timezones_pattern ordered) bundle_js in
  Forall (fun m => In (Py.lower (fst (fst m))) (List.map fst ordered)) info_extras_matches ->
  exists secrets_raw,
    qobuz_client.candidates env bundle_js = inr secrets_raw
    /\ List.map fst secrets_raw = List.map fst ordered
    /\ (forall tz parts,
          In (tz, parts) secrets_raw ->
          exists seed,
            seed_of seed_matches tz = Some seed
            /\ parts = seed :: info_extras_of info_extras_matches tz)
    /\ (forall seed info extras payload suffix,
          seed +:+ info +:+ extras = payload +:+ suffix ->
          Py.len suffix = 44%nat ->
          Py.at_boundary suffix = true ->
          qobuz_client.decode_candidate [seed; info; extras]
          = base64.b64decode_utf8 payload)
    /\ (forall parts payload suffix,
          String.concat "" parts = payload +:+ suffix ->
          Py.len suffix = 44%nat ->
          Py.at_boundary suffix = true ->
          qobuz_client.decode_candidate parts = base64.b64decode_utf8 payload)
    /\ (forall parts,
          (Py.len (String.concat "" parts) <= 44)%nat ->
          Py.at_boundary (String.concat "" parts) = true ->
          qobuz_client.decode_candidate parts = Some "")
    /\ qobuz_client.scrape_secrets env bundle_js
       = inr (omap (fun kv => qobuz_client.decode_candidate (snd kv)) secrets_raw).
Proof.
  intros seed_matches ordered info_extras_matches Hall.
  destruct (add_info_extras_total _ _ Hall) as [d' Hd'].
  assert (Hcand : qobuz_client.candidates env bundle_js = inr d') by exact Hd'.
  assert (Hkeys : List.map fst d' = List.map fst ordered)
    by (eapply add_info_extras_keys, Hd').
  assert (Hcut : forall parts payload suffix,
             String.concat "" parts = payload +:+ suffix ->
             Py.len suffix = 44%nat ->
             Py.at_boundary suffix = true ->
             qobuz_client.decode_candidate parts = base64.b64decode_utf8 payload).
  { intros parts payload suffix Hjoin Hlen Hb.
    unfold qobuz_client.decode_candidate, Py.join. rewrite Hjoin.
    rewrite (drop_last_app 44 payload suffix Hlen Hb). reflexivity. }
  exists d'. split; [exact Hcand |]. split; [exact Hkeys |].
  split; [| split; [| split; [exact Hcut | split]]].
  - intros tz parts Hin.
    assert (Hnd : List.NoDup (List.map fst d')).
    { rewrite Hkeys. apply reorder_NoDup. rewrite keys_collect_seeds.
      apply discovered_timezones_NoDup. }
    pose proof (In_od_get _ _ _ Hnd Hin) as Hget.
    rewrite (add_info_extras_get _ _ _ tz Hd') in Hget.
    unfold ordered in Hget. rewrite od_get_reorder, get_collect_seeds in Hget.
    destruct (seed_of seed_matches tz) as [seed |]; [| discriminate].
    exists seed. split; [reflexivity |]. cbn in Hget. congruence.
  - intros seed info extras payload suffix Hjoin. apply Hcut. exact Hjoin.
  - intros parts Hlen Hb. unfold qobuz_client.decode_candidate, Py.join.
    rewrite (drop_last_short 44 _ Hlen Hb). reflexivity.
  - unfold qobuz_client.scrape_secrets. rewrite Hcand, decode_loop_omap. reflexivity.
Qed.

Lemma scrape_secrets_decodes_in_order_witness :
  qobuz_client.scrape_secrets Sample.env_cut "bundle.js"
  = inr [ "10b251c286cfbf64d6b7105f253d9a"; "979549437fcc4a3faad4867b5cd25d" ]
  /\ qobuz_client.decode_candidate
       [ "MTBiMjUxYzI4"; "NmNmYmY2NGQ2YjcxMD";
         "VmMjUzZDlhQUJDREVGR0hJSktMTU5PUFFSU1RVVldYWVphYmNkZWZn" ]
     = base64.b64decode_utf8 "MTBiMjUxYzI4NmNmYmY2NGQ2YjcxMDVmMjUzZDlh"
  /\ qobuz_client.decode_candidate
       [ "OTc5NTQ5NDM3"; "ZmNjNGEzZmFhZDQ4Nj"; "diNWNkMjVk" +:+ Sample.forty_four_e_acute ]
     = base64.b64decode_utf8 "OTc5NTQ5NDM3ZmNjNGEzZmFhZDQ4NjdiNWNkMjVk".
Proof.
  destruct (scrape_secrets_decodes_in_order Sample.env_cut "bundle.js")
    as (secrets_raw & Hcand & _ & _ & Hcut & _ & _ & Hrun).
  - apply List.Forall_forall. intros m Hin. vm_compute in Hin.
    destruct Hin as [<- | [<- | [<- | []]]]; vm_compute; auto.
  - split; [| split].
    + rewrite Hrun. vm_compute in Hcand. injection Hcand as <-. vm_compute. reflexivity.
    + apply (Hcut _ _ _ _ "QUJDREVGR0hJSktMTU5PUFFSU1RVVldYWVphYmNkZWZn");
        vm_compute; reflexivity.
    + apply (Hcut _ _ _ _ Sample.forty_four_e_acute); vm_compute; reflexivity.
Defined.

(** C3, as amended: with at least two discovered timezones, the second one
    heads the candidate order, ahead of the info/extras lookup and of the
    decoding; when its candidate decodes, the resulting secret is the first
    element of the secret list. *)
Theorem second_timezone_secret_first env bundle_js tz1 tz2 others secrets_raw :
  discovered_timezones (re_seed_timezone env bundle_js) = tz1 :: tz2 :: others ->
  qobuz_client.candidates env bundle_js = inr secrets_raw ->
  List.map fst (qobuz_client.reorder (qobuz_client.collect_seeds (re_seed_timezone env bundle_js)))
  = tz2 :: tz1 :: others
  /\ List.map fst secrets_raw = tz2 :: tz1 :: others
  /\ forall parts secret,
       In (tz2, parts) secrets_raw ->
       qobuz_client.decode_candidate parts = Some secret ->
       exists rest, qobuz_client.scrape_secrets env bundle_js = inr (secret :: rest).
Proof.
  intros Hdisc Hcand.
  pose proof (discovered_timezones_NoDup (re_seed_timezone env bundle_js)) as Hnd.
  rewrite Hdisc in Hnd.
  assert (Hne : tz1 <> tz2).
  { inversion Hnd as [| ? ? Hnotin _]; subst. intros ->. apply Hnotin. left. reflexivity. }
  assert (Hord : List.map fst (qobuz_client.reorder
                                 (qobuz_client.collect_seeds (re_seed_timezone env bundle_js)))
                 = tz2 :: tz1 :: others).
  { apply reorder_keys; [| exact Hne]. rewrite keys_collect_seeds. exact Hdisc. }
  assert (Hkeys : List.map fst secrets_raw = tz2 :: tz1 :: others).
  { rewrite <- Hord. eapply add_info_extras_keys. exact Hcand. }
  split; [exact Hord |]. split; [exact Hkeys |].
  intros parts secret Hin Hdec.
  assert (Hnd' : List.NoDup (List.map fst secrets_raw)).
  { rewrite Hkeys. inversion Hnd as [| ? ? H0 Hnd1]; subst.
    inversion Hnd1 as [| ? ? H1 Hnd2]; subst. constructor.
    - intros [H | H]; [congruence | contradiction].
    - constructor; [| exact Hnd2]. intros H. apply H0. right. exact H. }
  pose proof (In_od_get _ _ _ Hnd' Hin) as Hget.
  unfold qobuz_client.scrape_secrets. rewrite Hcand, decode_loop_omap.
  destruct secrets_raw as [| [k p] tail]; [discriminate |].
  cbn in Hkeys. injection Hkeys as -> Htail.
  cbn in Hget. rewrite String.eqb_refl in Hget. injection Hget as ->.
  cbn. rewrite Hdec. eexists. reflexivity.
Qed.

Lemma second_timezone_secret_first_witness :
  exists rest,
    qobuz_client.scrape_secrets Sample.env_three_timezones "bundle.js"
    = inr ("10b251c286cfbf64d6b7105f253d9a2e" :: rest).
Proof.
  refine (proj2 (proj2 (second_timezone_secret_first Sample.env_three_timezones "bundle.js"
                          "berlin" "london" ["abidjan"] _ _ _))
            [ "MTBiMjUxYzI4"; "NmNmYmY2NGQ2YjcxMD";
              "VmMjUzZDlhMmU=QQQQQQQQQQQQQQQQQQQQQQQQQQQQQQQQQQQQQQQQQQQQ" ]
            "10b251c286cfbf64d6b7105f253d9a2e" _ _).
  - vm_compute. reflexivity.
  - vm_compute. reflexivity.
  - vm_compute. left. reflexivity.
  - vm_compute. reflexivity.
Defined.

(** C3, as stated, fails: two timezones are discovered, [berlin] then
    [london]; the candidate of [london] does not decode and is dropped, so
    the one secret of the list is the one derived from [berlin]. *)
Lemma second_timezone_secret_not_first :
  discovered_timezones (re_seed_timezone Sample.env_two_timezones "bundle.js")
  = ["berlin"; "london"]
  /\ qobuz_client.candidates Sample.env_two_timezones "bundle.js"
     = inr [ ("london", ["w============================================"]);
             ("berlin", ["="]) ]
  /\ qobuz_client.decode_candidate ["w============================================"] = None
  /\ qobuz_client.decode_candidate ["="] = Some ""
  /\ qobuz_client.scrape_secrets Sample.env_two_timezones "bundle.js" = inr [""]
  /\ ~ (exists secret rest,
          qobuz_client.decode_candidate ["w============================================"]
          = Some secret
          /\ qobuz_client.scrape_secrets Sample.env_two_timezones "bundle.js"
             = inr (secret :: rest)).
Proof.
  repeat split; try (vm_compute; reflexivity).
  intros (secret & rest & Hdec & _). vm_compute in Hdec. discriminate.
Qed.

(** What [_scrape_bundle] stores in [self.secrets] is [scrape_secrets] of the
    bundle it fetched. *)
Lemma scrape_bundle_stores_secrets env w w' :
  qobuz_client._scrape_bundle env w = (w', inr tt) ->
  exists status text path status' bundle_js,
    http env (Get ∅ (qobuz_client._BASE_URL +:+ "/login") ∅) = Response status text
    /\ re_bundle_url env text = Some path
    /\ http env (Get ∅ (qobuz_client._BASE_URL +:+ path) ∅) = Response status' bundle_js
    /\ qobuz_client.scrape_secrets env bundle_js = inr (secrets (client w')).
Proof.
  intros H.
  unfold qobuz_client._scrape_bundle, log, modify, http_get, raise_for_status,
    qobuz_client.update_client, bind, ret, raise in H.
  cbn in H.
  destruct (http env (Get ∅ (qobuz_client._BASE_URL +:+ "/login") ∅))
    as [msg | st1 text] eqn:H1; [discriminate |].
  destruct ((200 <=? st1) && (st1 <? 300)); [| discriminate].
  destruct (re_bundle_url env text) as [path |] eqn:Hpath; [| discriminate].
  cbn in H.
  destruct (http env (Get ∅ (qobuz_client._BASE_URL +:+ path) ∅))
    as [msg | st2 bundle_js] eqn:H2; [discriminate |].
  destruct ((200 <=? st2) && (st2 <? 300)); [| discriminate].
  destruct (re_app_id env bundle_js) as [id |]; [| discriminate].
  cbn in H.
  destruct (qobuz_client.scrape_secrets env bundle_js) as [e | decoded] eqn:E; [discriminate |].
  cbn in H. injection H as <-. exists st1, text, path, st2, bundle_js.
  repeat split; assumption.
Qed.

(** ** qobuz_client: finding the active secret *)

Lemma client_get_run env endpoint params w :
  qobuz_client.client_get env endpoint params w
  = let req := Get (headers (client w)) (qobuz_client.base_url +:+ endpoint) params in
    (set_sent (sent w ++ [req]) w,
     match http env req with
     | NoResponse msg => inl (TransportError msg)
     | Response status content => inr (status, content)
     end).
Proof.
  unfold qobuz_client.client_get, http_get, gets, modify, bind, ret, raise. cbn.
  destruct (http env _); reflexivity.
Qed.

(** One probe: the clock is read once, one request is sent; an accepted
    secret is stored, a 401 only logged. *)
Lemma probe_run env secret w :
  let req := probe_request (headers (client w)) (time_time env (clock_reads w)) secret in
  let w1 := set_sent (sent w ++ [req]) (tick w) in
  qobuz_client.probe env secret w
  = if accepted (http env req) then
      (set_logs (logs w ++ [LogFoundActiveSecret])
         (set_client (qobuz_client.set_active_secret (Some secret) (client w)) w1), inr true)
    else if unauthorized (http env req) then
      (set_logs (logs w ++ [LogTokenUnauthorized]) w1, inr false)
    else (w1, inr false).
Proof.
  cbn zeta. unfold qobuz_client.probe, try_except.
  unfold bind at 1. rewrite generate_sig_run. cbn [String.eqb Ascii.eqb Bool.eqb].
  replace (({[ "track_id" := PyInt qobuz_client.test_track_id; "format_id" := PyInt 5 ]}
              : gmap string pyval) !! "format_id") with (Some (PyInt 5))
    by (vm_compute; reflexivity).
  replace (({[ "track_id" := PyInt qobuz_client.test_track_id; "format_id" := PyInt 5 ]}
              : gmap string pyval) !! "track_id") with (Some (PyInt qobuz_client.test_track_id))
    by (vm_compute; reflexivity).
  cbv zeta. unfold bind at 1. rewrite client_get_run. cbv zeta.
  change (Get (headers (client (tick w))) (qobuz_client.base_url +:+ "track/getFileUrl") _)
    with (probe_request (headers (client w)) (time_time env (clock_reads w)) secret).
  destruct (http env (probe_request _ _ secret)) as [msg | status content]; cbn [accepted unauthorized].
  - reflexivity.
  - destruct ((status =? 200) || (status =? 403)).
    + reflexivity.
    + destruct (status =? 401); reflexivity.
Qed.

(** Empty candidates are passed over without a probe. *)
Lemma find_loop_non_empty env cands : forall w,
  qobuz_client.find_loop env cands w = qobuz_client.find_loop env (non_empty cands) w.
Proof.
  induction cands as [| c cands IH]; intros w; [reflexivity |].
  cbn [qobuz_client.find_loop non_empty List.filter].
  destruct (Py.is_empty c) eqn:E; cbn [negb].
  - apply IH.
  - cbn [qobuz_client.find_loop]. rewrite E. unfold bind.
    destruct (qobuz_client.probe env c w) as [w1 [e | [|]]]; try reflexivity. apply IH.
Qed.

Lemma non_empty_Forall cands : Forall (fun s => Py.is_empty s = false) (non_empty cands).
Proof.
  apply List.Forall_forall. intros s Hin. apply filter_In in Hin.
  destruct Hin as [_ H]. destruct (Py.is_empty s); [discriminate | reflexivity].
Qed.

Lemma probe_answer_shift env hdrs n i c :
  probe_answer env hdrs (S n) i c = probe_answer env hdrs n (S i) c.
Proof. unfold probe_answer. rewrite Nat.add_succ_comm. reflexivity. Qed.

Lemma unauthorized_logs_cons env hdrs n c cs :
  unauthorized_logs env hdrs n (c :: cs)
  = ((if unauthorized (probe_answer env hdrs n 0 c) then [LogTokenUnauthorized] else [])
     ++ unauthorized_logs env hdrs (S n) cs)%list.
Proof.
  unfold unauthorized_logs. rewrite imap_cons. cbn [List.concat]. f_equal. f_equal.
  apply imap_ext. intros i x _. cbn. rewrite probe_answer_shift. reflexivity.
Qed.

Lemma probe_requests_cons env hdrs n c cs :
  imap (fun i c => probe_request hdrs (time_time env (n + i)) c) (c :: cs)
  = probe_request hdrs (time_time env n) c
    :: imap (fun i c => probe_request hdrs (time_time env (S n + i)) c) cs.
Proof.
  rewrite imap_cons, Nat.add_0_r. f_equal.
  apply imap_ext. intros i x _. cbn. rewrite <- Nat.add_succ_comm. reflexivity.
Qed.

Lemma probe_rejected env secret w :
  accepted (probe_answer env (headers (client w)) (clock_reads w) 0 secret) = false ->
  exists w2,
    qobuz_client.probe env secret w = (w2, inr false)
    /\ client w2 = client w /\ clock_reads w2 = S (clock_reads w)
    /\ sent w2 = (sent w ++ [probe_request (headers (client w))
                               (time_time env (clock_reads w)) secret])%list
    /\ logs w2 = (logs w ++ (if unauthorized (probe_answer env (headers (client w))
                                                (clock_reads w) 0 secret)
                             then [LogTokenUnauthorized] else []))%list
    /\ files w2 = files w /\ dirs w2 = dirs w /\ progress w2 = progress w.
Proof.
  unfold probe_answer. rewrite Nat.add_0_r. intros Hrej.
  rewrite probe_run. cbv zeta. rewrite Hrej.
  destruct (unauthorized (http env _)); eexists; (split; [reflexivity |]); cbn;
    rewrite ?app_nil_r; repeat split; reflexivity.
Qed.

Lemma find_loop_found env pre : forall w s post,
  Forall (fun s => Py.is_empty s = false) (pre ++ s :: post) ->
  (forall i c, pre !! i = Some c ->
               accepted (probe_answer env (headers (client w)) (clock_reads w) i c) = false) ->
  accepted (probe_answer env (headers (client w)) (clock_reads w) (List.length pre) s) = true ->
  exists w',
    qobuz_client.find_loop env (pre ++ s :: post) w = (w', inr tt)
    /\ client w' = qobuz_client.set_active_secret (Some s) (client w)
    /\ sent w' = (sent w ++ imap (fun i c => probe_request (headers (client w))
                                              (time_time env (clock_reads w + i)) c)
                              (pre ++ [s]))%list
    /\ logs w' = (logs w ++ unauthorized_logs env (headers (client w)) (clock_reads w) pre
                         ++ [LogFoundActiveSecret])%list
    /\ files w' = files w /\ dirs w' = dirs w /\ progress w' = progress w.
Proof.
  induction pre as [| c pre IH]; intros w s post Hne Hpre Hs.
  - cbn [app List.length] in *. inversion Hne as [| ? ? Hs_ne _]; subst.
    cbn [qobuz_client.find_loop]. rewrite Hs_ne. unfold bind. rewrite probe_run. cbv zeta.
    unfold probe_answer in Hs. rewrite Nat.add_0_r in Hs. rewrite Hs.
    eexists. split; [reflexivity |]. cbn.
    rewrite Nat.add_0_r. repeat split; reflexivity.
  - cbn [app] in Hne. inversion Hne as [| ? ? Hc_ne Hne']; subst.
    cbn [app qobuz_client.find_loop]. rewrite Hc_ne. unfold bind.
    destruct (probe_rejected env c w (Hpre 0%nat c eq_refl))
      as (w2 & -> & Hcl & Hclk & Hsent & Hlogs & Hf & Hd & Hp).
    destruct (IH w2 s post Hne') as (w' & Hrun & Hcl' & Hsent' & Hlogs' & Hf' & Hd' & Hp').
    + intros i c' Hi. rewrite Hcl, Hclk, probe_answer_shift. apply (Hpre (S i)). exact Hi.
    + rewrite Hcl, Hclk, probe_answer_shift. exact Hs.
    + exists w'. split; [exact Hrun |].
      rewrite Hcl in *. rewrite Hclk in *.
      split; [exact Hcl' |]. split; [| split; [| repeat split; congruence]].
      * rewrite Hsent', Hsent. cbn [app]. rewrite probe_requests_cons, <- app_assoc.
        reflexivity.
      * rewrite Hlogs', Hlogs, unauthorized_logs_cons, <- !app_assoc. reflexivity.
Qed.

Lemma find_loop_exhausted env cands : forall w,
  Forall (fun s => Py.is_empty s = false) cands ->
  (forall i c, cands !! i = Some c ->
               accepted (probe_answer env (headers (client w)) (clock_reads w) i c) = false) ->
  exists w',
    qobuz_client.find_loop env cands w
    = (w', inl (Exception "Could not find a valid app secret"))
    /\ client w' = client w
    /\ sent w' = (sent w ++ imap (fun i c => probe_request (headers (client w))
                                              (time_time env (clock_reads w + i)) c)
                              cands)%list
    /\ logs w' = (logs w ++ unauthorized_logs env (headers (client w)) (clock_reads w) cands)%list
    /\ files w' = files w /\ dirs w' = dirs w /\ progress w' = progress w.
Proof.
  induction cands as [| c cands IH]; intros w Hne Hall.
  - exists w. cbn. rewrite !app_nil_r. repeat split; reflexivity.
  - inversion Hne as [| ? ? Hc_ne Hne']; subst.
    cbn [qobuz_client.find_loop]. rewrite Hc_ne. unfold bind.
    destruct (probe_rejected env c w (Hall 0%nat c eq_refl))
      as (w2 & -> & Hcl & Hclk & Hsent & Hlogs & Hf & Hd & Hp).
    destruct (IH w2 Hne') as (w' & Hrun & Hcl' & Hsent' & Hlogs' & Hf' & Hd' & Hp').
    + intros i c' Hi. rewrite Hcl, Hclk, probe_answer_shift. apply (Hall (S i)). exact Hi.
    + exists w'. split; [exact Hrun |].
      rewrite Hcl in *. rewrite Hclk in *.
      split; [exact Hcl' |]. split; [| split; [| repeat split; congruence]].
      * rewrite Hsent', Hsent, probe_requests_cons, <- app_assoc. reflexivity.
      * rewrite Hlogs', Hlogs, unauthorized_logs_cons, <- !app_assoc. reflexivity.
Qed.

(** C2, as amended: the non-empty candidates are probed in list order, each
    with one signed [track/getFileUrl] request for the test track.  The
    first candidate answered with 200 or 403 becomes the active secret and
    no further request is sent; a candidate answered otherwise is passed
    over, with a warning in the log when the answer is 401.  When no
    candidate is accepted the search raises and leaves the client, and with
    it the active secret, as it was. *)
Theorem find_active_secret_probing env w :
  let hdrs := headers (client w) in
  let n := clock_reads w in
  let cands := non_empty (secrets (client w)) in
  (forall pre secret post,
      cands = (pre ++ secret :: post)%list ->
      (forall i c, pre !! i = Some c -> accepted (probe_answer env hdrs n i c) = false) ->
      accepted (probe_answer env hdrs n (List.length pre) secret) = true ->
      exists w',
        qobuz_client._find_active_secret env w = (w', inr tt)
        /\ active_secret (client w') = Some secret
        /\ sent w' = (sent w ++ imap (fun i c => probe_request hdrs (time_time env (n + i)) c)
                                  (pre ++ [secret]))%list
        /\ logs w' = (logs w ++ unauthorized_logs env hdrs n pre ++ [LogFoundActiveSecret])%list)
  /\ ((forall i c, cands !! i = Some c -> accepted (probe_answer env hdrs n i c) = false) ->
      exists w',
        qobuz_client._find_active_secret env w
        = (w', inl (Exception "Could not find a valid app secret"))
        /\ client w' = client w
        /\ active_secret (client w') = active_secret (client w)
        /\ sent w' = (sent w ++ imap (fun i c => probe_request hdrs (time_time env (n + i)) c)
                                  cands)%list
        /\ logs w' = (logs w ++ unauthorized_logs env hdrs n cands)%list).
Proof.
  intros hdrs n cands.
  assert (Hrun : qobuz_client._find_active_secret env w = qobuz_client.find_loop env cands w).
  { unfold qobuz_client._find_active_secret, bind, gets. apply find_loop_non_empty. }
  pose proof (non_empty_Forall (secrets (client w))) as Hne. fold cands in Hne.
  split.
  - intros pre secret post Hsplit Hpre Hacc. rewrite Hsplit in Hne.
    destruct (find_loop_found env pre w secret post Hne Hpre Hacc)
      as (w' & Hloop & Hcl & Hsent & Hlogs & _).
    exists w'. rewrite Hrun, Hsplit. split; [exact Hloop |].
    split; [rewrite Hcl; reflexivity |]. split; assumption.
  - intros Hall.
    destruct (find_loop_exhausted env cands w Hne Hall) as (w' & Hloop & Hcl & Hsent & Hlogs & _).
    exists w'. rewrite Hrun. split; [exact Hloop |]. split; [exact Hcl |].
    split; [rewrite Hcl; reflexivity |]. split; assumption.
Qed.

Lemma find_active_secret_probing_witness :
  exists w',
    qobuz_client._find_active_secret Sample.env_probing
      (Sample.world Sample.searching_client ∅) = (w', inr tt)
    /\ active_secret (client w') = Some "second"
    /\ List.length (sent w') = 2%nat
    /\ logs w' = [LogTokenUnauthorized; LogFoundActiveSecret].
Proof.
  destruct (proj1 (find_active_secret_probing Sample.env_probing
                     (Sample.world Sample.searching_client ∅))
              ["first"] "second" ["third"]) as (w' & Hrun & Hact & Hsent & Hlogs).
  - vm_compute. reflexivity.
  - intros [| i] c Hi; [| destruct i; discriminate].
    injection Hi as <-. vm_compute. reflexivity.
  - vm_compute. reflexivity.
  - exists w'. split; [exact Hrun |]. split; [exact Hact |]. split.
    + rewrite Hsent. reflexivity.
    + rewrite Hlogs. vm_compute. reflexivity.
Defined.

(** C2, as stated, fails in its last clause: with an app secret configured
    next to e-mail and password, [initialize] logs in and [login] searches
    among the one configured candidate; the provider rejects it, the search
    raises, and the configured secret is still the active secret. *)
Lemma failed_search_leaves_active_secret_set :
  (let r := qobuz_client._find_active_secret Sample.env_rejecting
              (Sample.world Sample.logged_in_client ∅) in
   snd r = inl (Exception "Could not find a valid app secret")
   /\ active_secret (client (fst r)) = Some "s3cr3t")
  /\ (let r := qobuz_client.initialize Sample.env_rejecting
                 (Sample.world Sample.password_client ∅) in
      snd r = inl (Exception "Could not find a valid app secret")
      /\ active_secret (client (fst r)) = Some "s3cr3t").
Proof. vm_compute. repeat split; reflexivity. Qed.

(** ** downloader: cover art *)

(** One turn of the cover loop: one request; a 200 is written to
    [cover_path], anything else leaves the files alone. *)
Lemma cover_attempt env cover_path url rest w :
  Py.is_empty url = false ->
  exists w1,
    sent w1 = (sent w ++ [cover_request url])%list
    /\ dirs w1 = dirs w /\ progress w1 = progress w /\ client w1 = client w
    /\ clock_reads w1 = clock_reads w
    /\ match http env (cover_request url) with
       | Response status content =>
           if status =? 200 then
             downloader.cover_loop env cover_path (url :: rest) w = (w1, inr (Some cover_path))
             /\ files w1 = <[cover_path := content]> (files w)
             /\ logs w1 = (logs w ++ [LogCoverDownloaded url])%list
           else
             downloader.cover_loop env cover_path (url :: rest) w
             = downloader.cover_loop env cover_path rest w1
             /\ files w1 = files w /\ logs w1 = logs w
       | NoResponse msg =>
           downloader.cover_loop env cover_path (url :: rest) w
           = downloader.cover_loop env cover_path rest w1
           /\ files w1 = files w
           /\ logs w1 = (logs w ++ [LogCoverFailed url (TransportError msg)])%list
       end.
Proof.
  intros Hne. cbn [downloader.cover_loop]. rewrite Hne.
  unfold try_except, http_get, write_file, log, modify, bind, ret, raise. cbn.
  fold (cover_request url).
  destruct (http env (cover_request url)) as [msg | status content].
  - exists (set_logs (logs w ++ [LogCoverFailed url (TransportError msg)])
              (set_sent (sent w ++ [cover_request url]) w)).
    repeat split; reflexivity.
  - destruct (status =? 200).
    + exists (set_logs (logs w ++ [LogCoverDownloaded url])
                (set_files (<[cover_path := content]> (files w))
                   (set_sent (sent w ++ [cover_request url]) w))).
      repeat split; reflexivity.
    + exists (set_sent (sent w ++ [cover_request url]) w).
      repeat split; reflexivity.
Qed.

Lemma cover_loop_non_empty env cover_path urls : forall w,
  downloader.cover_loop env cover_path urls w
  = downloader.cover_loop env cover_path (non_empty urls) w.
Proof.
  induction urls as [| url urls IH]; intros w; [reflexivity |].
  cbn [non_empty List.filter]. destruct (Py.is_empty url) eqn:E; cbn [negb].
  - cbn [downloader.cover_loop]. rewrite E. apply IH.
  - cbn [downloader.cover_loop]. rewrite E. unfold bind.
    destruct (try_except _ _ w) as [w1 [e | [|]]]; try reflexivity. apply IH.
Qed.

Lemma cover_loop_first_ok env cover_path pre : forall w url post content,
  Forall (fun s => Py.is_empty s = false) (pre ++ url :: post) ->
  Forall (fun u => cover_ok (http env (cover_request u)) = false) pre ->
  http env (cover_request url) = Response 200 content ->
  exists w',
    downloader.cover_loop env cover_path (pre ++ url :: post) w = (w', inr (Some cover_path))
    /\ files w' = <[cover_path := content]> (files w)
    /\ sent w' = (sent w ++ List.map cover_request (pre ++ [url]))%list
    /\ dirs w' = dirs w /\ progress w' = progress w /\ client w' = client w
    /\ clock_reads w' = clock_reads w.
Proof.
  induction pre as [| u pre IH]; intros w url post content Hne Hpre Hok.
  - cbn [app] in *. inversion Hne as [| ? ? Hu _]; subst.
    destruct (cover_attempt env cover_path url post w Hu)
      as (w1 & Hsent & Hd & Hp & Hc & Hclk & Hstep).
    rewrite Hok in Hstep. cbn in Hstep. destruct Hstep as (Hrun & Hfiles & _).
    exists w1. repeat split; assumption.
  - cbn [app] in Hne. inversion Hne as [| ? ? Hu Hne']; subst.
    inversion Hpre as [| ? ? Hfail Hpre']; subst.
    destruct (cover_attempt env cover_path u (pre ++ url :: post) w Hu)
      as (w1 & Hsent & Hd & Hp & Hc & Hclk & Hstep).
    assert (Hnext : downloader.cover_loop env cover_path (u :: pre ++ url :: post) w
                    = downloader.cover_loop env cover_path (pre ++ url :: post) w1
                    /\ files w1 = files w).
    { destruct (http env (cover_request u)) as [msg | status c].
      - split; apply Hstep.
      - cbn in Hfail. rewrite Hfail in Hstep. split; apply Hstep. }
    destruct Hnext as [Hrun Hfiles].
    destruct (IH w1 url post content Hne' Hpre' Hok)
      as (w' & Hrun' & Hfiles' & Hsent' & Hd' & Hp' & Hc' & Hclk').
    exists w'. cbn [app]. rewrite Hrun. split; [exact Hrun' |].
    split; [congruence |]. split; [| repeat split; congruence].
    rewrite Hsent', Hsent. cbn [app List.map]. rewrite <- app_assoc. reflexivity.
Qed.

Lemma cover_loop_all_fail env cover_path urls : forall w,
  Forall (fun s => Py.is_empty s = false) urls ->
  Forall (fun u => cover_ok (http env (cover_request u)) = false) urls ->
  exists w',
    downloader.cover_loop env cover_path urls w = (w', inr None)
    /\ files w' = files w
    /\ sent w' = (sent w ++ List.map cover_request urls)%list
    /\ dirs w' = dirs w /\ progress w' = progress w /\ client w' = client w
    /\ clock_reads w' = clock_reads w.
Proof.
  induction urls as [| u urls IH]; intros w Hne Hall.
  - eexists. split; [reflexivity |]. cbn. rewrite app_nil_r. repeat split; reflexivity.
  - inversion Hne as [| ? ? Hu Hne']; subst. inversion Hall as [| ? ? Hfail Hall']; subst.
    destruct (cover_attempt env cover_path u urls w Hu)
      as (w1 & Hsent & Hd & Hp & Hc & Hclk & Hstep).
    assert (Hnext : downloader.cover_loop env cover_path (u :: urls) w
                    = downloader.cover_loop env cover_path urls w1
                    /\ files w1 = files w).
    { destruct (http env (cover_request u)) as [msg | status c].
      - split; apply Hstep.
      - cbn in Hfail. rewrite Hfail in Hstep. split; apply Hstep. }
    destruct Hnext as [Hrun Hfiles].
    destruct (IH w1 Hne' Hall') as (w' & Hrun' & Hfiles' & Hsent' & Hd' & Hp' & Hc' & Hclk').
    exists w'. rewrite Hrun. split; [exact Hrun' |].
    split; [congruence |]. split; [| repeat split; congruence].
    rewrite Hsent', Hsent. cbn [List.map]. rewrite <- app_assoc. reflexivity.
Qed.

Lemma replace_non_empty old new s :
  Py.is_empty new = false -> Py.is_empty s = false -> Py.is_empty (Py.replace old new s) = false.
Proof.
  intros Hnew Hs. unfold Py.replace.
  destruct new as [| c new]; [discriminate |].
  destruct (Py.is_empty old).
  - destruct s; reflexivity.
  - destruct s as [| a s]; [discriminate |]. cbn [Py.replace_from].
    destruct (String.prefix old (String a s)); reflexivity.
Qed.

Lemma download_cover_run env album folder_path large small w :
  path_exists w (Py.os_path_join folder_path "cover.jpg") = false ->
  al_image_large album = Some large ->
  al_image_small album = Some small ->
  downloader._download_cover env album folder_path w
  = downloader.cover_loop env (Py.os_path_join folder_path "cover.jpg")
      (non_empty [Py.replace "_600.jpg" "_org.jpg" large; large; small]) w.
Proof.
  intros Hno Hl Hs. unfold downloader._download_cover, os_path_exists, gets.
  unfold bind at 1. rewrite Hno, Hl, Hs. unfold item, bind, ret.
  apply cover_loop_non_empty.
Qed.

(** C6: a cover already in the folder is returned without any request.
    Otherwise the non-empty candidates (the original-resolution guess, the
    large URL, the small URL) are requested in this order; the bytes of the
    first one answered with 200 are written to [cover.jpg] and nothing is
    requested after it; with three non-empty candidates of which only the
    third answers 200, exactly three requests are sent; when no candidate
    answers 200 the function returns [None], raises nothing and writes
    nothing. *)
Theorem download_cover_fallback env album folder_path large small w :
  let cover_path := Py.os_path_join folder_path "cover.jpg" in
  let original := Py.replace "_600.jpg" "_org.jpg" large in
  al_image_large album = Some large ->
  al_image_small album = Some small ->
  (path_exists w cover_path = true ->
   downloader._download_cover env album folder_path w = (w, inr (Some cover_path)))
  /\ (path_exists w cover_path = false ->
      (forall pre url post content,
          non_empty [original; large; small] = (pre ++ url :: post)%list ->
          Forall (fun u => cover_ok (http env (cover_request u)) = false) pre ->
          http env (cover_request url) = Response 200 content ->
          exists w',
            downloader._download_cover env album folder_path w = (w', inr (Some cover_path))
            /\ files w' = <[cover_path := content]> (files w)
            /\ sent w' = (sent w ++ List.map cover_request (pre ++ [url]))%list)
      /\ (forall content,
             large <> "" -> small <> "" ->
             cover_ok (http env (cover_request original)) = false ->
             cover_ok (http env (cover_request large)) = false ->
             http env (cover_request small) = Response 200 content ->
             exists w',
               downloader._download_cover env album folder_path w = (w', inr (Some cover_path))
               /\ files w' = <[cover_path := content]> (files w)
               /\ sent w' = (sent w ++ [cover_request original; cover_request large;
                                        cover_request small])%list)
      /\ (Forall (fun u => cover_ok (http env (cover_request u)) = false)
            (non_empty [original; large; small]) ->
          exists w',
            downloader._download_cover env album folder_path w = (w', inr None)
            /\ files w' = files w
            /\ sent w' = (sent w ++ List.map cover_request
                                     (non_empty [original; large; small]))%list)).
Proof.
  intros cover_path original Hl Hs. split.
  - intros Hyes. unfold downloader._download_cover, os_path_exists, gets.
    unfold bind at 1. fold cover_path. rewrite Hyes. reflexivity.
  - intros Hno.
    pose proof (download_cover_run env album folder_path large small w Hno Hl Hs) as Hrun.
    fold cover_path original in Hrun.
    assert (Hfirst : forall pre url post content,
               non_empty [original; large; small] = (pre ++ url :: post)%list ->
               Forall (fun u => cover_ok (http env (cover_request u)) = false) pre ->
               http env (cover_request url) = Response 200 content ->
               exists w',
                 downloader._download_cover env album folder_path w = (w', inr (Some cover_path))
                 /\ files w' = <[cover_path := content]> (files w)
                 /\ sent w' = (sent w ++ List.map cover_request (pre ++ [url]))%list).
    { intros pre url post content Hsplit Hpre Hok.
      pose proof (non_empty_Forall [original; large; small]) as Hne. rewrite Hsplit in Hne.
      destruct (cover_loop_first_ok env cover_path pre w url post content Hne Hpre Hok)
        as (w' & Hloop & Hfiles & Hsent & _).
      exists w'. rewrite Hrun, Hsplit. repeat split; assumption. }
    split; [exact Hfirst |]. split.
    + intros content Hlarge Hsmall Ho Hlg Hsm.
      assert (El : Py.is_empty large = false) by (destruct large; [congruence | reflexivity]).
      assert (Es : Py.is_empty small = false) by (destruct small; [congruence | reflexivity]).
      assert (Eo : Py.is_empty original = false) by (apply replace_non_empty; [reflexivity | exact El]).
      apply (Hfirst [original; large] small [] content).
      * unfold non_empty. cbn [List.filter]. rewrite Eo, El, Es. reflexivity.
      * repeat constructor; assumption.
      * exact Hsm.
    + intros Hall.
      destruct (cover_loop_all_fail env cover_path _ w
                  (non_empty_Forall [original; large; small]) Hall)
        as (w' & Hloop & Hfiles & Hsent & _).
      exists w'. rewrite Hrun. repeat split; assumption.
Qed.

Lemma download_cover_fallback_witness :
  exists w',
    downloader._download_cover Sample.env Sample.album "./downloads/Artist - Album (2020)"
      Sample.fresh = (w', inr (Some "./downloads/Artist - Album (2020)/cover.jpg"))
    /\ files w' = {[ "./downloads/Artist - Album (2020)/cover.jpg" := "JPEG" ]}
    /\ sent w' = [ cover_request "https://img.example/cover_org.jpg";
                   cover_request "https://img.example/cover_600.jpg";
                   cover_request "https://img.example/cover_50.jpg" ].
Proof.
  destruct (proj1 (proj2 (proj2 (download_cover_fallback Sample.env Sample.album
                                   "./downloads/Artist - Album (2020)"
                                   "https://img.example/cover_600.jpg"
                                   "https://img.example/cover_50.jpg" Sample.fresh
                                   eq_refl eq_refl) eq_refl)) "JPEG")
    as (w' & Hrun & Hfiles & Hsent); try (vm_compute; reflexivity); try discriminate.
  exists w'. split; [exact Hrun |]. split.
  - rewrite Hfiles. vm_compute. reflexivity.
  - rewrite Hsent. vm_compute. reflexivity.
Defined.

(** ** downloader: a single track *)

Lemma request_run {A} env (parse : string -> option A) endpoint params w :
  qobuz_client.request env parse endpoint params w
  = let req := Get (headers (client w)) (qobuz_client.base_url +:+ endpoint) params in
    (set_sent (sent w ++ [req]) w,
     match http env req with
     | NoResponse msg => inl (TransportError msg)
     | Response status content =>
         if is_success status then
           match parse content with
           | Some d => inr d
           | None => inl JSONDecodeError
           end
         else inl (HTTPStatusError status)
     end).
Proof.
  unfold qobuz_client.request. unfold bind at 1. rewrite client_get_run. cbv zeta.
  destruct (http env _) as [msg | status content]; [reflexivity |].
  unfold raise_for_status, json, bind, ret, raise, is_success.
  destruct ((200 <=? status) && (status <? 300)); [| reflexivity].
  destruct (parse content); reflexivity.
Qed.

Lemma get_track_run env track_id w :
  qobuz_client.get_track env track_id w
  = (set_sent (sent w ++ [track_get_request (headers (client w)) track_id]) w,
     match http env (track_get_request (headers (client w)) track_id) with
     | NoResponse msg => inl (TransportError msg)
     | Response status content =>
         if is_success status then
           match json_track env content with
           | Some d => inr d
           | None => inl JSONDecodeError
           end
         else inl (HTTPStatusError status)
     end).
Proof. unfold qobuz_client.get_track. rewrite request_run. reflexivity. Qed.

Lemma get_file_url_run env track_id format_id w :
  qobuz_client.get_file_url env track_id format_id w
  = let req := file_url_request (headers (client w)) (time_time env (clock_reads w))
                 track_id format_id (active_secret (client w)) in
    (set_sent (sent w ++ [req]) (tick w),
     match http env req with
     | NoResponse msg => inl (TransportError msg)
     | Response status content =>
         if is_success status then
           match json_file_info env content with
           | Some d => inr d
           | None => inl JSONDecodeError
           end
         else inl (HTTPStatusError status)
     end).
Proof.
  unfold qobuz_client.get_file_url, gets. unfold bind at 1. unfold bind at 1.
  rewrite generate_sig_run. cbn [String.eqb Ascii.eqb Bool.eqb].
  replace (({[ "track_id" := track_id; "format_id" := PyInt format_id ]}
              : gmap string pyval) !! "format_id") with (Some (PyInt format_id)).
  2: { rewrite lookup_insert_ne by discriminate. rewrite lookup_singleton_eq. reflexivity. }
  replace (({[ "track_id" := track_id; "format_id" := PyInt format_id ]}
              : gmap string pyval) !! "track_id") with (Some track_id).
  2: { rewrite lookup_insert_eq. reflexivity. }
  cbv zeta. rewrite request_run. reflexivity.
Qed.

(** The answer of [get_file_url] depends on the world through the client
    and the clock only. *)
Lemma get_file_url_result env track_id format_id w w' :
  client w' = client w -> clock_reads w' = clock_reads w ->
  snd (qobuz_client.get_file_url env track_id format_id w')
  = snd (qobuz_client.get_file_url env track_id format_id w).
Proof. intros Hc Hn. rewrite !get_file_url_run. cbn. rewrite Hc, Hn. reflexivity. Qed.

Lemma get_title_run track w :
  metadata_utils.get_title track w
  = (w, match title_of track with Some t => inr t | None => inl (KeyError "title") end).
Proof.
  unfold metadata_utils.get_title, title_of, item, bind, ret, raise.
  destruct (t_title track); reflexivity.
Qed.

(** A call that finds the final file in place returns its path after the
    two metadata calls, the folder creation and one log record. *)
Lemma download_track_short_circuit env self track_id album folder_opt pbar w
      status content track fi folder filename final :
  http env (track_get_request (headers (client w)) track_id) = Response status content ->
  is_success status = true ->
  json_track env content = Some track ->
  snd (qobuz_client.get_file_url env track_id (quality self) w) = inr fi ->
  truthy (fi_url fi) = true ->
  destination env self track album folder_opt = Some (folder, filename, final) ->
  path_exists w final = true ->
  exists w',
    downloader.download_track env self track_id album folder_opt pbar w
    = (w', inr (downloader.ReturnPath final))
    /\ sent w' = (sent w ++ [ track_get_request (headers (client w)) track_id;
                             file_url_request (headers (client w))
                               (time_time env (clock_reads w)) track_id (quality self)
                               (active_secret (client w)) ])%list
    /\ logs w' = (logs w ++ [LogFileExists filename])%list
    /\ files w' = files w
    /\ dirs w' = {[folder]} ∪ dirs w
    /\ progress w' = progress w
    /\ client w' = client w
    /\ clock_reads w' = S (clock_reads w).
Proof.
  intros Hhttp Hst Hjson Hfi Hurl Hdest Hex.
  unfold downloader.download_track.
  assert (Htrack : qobuz_client.get_track env track_id w
                   = (set_sent (sent w ++ [track_get_request (headers (client w)) track_id]) w,
                      inr track)).
  { rewrite get_track_run, Hhttp, Hst, Hjson. reflexivity. }
  set (w1 := set_sent (sent w ++ [track_get_request (headers (client w)) track_id]) w) in *.
  assert (Hfi1 : qobuz_client.get_file_url env track_id (quality self) w1
                 = (set_sent (sent w1 ++ [file_url_request (headers (client w))
                                            (time_time env (clock_reads w)) track_id (quality self)
                                            (active_secret (client w))]) (tick w1), inr fi)).
  { rewrite <- (get_file_url_result env track_id (quality self) w w1 eq_refl eq_refl) in Hfi.
    rewrite get_file_url_run in *. cbn [snd] in Hfi. cbv zeta. rewrite Hfi. reflexivity. }
  unfold destination in Hdest.
  destruct album as [album |].
  - unfold bind at 1. unfold bind at 1. rewrite Htrack. unfold ret at 1.
    unfold bind at 1. rewrite Hfi1. rewrite Hurl. cbn [negb].
    destruct (al_artist_name album) as [artist_name |]; [| discriminate].
    destruct (al_title album) as [album_title |]; [| discriminate].
    destruct (t_track_number track) as [number |]; [| discriminate].
    destruct (title_of track) as [track_title |] eqn:Htitle; [| discriminate].
    cbv zeta in Hdest. injection Hdest as <- <- <-.
    unfold item, os_makedirs, modify, os_path_exists, gets, log. unfold bind, ret.
    rewrite get_title_run, Htitle.
    match goal with |- context [path_exists ?w' ?p] =>
      assert (Hex' : path_exists w' p = true) end.
    { unfold path_exists in *. cbn. apply orb_true_iff in Hex. apply orb_true_iff.
      destruct Hex as [H | H]; [left; exact H | right].
      apply bool_decide_eq_true in H. apply bool_decide_eq_true. set_solver. }
    rewrite Hex'. eexists. split; [reflexivity |]. cbn.
    rewrite <- app_assoc. repeat split; reflexivity.
  - unfold bind at 1. unfold bind at 1. rewrite Htrack. unfold bind at 1.
    destruct (t_album track) as [album |]; [| discriminate]. cbn [item]. unfold ret at 1.
    unfold ret at 1.
    unfold bind at 1. rewrite Hfi1. rewrite Hurl. cbn [negb].
    destruct (al_artist_name album) as [artist_name |]; [| discriminate].
    destruct (al_title album) as [album_title |]; [| discriminate].
    destruct (t_track_number track) as [number |]; [| discriminate].
    destruct (title_of track) as [track_title |] eqn:Htitle; [| discriminate].
    cbv zeta in Hdest. injection Hdest as <- <- <-.
    unfold item, os_makedirs, modify, os_path_exists, gets, log. unfold bind, ret.
    rewrite get_title_run, Htitle.
    match goal with |- context [path_exists ?w' ?p] =>
      assert (Hex' : path_exists w' p = true) end.
    { unfold path_exists in *. cbn. apply orb_true_iff in Hex. apply orb_true_iff.
      destruct Hex as [H | H]; [left; exact H | right].
      apply bool_decide_eq_true in H. apply bool_decide_eq_true. set_solver. }
    rewrite Hex'. eexists. split; [reflexivity |]. cbn.
    rewrite <- app_assoc. repeat split; reflexivity.
Qed.

Ltac bind_step H :=
  apply bind_success in H;
  let w := fresh "w" in let a := fresh "a" in let Hm := fresh "Hm" in
  destruct H as (w & a & Hm & H); cbv beta in H.

(** A call that returns has fetched the track document, resolved a stream
    URL and computed the destination; its result is the bare path or, when
    the final file was not there, the triple with the six entries of the
    player metadata. *)
Lemma download_track_success env self track_id album folder_opt pbar w w' r :
  downloader.download_track env self track_id album folder_opt pbar w = (w', inr r) ->
  exists status content track fi folder filename final,
    http env (track_get_request (headers (client w)) track_id) = Response status content
    /\ is_success status = true
    /\ json_track env content = Some track
    /\ snd (qobuz_client.get_file_url env track_id (quality self) w) = inr fi
    /\ truthy (fi_url fi) = true
    /\ destination env self track album folder_opt = Some (folder, filename, final)
    /\ (r = downloader.ReturnPath final
        \/ (path_exists w final = false
            /\ exists caption artist_name track_title cover thumb,
                 r = downloader.ReturnTriple final caption
                       {| downloader.pi_title := track_title;
                          downloader.pi_performer := artist_name;
                          downloader.pi_duration := t_duration track;
                          downloader.pi_cover := cover;
                          downloader.pi_thumbnail := thumb;
                          downloader.pi_folder_path := folder |})).
Proof.
  intros H. unfold downloader.download_track in H.
  bind_step H.
  assert (Hmeta : exists status content track,
             http env (track_get_request (headers (client w)) track_id) = Response status content
             /\ is_success status = true /\ json_track env content = Some track
             /\ w0 = set_sent (sent w ++ [track_get_request (headers (client w)) track_id]) w
             /\ snd a = track
             /\ Some (fst a) = match album with Some x => Some x | None => t_album track end).
  { destruct album as [album |].
    - bind_step Hm. rewrite get_track_run in Hm0.
      destruct (http env _) as [msg | status content] eqn:Hhttp; [discriminate |].
      destruct (is_success status) eqn:Hst; [| discriminate].
      destruct (json_track env content) as [track |] eqn:Hj; [| discriminate].
      injection Hm0 as <- <-. injection Hm as <- <-.
      exists status, content, track. repeat split; try reflexivity; assumption.
    - bind_step Hm. rewrite get_track_run in Hm0.
      destruct (http env _) as [msg | status content] eqn:Hhttp; [discriminate |].
      destruct (is_success status) eqn:Hst; [| discriminate].
      destruct (json_track env content) as [track |] eqn:Hj; [| discriminate].
      injection Hm0 as <- <-. bind_step Hm.
      apply item_success in Hm0. destruct Hm0 as [Halb ->].
      injection Hm as <- <-.
      exists status, content, track. rewrite Halb. repeat split; try reflexivity; assumption. }
  destruct Hmeta as (status & content & track & Hhttp & Hst & Hjson & -> & Htrack & Halbum).
  destruct a as [album_data track_data]. cbn [fst snd] in *. subst track_data.
  exists status, content, track.
  bind_step H.
  rename a into fi, Hm0 into Hfi.
  assert (Hfi' : snd (qobuz_client.get_file_url env track_id (quality self) w) = inr fi).
  { rewrite <- (get_file_url_result env track_id (quality self) w
                  (set_sent (sent w ++ [track_get_request (headers (client w)) track_id]) w)
                  eq_refl eq_refl).
    rewrite Hfi. reflexivity. }
  assert (Hw0 : w0 = set_sent (sent w ++ [track_get_request (headers (client w)) track_id;
                                           file_url_request (headers (client w))
                                             (time_time env (clock_reads w)) track_id
                                             (quality self) (active_secret (client w))])
                       (tick w)).
  { rewrite get_file_url_run in Hfi. cbv zeta in Hfi. injection Hfi as <- _. cbn.
    rewrite <- app_assoc. reflexivity. }
  exists fi.
  destruct (truthy (fi_url fi)) eqn:Hurl; cbn [negb] in H; [| discriminate].
  bind_step H. apply item_success in Hm0. destruct Hm0 as [Hartist ->].
  bind_step H. apply item_success in Hm0. destruct Hm0 as [Htitle ->].
  cbv zeta in H.
  bind_step H. unfold os_makedirs, modify in Hm0. injection Hm0 as <- _.
  bind_step H. apply item_success in Hm0. destruct Hm0 as [Hnumber ->].
  bind_step H. rewrite get_title_run in Hm0.
  destruct (title_of track) as [track_title |] eqn:Htt; [| discriminate].
  injection Hm0 as <- <-.
  bind_step H. unfold os_path_exists, gets in Hm0. injection Hm0 as <- <-.
  match type of H with
  | context [path_exists ?wx ?p] => set (final := p) in *; set (w3 := wx) in *
  end.
  match type of H with
  | context [LogFileExists ?f] => set (filename := f) in *
  end.
  assert (Hdest : exists folder,
             destination env self track album folder_opt = Some (folder, filename, final)
             /\ dirs w3 = {[folder]} ∪ dirs w0).
  { unfold destination. rewrite <- Halbum, Hartist, Htitle, Hnumber, Htt. cbv zeta.
    eexists. split; reflexivity. }
  destruct Hdest as (folder & Hdest & Hdirs).
  exists folder, filename, final.
  split; [exact Hhttp |]. split; [exact Hst |]. split; [exact Hjson |].
  split; [exact Hfi' |]. split; [reflexivity |]. split; [exact Hdest |].
  destruct (path_exists w3 final) eqn:Hex.
  - left. bind_step H. unfold ret in H. congruence.
  - right. split.
    + unfold path_exists in *. apply orb_false_iff in Hex. destruct Hex as [Hf Hd].
      apply orb_false_iff. split.
      * subst w3 w0. exact Hf.
      * apply bool_decide_eq_false in Hd. apply bool_decide_eq_false.
        assert (Hw : dirs w0 = dirs w) by (rewrite Hw0; reflexivity).
        intros Hin. apply Hd. rewrite Hdirs, Hw. apply elem_of_union. right. exact Hin.
    + do 7 bind_step H. unfold ret in H. injection H as _ <-.
      unfold destination in Hdest. rewrite <- Halbum, Hartist, Htitle, Hnumber, Htt in Hdest.
      cbv zeta in Hdest. injection Hdest as <-.
      do 5 eexists. reflexivity.
Qed.

Lemma download_track_result_path env self track_id album folder_opt pbar w w' r :
  downloader.download_track env self track_id album folder_opt pbar w = (w', inr r) ->
  exists status content track folder filename,
    http env (track_get_request (headers (client w)) track_id) = Response status content
    /\ is_success status = true
    /\ json_track env content = Some track
    /\ destination env self track album folder_opt
       = Some (folder, filename, downloader.result_path r).
Proof.
  intros H. apply download_track_success in H.
  destruct H as (status & content & track & fi & folder & filename & final
                 & Hhttp & Hst & Hjson & _ & _ & Hdest & Hr).
  exists status, content, track, folder, filename.
  assert (Hpath : downloader.result_path r = final).
  { destruct Hr as [-> | (_ & caption & artist & title & cover & thumb & ->)]; reflexivity. }
  rewrite Hpath. repeat split; assumption.
Qed.

(** C1, as amended: when the final file of an earlier successful call is in
    place and a stream URL is still resolved, a second call with the same
    inputs sends exactly the two metadata requests ([track/get] and the
    signed [track/getFileUrl]), no cover or stream request, leaves every
    file as it is (nothing is downloaded or tagged again) and returns the
    same final path. *)
Theorem download_track_second_call env self track_id album folder_opt pbar w0 w1 r1 w2 fi :
  downloader.download_track env self track_id album folder_opt pbar w0 = (w1, inr r1) ->
  headers (client w2) = headers (client w0) ->
  path_exists w2 (downloader.result_path r1) = true ->
  snd (qobuz_client.get_file_url env track_id (quality self) w2) = inr fi ->
  truthy (fi_url fi) = true ->
  exists w3 r2,
    downloader.download_track env self track_id album folder_opt pbar w2 = (w3, inr r2)
    /\ downloader.result_path r2 = downloader.result_path r1
    /\ sent w3 = (sent w2 ++ [ track_get_request (headers (client w2)) track_id;
                              file_url_request (headers (client w2))
                                (time_time env (clock_reads w2)) track_id (quality self)
                                (active_secret (client w2)) ])%list
    /\ files w3 = files w2
    /\ progress w3 = progress w2.
Proof.
  intros Hfirst Hhdrs Hex Hfi Hurl.
  destruct (download_track_result_path _ _ _ _ _ _ _ _ _ Hfirst)
    as (status & content & track & folder & filename & Hhttp & Hst & Hjson & Hdest).
  rewrite <- Hhdrs in Hhttp.
  destruct (download_track_short_circuit env self track_id album folder_opt pbar w2
              status content track fi folder filename (downloader.result_path r1)
              Hhttp Hst Hjson Hfi Hurl Hdest Hex)
    as (w3 & Hrun & Hsent & _ & Hfiles & _ & Hprog & _).
  exists w3, (downloader.ReturnPath (downloader.result_path r1)).
  repeat split; assumption.
Qed.

Lemma download_track_second_call_witness :
  let first := downloader.download_track Sample.env Sample.self (PyInt 1) None None false
                 Sample.fresh in
  exists w3 r2,
    downloader.download_track Sample.env Sample.self (PyInt 1) None None false (fst first)
    = (w3, inr r2)
    /\ downloader.result_path r2 = "./downloads/Artist - Album (2020)/01. One.flac"
    /\ files w3 = files (fst first).
Proof.
  cbv zeta.
  destruct (download_track_second_call Sample.env Sample.self (PyInt 1) None None false
              Sample.fresh
              (fst (downloader.download_track Sample.env Sample.self (PyInt 1) None None false
                      Sample.fresh))
              (downloader.ReturnTriple "./downloads/Artist - Album (2020)/01. One.flac"
                 "FLAC Hi-Res 24-Bit / 44.1 kHz / 1411 kbps"
                 {| downloader.pi_title := "One"; downloader.pi_performer := "Artist";
                    downloader.pi_duration := Some 180;
                    downloader.pi_cover := Some "./downloads/Artist - Album (2020)/cover.jpg";
                    downloader.pi_thumbnail := Some "./downloads/Artist - Album (2020)/thumb.jpg";
                    downloader.pi_folder_path := "./downloads/Artist - Album (2020)" |})
              (fst (downloader.download_track Sample.env Sample.self (PyInt 1) None None false
                      Sample.fresh))
              {| fi_url := Some "https://cdn.example/stream" |})
    as (w3 & r2 & Hrun & Hpath & _ & Hfiles & _).
  - vm_compute. reflexivity.
  - vm_compute. reflexivity.
  - vm_compute. reflexivity.
  - vm_compute. reflexivity.
  - reflexivity.
  - exists w3, r2. repeat split; assumption.
Defined.

(** C1, as stated, fails: the second call, with the final file in place,
    returns the path and sends two requests on the way; and a call that
    finds the final file of track 2 in place, but gets no stream URL for
    it, raises instead of returning the path. *)
Lemma second_call_sends_requests :
  let first := downloader.download_track Sample.env Sample.self (PyInt 1) None None false
                 Sample.fresh in
  let second := downloader.download_track Sample.env Sample.self (PyInt 1) None None false
                  (fst first) in
  let present := Sample.world Sample.configured_client
                   {[ "./downloads/Artist - Album (2020)/02. Two.flac" := "fLaCDATA+tags" ]} in
  path_exists (fst first) "./downloads/Artist - Album (2020)/01. One.flac" = true
  /\ snd second = inr (downloader.ReturnPath "./downloads/Artist - Album (2020)/01. One.flac")
  /\ sent (fst second)
     = (sent (fst first)
        ++ [ track_get_request (headers Sample.configured_client) (PyInt 1);
             file_url_request (headers Sample.configured_client) 1700000001 (PyInt 1) 6
               (Some "s3cr3t") ])%list
  /\ sent (fst second) <> sent (fst first)
  /\ destination Sample.env Sample.self (Sample.track 2 "Two") None None
     = Some ("./downloads/Artist - Album (2020)", "02. Two.flac",
             "./downloads/Artist - Album (2020)/02. Two.flac")
  /\ path_exists present "./downloads/Artist - Album (2020)/02. Two.flac" = true
  /\ snd (downloader.download_track Sample.env Sample.self (PyInt 2) None None false present)
     = inl (Exception "No download URL available. It might be a demo or restricted.").
Proof.
  cbv zeta. split; [vm_compute; reflexivity |]. split; [vm_compute; reflexivity |].
  assert (Hsent : sent (fst (downloader.download_track Sample.env Sample.self (PyInt 1) None None
                               false
                               (fst (downloader.download_track Sample.env Sample.self (PyInt 1)
                                       None None false Sample.fresh))))
                  = (sent (fst (downloader.download_track Sample.env Sample.self (PyInt 1)
                                  None None false Sample.fresh))
                     ++ [ track_get_request (headers Sample.configured_client) (PyInt 1);
                          file_url_request (headers Sample.configured_client) 1700000001
                            (PyInt 1) 6 (Some "s3cr3t") ])%list)
    by (vm_compute; reflexivity).
  split; [exact Hsent |]. split.
  - rewrite Hsent. intros Heq. apply (f_equal (@List.length _)) in Heq.
    rewrite length_app in Heq. cbn [List.length] in Heq. lia.
  - repeat split; vm_compute; reflexivity.
Qed.

(** C8: a successful call that found its final file in place returned the
    bare path, not the triple; on the sample catalogue the first call for
    track 1 returns the triple with the six entries of the player metadata,
    the second one the path alone. *)
Theorem download_track_existing_file_returns_path_only :
  (forall env self track_id album folder_opt pbar w w' r,
      downloader.download_track env self track_id album folder_opt pbar w = (w', inr r) ->
      path_exists w (downloader.result_path r) = true ->
      r = downloader.ReturnPath (downloader.result_path r))
  /\ (let first := downloader.download_track Sample.env Sample.self (PyInt 1) None None false
                     Sample.fresh in
      let second := downloader.download_track Sample.env Sample.self (PyInt 1) None None false
                      (fst first) in
      snd first
      = inr (downloader.ReturnTriple "./downloads/Artist - Album (2020)/01. One.flac"
               "FLAC Hi-Res 24-Bit / 44.1 kHz / 1411 kbps"
               {| downloader.pi_title := "One"; downloader.pi_performer := "Artist";
                  downloader.pi_duration := Some 180;
                  downloader.pi_cover := Some "./downloads/Artist - Album (2020)/cover.jpg";
                  downloader.pi_thumbnail := Some "./downloads/Artist - Album (2020)/thumb.jpg";
                  downloader.pi_folder_path := "./downloads/Artist - Album (2020)" |})
      /\ snd second
         = inr (downloader.ReturnPath "./downloads/Artist - Album (2020)/01. One.flac")).
Proof.
  split.
  - intros env self track_id album folder_opt pbar w w' r Hrun Hex.
    destruct (download_track_success _ _ _ _ _ _ _ _ _ Hrun)
      as (status & content & track & fi & folder & filename & final & _ & _ & _ & _ & _ & _ & Hr).
    destruct Hr as [-> | (Hno & caption & artist & title & cover & thumb & ->)].
    + reflexivity.
    + cbn [downloader.result_path] in Hex. congruence.
  - cbv zeta. split; vm_compute; reflexivity.
Qed.

(** ** downloader: an album *)

Section Frame.
Context {X : Type} (f : World -> X).

Lemma preserves_ret {A} (a : A) : preserves f (ret a).
Proof. intros w. reflexivity. Qed.

Lemma preserves_raise {A} e : preserves f (@raise A e).
Proof. intros w. reflexivity. Qed.

Lemma preserves_gets {A} (g : World -> A) : preserves f (gets g).
Proof. intros w. reflexivity. Qed.

Lemma preserves_modify g : (forall w, f (g w) = f w) -> preserves f (modify g).
Proof. intros H w. apply H. Qed.

Lemma preserves_bind {A B} (m : M A) (k : A -> M B) :
  preserves f m -> (forall a, preserves f (k a)) -> preserves f (bind m k).
Proof.
  intros Hm Hk w. unfold bind. specialize (Hm w).
  destruct (m w) as [w1 [e | a]]; cbn in *; [exact Hm |].
  rewrite <- Hm. apply Hk.
Qed.

Lemma preserves_try {A} (m : M A) (h : exn -> M A) :
  preserves f m -> (forall e, preserves f (h e)) -> preserves f (try_except m h).
Proof.
  intros Hm Hh w. unfold try_except. specialize (Hm w).
  destruct (m w) as [w1 [e | a]]; cbn in *; [| exact Hm].
  rewrite <- Hm. apply Hh.
Qed.

Lemma preserves_item {A} key (o : option A) : preserves f (item key o).
Proof. destruct o; [apply preserves_ret | apply preserves_raise]. Qed.

End Frame.

Lemma preserves_log r : is_track_failure r = false -> preserves logged_failures (log r).
Proof.
  intros Hr w. unfold logged_failures, track_failures, log, modify. cbn.
  rewrite List.filter_app. cbn. rewrite Hr. apply app_nil_r.
Qed.

(** Steps that do not touch the log. *)
Ltac frame_modify := apply preserves_modify; intros; reflexivity.

Ltac frame :=
  repeat first
    [ apply preserves_ret
    | apply preserves_raise
    | apply preserves_gets
    | apply preserves_item
    | apply preserves_log; reflexivity
    | frame_modify
    | apply preserves_bind; [| intros ?]
    | apply preserves_try; [| intros ?]
    | match goal with
      | |- preserves _ (if ?c then _ else _) => destruct c
      | |- preserves _ (match ?x with _ => _ end) => destruct x
      end ].

Lemma preserves_time_now env : preserves logged_failures (time_now env).
Proof. intros w. reflexivity. Qed.

Lemma preserves_http_get env hdrs url params :
  preserves logged_failures (http_get env hdrs url params).
Proof. unfold http_get. frame. Qed.

Lemma preserves_request {A} env (parse : string -> option A) endpoint params :
  preserves logged_failures (qobuz_client.request env parse endpoint params).
Proof.
  unfold qobuz_client.request, qobuz_client.client_get, raise_for_status, json.
  apply preserves_bind; [apply preserves_bind; [frame | intros; apply preserves_http_get] |].
  intros [status content]. frame.
Qed.

Lemma preserves_generate_sig env entity method params secret :
  preserves logged_failures (qobuz_client._generate_sig env entity method params secret).
Proof.
  unfold qobuz_client._generate_sig, qobuz_client.param.
  apply preserves_bind; [apply preserves_time_now | intros ts]. frame.
Qed.

Lemma preserves_get_file_url env track_id format_id :
  preserves logged_failures (qobuz_client.get_file_url env track_id format_id).
Proof.
  unfold qobuz_client.get_file_url.
  apply preserves_bind; [frame | intros secret].
  apply preserves_bind; [apply preserves_generate_sig | intros sig_data].
  apply preserves_request.
Qed.

Lemma preserves_read_file p : preserves logged_failures (read_file p).
Proof. unfold read_file. frame. Qed.

Lemma preserves_os_remove p : preserves logged_failures (os_remove p).
Proof. unfold os_remove. frame. Qed.

Lemma preserves_cover_loop env cover_path urls :
  preserves logged_failures (downloader.cover_loop env cover_path urls).
Proof.
  induction urls as [| url urls IH]; cbn [downloader.cover_loop].
  - frame.
  - destruct (Py.is_empty url); [exact IH |].
    apply preserves_bind.
    + apply preserves_try.
      * apply preserves_bind; [apply preserves_http_get | intros [status content]].
        unfold write_file. frame.
      * intros e. frame.
    + intros [|]; [frame | exact IH].
Qed.

Lemma preserves_download_cover env album folder_path :
  preserves logged_failures (downloader._download_cover env album folder_path).
Proof.
  unfold downloader._download_cover, os_path_exists.
  apply preserves_bind; [frame | intros [|]]; [frame |].
  apply preserves_bind; [frame | intros base_url].
  apply preserves_bind; [frame | intros small].
  apply preserves_cover_loop.
Qed.

Lemma preserves_write_chunks tmp_path pbar total filename chunks : forall downloaded,
  preserves logged_failures
    (downloader.write_chunks tmp_path pbar total filename downloaded chunks).
Proof.
  induction chunks as [| chunk chunks IH]; intros downloaded; cbn [downloader.write_chunks].
  - frame.
  - unfold downloader.append_file.
    apply preserves_bind; [frame | intros _].
    apply preserves_bind; [destruct pbar; frame | intros _].
    apply IH.
Qed.

Lemma preserves_stream_to_file env url tmp_path pbar filename :
  preserves logged_failures (downloader.stream_to_file env url tmp_path pbar filename).
Proof.
  unfold downloader.stream_to_file, raise_for_status, write_file.
  apply preserves_bind; [frame | intros _].
  destruct (http_stream env url) as [msg | status len chunks broken]; [frame |].
  apply preserves_bind; [frame | intros _].
  apply preserves_bind; [frame | intros _].
  apply preserves_bind; [apply preserves_write_chunks | intros _].
  frame.
Qed.

Lemma preserves_create_thumbnail env image_path :
  preserves logged_failures (metadata_utils.create_thumbnail env image_path).
Proof.
  unfold metadata_utils.create_thumbnail, os_path_exists, write_file.
  apply preserves_bind; [frame | intros present].
  destruct (negb present); [frame |].
  apply preserves_try; [| intros e; frame].
  apply preserves_bind; [apply preserves_read_file | intros img]. frame.
Qed.

Lemma preserves_tag_file env is_mp3 filename final_name track album cover_path :
  preserves logged_failures
    (metadata_utils.tag_file env is_mp3 filename final_name track album cover_path).
Proof.
  unfold metadata_utils.tag_file, os_path_exists, write_file, os_rename.
  apply preserves_bind; [apply preserves_read_file | intros audio].
  apply preserves_bind;
    [destruct is_mp3; [destruct (id3_save_empty env audio) |]; frame | intros _].
  apply preserves_bind; [frame | intros cover].
  apply preserves_bind; [frame | intros tagged].
  apply preserves_bind; [frame | intros _].
  apply preserves_bind; [frame | intros present].
  apply preserves_bind; [destruct present; [apply preserves_os_remove | frame] | intros _].
  apply preserves_bind; [apply preserves_read_file | intros c]. frame.
Qed.

Lemma preserves_get_audio_info env file_path :
  preserves logged_failures (metadata_utils.get_audio_info env file_path).
Proof.
  unfold metadata_utils.get_audio_info.
  apply preserves_try; [| intros e; frame].
  destruct (Py.endswith ".flac" file_path).
  - apply preserves_bind; [apply preserves_read_file | intros content]. frame.
  - destruct (Py.endswith ".mp3" file_path); [| frame].
    apply preserves_bind; [apply preserves_read_file | intros content]. frame.
Qed.

Lemma preserves_get_title track : preserves logged_failures (metadata_utils.get_title track).
Proof. unfold metadata_utils.get_title. frame. Qed.

(** A track download writes no failure record of its own. *)
Lemma preserves_download_track env self track_id album folder_opt pbar :
  preserves logged_failures
    (downloader.download_track env self track_id album folder_opt pbar).
Proof.
  unfold downloader.download_track, qobuz_client.get_track, os_makedirs, os_path_exists,
    metadata_utils.tag_mp3, metadata_utils.tag_flac.
  apply preserves_bind.
  { destruct album.
    - apply preserves_bind; [apply preserves_request | intros; frame].
    - apply preserves_bind; [apply preserves_request | intros; frame]. }
  intros [album_data track_data].
  apply preserves_bind; [apply preserves_get_file_url | intros file_info].
  destruct (negb (truthy (fi_url file_info))); [frame |].
  apply preserves_bind; [frame | intros artist_name].
  apply preserves_bind; [frame | intros album_title].
  apply preserves_bind; [frame | intros _].
  apply preserves_bind; [frame | intros number].
  apply preserves_bind; [apply preserves_get_title | intros track_title].
  apply preserves_bind; [frame | intros present].
  destruct present; [frame |].
  apply preserves_bind; [apply preserves_download_cover | intros cover_path].
  apply preserves_bind; [apply preserves_stream_to_file | intros _].
  apply preserves_bind; [frame | intros stale].
  apply preserves_bind.
  { destruct stale; [| frame]. apply preserves_try; [apply preserves_os_remove | intros; frame]. }
  intros _.
  apply preserves_bind.
  { apply preserves_try; [apply preserves_create_thumbnail | intros; frame]. }
  intros thumb_path.
  apply preserves_bind.
  { destruct (quality self =? 5); apply preserves_tag_file. }
  intros _.
  apply preserves_bind; [apply preserves_get_audio_info | intros caption]. frame.
Qed.

Lemma preserves_attempt env self album folder_path pbar track :
  preserves logged_failures (attempt env self album folder_path pbar track).
Proof.
  unfold attempt. apply preserves_bind; [apply preserves_item | intros id].
  apply preserves_download_track.
Qed.

(** One turn of the album loop, by the outcome of the attempt. *)
Lemma album_loop_turn env self album folder_path pbar track rest acc title w :
  ti_title track = Some title ->
  downloader.album_loop env self album folder_path pbar (track :: rest) acc w
  = match attempt env self album folder_path pbar track w with
    | (w1, inr r) =>
        downloader.album_loop env self album folder_path pbar rest (acc ++ [r])%list w1
    | (w1, inl e) =>
        downloader.album_loop env self album folder_path pbar rest acc
          (set_logs (logs w1 ++ [LogTrackFailed title e]) w1)
    end.
Proof.
  intros Htitle. cbn [downloader.album_loop].
  unfold attempt, try_except, bind, item, ret, raise, log, modify. rewrite Htitle.
  destruct (ti_id track) as [id |]; [| reflexivity].
  destruct (downloader.download_track env self id (Some album) (Some folder_path) pbar w)
    as [w1 [e | r]]; reflexivity.
Qed.

Lemma album_loop_run env self album folder_path pbar tracks : forall acc w,
  Forall (fun t => is_Some (ti_title t)) tracks ->
  exists w',
    downloader.album_loop env self album folder_path pbar tracks acc w
    = (w', inr (acc ++ successes (attempts env self album folder_path pbar tracks w))%list)
    /\ logged_failures w'
       = (logged_failures w
          ++ failure_records tracks (attempts env self album folder_path pbar tracks w))%list.
Proof.
  induction tracks as [| track tracks IH]; intros acc w Htitles.
  - exists w. cbn. rewrite !app_nil_r. split; reflexivity.
  - inversion Htitles as [| ? ? [title Htitle] Htitles']; subst.
    rewrite (album_loop_turn _ _ _ _ _ _ _ _ title _ Htitle).
    cbn [attempts]. pose proof (preserves_attempt env self album folder_path pbar track w) as Hkeep.
    destruct (attempt env self album folder_path pbar track w) as [w1 [e | r]];
      cbn [fst] in Hkeep.
    + destruct (IH acc (set_logs (logs w1 ++ [LogTrackFailed title e]) w1) Htitles')
        as (w' & Hrun & Hlogs).
      rewrite Htitle. cbn [default]. exists w'. split.
      * rewrite Hrun. reflexivity.
      * rewrite Hlogs. cbn [failure_records]. rewrite Htitle. cbn [default].
        unfold logged_failures at 1, track_failures. cbn [logs set_logs].
        rewrite List.filter_app. cbn. fold (track_failures (logs w1)).
        fold (logged_failures w1). rewrite Hkeep, <- app_assoc. reflexivity.
    + destruct (IH (acc ++ [r])%list w1 Htitles') as (w' & Hrun & Hlogs).
      exists w'. split.
      * rewrite Hrun. unfold successes. cbn [omap]. rewrite <- app_assoc. reflexivity.
      * rewrite Hlogs, Hkeep. reflexivity.
Qed.

Lemma attempts_length env self album folder_path pbar tracks : forall w,
  List.length (attempts env self album folder_path pbar tracks w) = List.length tracks.
Proof.
  induction tracks as [| track tracks IH]; intros w; [reflexivity |].
  cbn [attempts]. destruct (attempt env self album folder_path pbar track w) as [w1 o].
  cbn [List.length]. rewrite IH. reflexivity.
Qed.

(** Outcomes without a failure: as many results as tracks, no record. *)
Lemma all_succeeded tracks : forall outcomes,
  List.length outcomes = List.length tracks ->
  (forall j o, outcomes !! j = Some o -> exists r, o = inr r) ->
  List.length (successes outcomes) = List.length tracks
  /\ failure_records tracks outcomes = [].
Proof.
  induction tracks as [| track tracks IH]; intros [| o outcomes] Hlen Hall;
    try discriminate; [split; reflexivity |].
  destruct (Hall 0%nat o eq_refl) as [r ->].
  destruct (IH outcomes) as [Hl Hf].
  - cbn in Hlen. lia.
  - intros j o Hj. apply (Hall (S j) o). exact Hj.
  - split; [unfold successes in *; cbn; rewrite Hl; reflexivity | exact Hf].
Qed.

(** Outcomes with exactly one failure, at position [k]. *)
Lemma one_failed tracks : forall outcomes k track e,
  List.length outcomes = List.length tracks ->
  tracks !! k = Some track ->
  outcomes !! k = Some (inl e) ->
  (forall j o, j <> k -> outcomes !! j = Some o -> exists r, o = inr r) ->
  List.length (successes outcomes) = (List.length tracks - 1)%nat
  /\ failure_records tracks outcomes = [LogTrackFailed (default "" (ti_title track)) e].
Proof.
  induction tracks as [| t tracks IH]; intros [| o outcomes] k track e Hlen Htrack Hk Hothers;
    try discriminate.
  destruct k as [| k].
  - cbn in Htrack, Hk. injection Htrack as ->. injection Hk as ->.
    destruct (all_succeeded tracks outcomes) as [Hl Hf].
    + cbn in Hlen. lia.
    + intros j o Hj. apply (Hothers (S j) o); [discriminate | exact Hj].
    + split; [unfold successes in *; cbn; rewrite Hl; lia | cbn; rewrite Hf; reflexivity].
  - cbn in Htrack, Hk.
    destruct (Hothers 0%nat o ltac:(discriminate) eq_refl) as [r ->].
    destruct (IH outcomes k track e) as [Hl Hf]; try assumption.
    + cbn in Hlen. lia.
    + intros j o Hj Ho. apply (Hothers (S j) o); [congruence | exact Ho].
    + split; [| exact Hf]. unfold successes in *. cbn. rewrite Hl.
      assert (List.length tracks > 0)%nat by (destruct tracks; [discriminate | cbn; lia]). lia.
Qed.

(** C7: [download_album] attempts the tracks one after the other, keeps
    the result of each attempt that returns and writes one failure record
    for each attempt that raises; when exactly one of the N attempts
    raises, it returns N-1 results and writes exactly one failure record,
    for that track and that error. *)
Theorem download_album_partial env self album_id pbar w album tracks artist_name album_title :
  snd (qobuz_client.get_album env album_id w) = inr album ->
  al_tracks_items album = Some tracks ->
  al_artist_name album = Some artist_name ->
  al_title album = Some album_title ->
  Forall (fun t => is_Some (ti_title t)) tracks ->
  let folder_path :=
    downloader.album_folder env self artist_name album_title
      (Py.split_first "-" (default "" (al_release_date_original album))) in
  let outcomes :=
    attempts env self album folder_path pbar tracks (fst (qobuz_client.get_album env album_id w)) in
  exists w',
    downloader.download_album env self album_id pbar w = (w', inr (successes outcomes))
    /\ List.length outcomes = List.length tracks
    /\ logged_failures w' = (logged_failures w ++ failure_records tracks outcomes)%list
    /\ forall k track title e,
         tracks !! k = Some track ->
         ti_title track = Some title ->
         outcomes !! k = Some (inl e) ->
         (forall j o, j <> k -> outcomes !! j = Some o -> exists r, o = inr r) ->
         List.length (successes outcomes) = (List.length tracks - 1)%nat
         /\ logged_failures w' = (logged_failures w ++ [LogTrackFailed title e])%list.
Proof.
  intros Halbum Htracks Hartist Htitle Htitles folder_path outcomes.
  pose proof (preserves_request env (json_album env) "album/get" {[ "album_id" := album_id ]} w)
    as Hkeep.
  fold (qobuz_client.get_album env album_id) in Hkeep.
  destruct (album_loop_run env self album folder_path pbar tracks []
              (fst (qobuz_client.get_album env album_id w)) Htitles) as (w' & Hrun & Hlogs).
  fold outcomes in Hrun, Hlogs.
  assert (Hlen : List.length outcomes = List.length tracks) by apply attempts_length.
  exists w'. split; [| split; [exact Hlen | split]].
  - unfold downloader.download_album. unfold bind at 1.
    destruct (qobuz_client.get_album env album_id w) as [w0 [e | a]]; cbn [snd fst] in *;
      [discriminate |].
    injection Halbum as ->. rewrite Htracks, Hartist, Htitle. unfold item, bind, ret.
    exact Hrun.
  - rewrite Hlogs, Hkeep. reflexivity.
  - intros k track title e Hk Ht Ho Hothers.
    destruct (one_failed tracks outcomes k track e Hlen Hk Ho Hothers) as [Hl Hf].
    split; [exact Hl |]. rewrite Hlogs, Hkeep, Hf, Ht. reflexivity.
Qed.

Lemma download_album_partial_witness :
  exists w',
    downloader.download_album Sample.env Sample.self (PyStr "album-1") false Sample.fresh
    = (w', inr (successes
                  (attempts Sample.env Sample.self Sample.album
                     "./downloads/Artist - Album (2020)" false
                     [ {| ti_id := Some (PyInt 1); ti_title := Some "One" |};
                       {| ti_id := Some (PyInt 2); ti_title := Some "Two" |};
                       {| ti_id := Some (PyInt 3); ti_title := Some "Three" |} ]
                     (fst (qobuz_client.get_album Sample.env (PyStr "album-1") Sample.fresh)))))
    /\ logged_failures w'
       = [ LogTrackFailed "Two"
             (Exception "No download URL available. It might be a demo or restricted.") ].
Proof.
  destruct (download_album_partial Sample.env Sample.self (PyStr "album-1") false Sample.fresh
              Sample.album
              [ {| ti_id := Some (PyInt 1); ti_title := Some "One" |};
                {| ti_id := Some (PyInt 2); ti_title := Some "Two" |};
                {| ti_id := Some (PyInt 3); ti_title := Some "Three" |} ]
              "Artist" "Album")
    as (w' & Hrun & _ & _ & Hone).
  - vm_compute. reflexivity.
  - reflexivity.
  - reflexivity.
  - reflexivity.
  - repeat constructor; eexists; reflexivity.
  - exists w'. split; [exact Hrun |].
    refine (proj2 (Hone 1%nat {| ti_id := Some (PyInt 2); ti_title := Some "Two" |} "Two"
                     (Exception "No download URL available. It might be a demo or restricted.")
                     eq_refl eq_refl _ _)).
    + vm_compute. reflexivity.
    + intros [| [| [| j]]] o Hj Ho; try congruence.
      * vm_compute in Ho. injection Ho as <-. eexists. reflexivity.
      * vm_compute in Ho. injection Ho as <-. eexists. reflexivity.
      * vm_compute in Ho. discriminate.
Defined.

From Stdlib Require DecimalPos DecimalZ.

(** ** Running the monad forward, and strings *)

(** One inversion step on a [bind] that returned, with names for the
    intermediate world, the value and the equation. *)
Tactic Notation "bind_as" hyp(H) ident(w) ident(a) ident(Hm) :=
  apply bind_success in H; destruct H as (w & a & Hm & H); cbv beta in H.

Lemma bind_run {A B} (m : M A) (k : A -> M B) w w1 a :
  m w = (w1, inr a) -> bind m k w = k a w1.
Proof. intros H. unfold bind. rewrite H. reflexivity. Qed.

Lemma bind_fails {A B} (m : M A) (k : A -> M B) w w1 e :
  m w = (w1, inl e) -> bind m k w = (w1, inl e).
Proof. intros H. unfold bind. rewrite H. reflexivity. Qed.

Lemma read_file_run p w c : files w !! p = Some c -> read_file p w = (w, inr c).
Proof. intros H. unfold read_file, gets, bind, ret. cbn. rewrite H. reflexivity. Qed.

Lemma os_remove_run p w c :
  files w !! p = Some c -> os_remove p w = (set_files (delete p (files w)) w, inr tt).
Proof. intros H. unfold os_remove, gets, modify, bind. cbn. rewrite H. reflexivity. Qed.

Lemma os_rename_run src dst w c :
  files w !! src = Some c ->
  os_rename src dst w = (set_files (<[dst := c]> (delete src (files w))) w, inr tt).
Proof.
  intros H. unfold os_rename. rewrite (bind_run _ _ w w c) by (apply read_file_run; exact H).
  reflexivity.
Qed.

Lemma os_remove_fails p w :
  files w !! p = None -> os_remove p w = (w, inl (OSError "cannot remove")).
Proof. intros H. unfold os_remove, gets, bind, raise. cbn. rewrite H. reflexivity. Qed.

Lemma truthy_Some o : truthy o = true -> o = Some (py_str_opt o).
Proof. destruct o; [reflexivity | discriminate]. Qed.

Lemma string_app_nil_r (s : string) : s +:+ "" = s.
Proof.
  induction s as [| a s IH]; [reflexivity |].
  change (String a (s +:+ "") = String a s). f_equal. exact IH.
Qed.

Lemma string_app_assoc (a b c : string) : (a +:+ b) +:+ c = a +:+ (b +:+ c).
Proof.
  induction a as [| x a IH]; [reflexivity |].
  change (String x ((a +:+ b) +:+ c) = String x (a +:+ (b +:+ c))). f_equal. exact IH.
Qed.

Lemma concat_cons_empty_sep (c : string) (cs : list string) :
  String.concat "" (c :: cs) = c +:+ String.concat "" cs.
Proof. destruct cs as [| c' cs]; cbn; [rewrite string_app_nil_r |]; reflexivity. Qed.

Lemma string_length_app (a b : string) :
  String.length (a +:+ b) = (String.length a + String.length b)%nat.
Proof.
  induction a as [| x a IH]; [reflexivity |].
  change (S (String.length (a +:+ b)) = S (String.length a + String.length b)).
  rewrite IH. reflexivity.
Qed.

(** ** qobuz_client: initialization and login *)

(** A search that returns has stored one of the non-empty candidates and
    changed nothing else of the client. *)
Lemma find_loop_returns env cands : forall w w',
  qobuz_client.find_loop env cands w = (w', inr tt) ->
  exists secret,
    In secret cands /\ Py.is_empty secret = false
    /\ client w' = qobuz_client.set_active_secret (Some secret) (client w).
Proof.
  induction cands as [| c cands IH]; intros w w' H.
  - discriminate.
  - cbn [qobuz_client.find_loop] in H. destruct (Py.is_empty c) eqn:Ec.
    + destruct (IH _ _ H) as (s & Hin & Hs & Hc). exists s. auto using in_cons.
    + unfold bind in H. rewrite probe_run in H. cbv zeta in H.
      destruct (accepted _).
      * injection H as <-. exists c. repeat split; [left; reflexivity | exact Ec].
      * destruct (unauthorized _).
        -- destruct (IH _ _ H) as (s & Hin & Hs & Hc). exists s. auto using in_cons.
        -- destruct (IH _ _ H) as (s & Hin & Hs & Hc). exists s. auto using in_cons.
Qed.

Lemma find_active_secret_returns env w w' :
  qobuz_client._find_active_secret env w = (w', inr tt) ->
  exists secret,
    In secret (secrets (client w)) /\ Py.is_empty secret = false
    /\ client w' = qobuz_client.set_active_secret (Some secret) (client w).
Proof. apply find_loop_returns. Qed.

(** A scrape that returns has sent its two requests and stored the app id,
    the decoded secrets and the [X-App-Id] header. *)
Lemma scrape_bundle_returns env w w' :
  qobuz_client._scrape_bundle env w = (w', inr tt) ->
  exists status text path status' bundle_js id decoded,
    http env login_page_request = Response status text
    /\ is_success status = true
    /\ re_bundle_url env text = Some path
    /\ http env (bundle_request path) = Response status' bundle_js
    /\ is_success status' = true
    /\ re_app_id env bundle_js = Some id
    /\ qobuz_client.scrape_secrets env bundle_js = inr decoded
    /\ w' = set_logs (logs w ++ [LogScraping; LogInitialized id])
              (set_client
                 (qobuz_client.set_header "X-App-Id" id
                    (qobuz_client.set_secrets decoded
                       (qobuz_client.set_app_id (Some id) (client w))))
                 (set_sent (sent w ++ [login_page_request; bundle_request path]) w)).
Proof.
  intros H.
  unfold qobuz_client._scrape_bundle, log, modify, http_get, raise_for_status,
    qobuz_client.update_client, bind, ret, raise in H.
  cbn in H. fold login_page_request in H.
  destruct (http env login_page_request) as [msg | st1 text] eqn:H1; [discriminate |].
  fold (is_success st1) in H.
  destruct (is_success st1) eqn:Hs1; [| discriminate].
  destruct (re_bundle_url env text) as [path |] eqn:Hpath; [| discriminate].
  cbn in H. fold (bundle_request path) in H.
  destruct (http env (bundle_request path)) as [msg | st2 bundle_js] eqn:H2; [discriminate |].
  fold (is_success st2) in H.
  destruct (is_success st2) eqn:Hs2; [| discriminate].
  destruct (re_app_id env bundle_js) as [id |] eqn:Hid; [| discriminate].
  cbn in H.
  destruct (qobuz_client.scrape_secrets env bundle_js) as [e | decoded] eqn:E; [discriminate |].
  cbn in H. injection H as <-. exists st1, text, path, st2, bundle_js, id, decoded.
  repeat split; try assumption.
  unfold set_logs, set_client, set_sent. cbn. rewrite <- !app_assoc. reflexivity.
Qed.

Lemma login_run env email password w :
  qobuz_client.login env email password w
  = let req := login_request (client w) email password in
    let w1 := set_sent (sent w ++ [req]) w in
    match http env req with
    | NoResponse msg => (w1, inl (TransportError msg))
    | Response status content =>
        match json_login env content with
        | None => (w1, inl JSONDecodeError)
        | Some data =>
            match lg_user_auth_token data with
            | None =>
                (w1, inl (Exception ("Login failed: "
                                     +:+ default "Unknown error" (lg_error data))))
            | Some token =>
                qobuz_client._find_active_secret env
                  (set_logs (logs w ++ [LogLoginSuccessful])
                     (set_client
                        (qobuz_client.set_header "X-User-Auth-Token" token
                           (qobuz_client.set_user_auth_token (Some token) (client w)))
                        w1))
            end
        end
    end.
Proof.
  unfold qobuz_client.login, gets. unfold bind at 1. unfold bind at 1.
  rewrite client_get_run. cbv zeta. fold (login_request (client w) email password).
  destruct (http env _) as [msg | status content]; [reflexivity |].
  unfold json, bind at 1. destruct (json_login env content) as [data |]; [| reflexivity].
  unfold ret. destruct (lg_user_auth_token data) as [token |]; [| reflexivity].
  reflexivity.
Qed.

(** X3: [login] looks at the answer's body only: whatever the status, an
    answer without [user_auth_token] makes it raise [Login failed: ...]
    with the answer's [error] entry, or [Unknown error]; it has then sent
    one request (e-mail, password and app id in the query) and changed
    nothing of the client: no token, no header, no search for a secret. *)
Theorem login_without_token_fails env email password w status content data :
  http env (login_request (client w) email password) = Response status content ->
  json_login env content = Some data ->
  lg_user_auth_token data = None ->
  qobuz_client.login env email password w
  = (set_sent (sent w ++ [login_request (client w) email password]) w,
     inl (Exception ("Login failed: " +:+ default "Unknown error" (lg_error data)))).
Proof.
  intros Hhttp Hjson Htoken. rewrite login_run. cbv zeta.
  rewrite Hhttp, Hjson, Htoken. reflexivity.
Qed.

Lemma login_without_token_fails_witness :
  qobuz_client.login Sample.env_refusing "user@example.org" "hunter2"
    (Sample.world Sample.password_client ∅)
  = (set_sent [login_request Sample.password_client "user@example.org" "hunter2"]
       (Sample.world Sample.password_client ∅),
     inl (Exception "Login failed: Invalid username/email and password combination")).
Proof.
  apply (login_without_token_fails Sample.env_refusing "user@example.org" "hunter2"
           (Sample.world Sample.password_client ∅) 401 "login-refused"
           {| lg_user_auth_token := None;
              lg_error := Some "Invalid username/email and password combination" |});
    reflexivity.
Defined.

(** X2: a client that holds an app id, an active secret and a token
    initializes without any request and without reading the clock: the
    two headers are set from the configured values, two records are
    logged, and the secret is not probed. *)
Theorem initialize_configured_is_offline env w :
  truthy (app_id (client w)) = true ->
  truthy (active_secret (client w)) = true ->
  truthy (user_auth_token (client w)) = true ->
  exists w',
    qobuz_client.initialize env w = (w', inr true)
    /\ sent w' = sent w
    /\ clock_reads w' = clock_reads w
    /\ files w' = files w
    /\ logs w' = (logs w ++ [LogProvidedAppId (py_str_opt (app_id (client w)));
                             LogProvidedToken])%list
    /\ client w'
       = qobuz_client.set_header "X-User-Auth-Token" (py_str_opt (user_auth_token (client w)))
           (qobuz_client.set_header "X-App-Id" (py_str_opt (app_id (client w))) (client w)).
Proof.
  intros Hid Hsecret Htoken.
  unfold qobuz_client.initialize, gets, qobuz_client.update_client, log, modify, bind, ret.
  cbn. rewrite Hid, Hsecret. cbn. rewrite Htoken, Hsecret. cbn.
  eexists. split; [reflexivity |]. cbn. rewrite <- app_assoc. repeat split; reflexivity.
Qed.

Lemma initialize_configured_is_offline_witness :
  exists w',
    qobuz_client.initialize Sample.env
      (Sample.world (qobuz_client.__init__ None None (Some "token") (Some "123456789")
                       (Some "s3cr3t")) ∅)
    = (w', inr true)
    /\ sent w' = []
    /\ clock_reads w' = 0%nat
    /\ files w' = ∅
    /\ logs w' = [LogProvidedAppId "123456789"; LogProvidedToken]
    /\ client w' = Sample.configured_client.
Proof.
  apply (initialize_configured_is_offline Sample.env
           (Sample.world (qobuz_client.__init__ None None (Some "token") (Some "123456789")
                            (Some "s3cr3t")) ∅)); reflexivity.
Defined.

(** X1: whenever [initialize] returns, it returns [True] and the client
    can sign and authenticate: its active secret is a non-empty string, the
    [X-App-Id] header carries its app id, and a non-empty user token is
    also in the [X-User-Auth-Token] header. *)
Theorem initialize_returns_ready_client env w w' b :
  qobuz_client.initialize env w = (w', inr b) ->
  b = true
  /\ truthy (active_secret (client w')) = true
  /\ headers (client w') !! "X-App-Id" = Some (py_str_opt (app_id (client w')))
  /\ (truthy (user_auth_token (client w')) = true ->
      headers (client w') !! "X-User-Auth-Token" = user_auth_token (client w')).
Proof.
  intros H. unfold qobuz_client.initialize in H.
  bind_step H. unfold gets in Hm. injection Hm as <- <-.
  bind_step H. bind_step H. unfold gets in Hm0. injection Hm0 as <- <-.
  bind_step H. unfold ret in H. injection H as <- <-.
  rename w0 into wm, w1 into w', Hm into Hfirst, Hm0 into Hsecond. destruct a, a0.
  (* the state after the first block *)
  assert (Hmid : headers (client wm) !! "X-App-Id" = Some (py_str_opt (app_id (client wm)))
                 /\ (truthy (active_secret (client wm)) = false ->
                     negb (truthy (app_id (client w)))
                     || negb (truthy (active_secret (client w))) = true)).
  { destruct (negb (truthy (app_id (client w))) || negb (truthy (active_secret (client w))))
      eqn:Ebranch.
    - apply scrape_bundle_returns in Hfirst.
      destruct Hfirst
        as (st & text & path & st' & js & id & decoded & _ & _ & _ & _ & _ & _ & _ & ->).
      cbn. split; [apply lookup_insert_eq | auto].
    - apply orb_false_elim in Ebranch. destruct Ebranch as [Eid Esec].
      apply negb_false_iff in Eid, Esec.
      unfold qobuz_client.update_client, log, modify, bind in Hfirst. cbn in Hfirst.
      injection Hfirst as <-. cbn. split; [| congruence].
      rewrite lookup_insert_eq. reflexivity. }
  destruct Hmid as [Happ _].
  split; [reflexivity |].
  (* what a search for the secret leaves *)
  assert (Hfind : forall wa wb,
             qobuz_client._find_active_secret env wa = (wb, inr tt) ->
             truthy (active_secret (client wb)) = true
             /\ headers (client wb) = headers (client wa)
             /\ app_id (client wb) = app_id (client wa)
             /\ user_auth_token (client wb) = user_auth_token (client wa)).
  { intros wa wb Hf. apply find_active_secret_returns in Hf.
    destruct Hf as (s & _ & Hs & ->). cbn. rewrite Hs. auto. }
  destruct (truthy (user_auth_token (client wm))) eqn:Etoken.
  - (* a token was provided *)
    bind_step Hsecond. bind_step Hsecond.
    unfold qobuz_client.update_client, modify in Hm. injection Hm as <-.
    unfold log, modify in Hm0. injection Hm0 as <-.
    cbn in Hsecond.
    assert (Hhdr : forall c : QobuzClient,
               headers c = <["X-User-Auth-Token" := py_str_opt (user_auth_token (client wm))]>
                             (headers (client wm)) ->
               app_id c = app_id (client wm) ->
               user_auth_token c = user_auth_token (client wm) ->
               headers c !! "X-App-Id" = Some (py_str_opt (app_id c))
               /\ (truthy (user_auth_token c) = true ->
                   headers c !! "X-User-Auth-Token" = user_auth_token c)).
    { intros c Hh Ha Ht. rewrite Hh, Ha, Ht. split.
      - rewrite lookup_insert_ne by discriminate. exact Happ.
      - intros _. rewrite lookup_insert_eq. symmetry. apply truthy_Some. exact Etoken. }
    destruct (truthy (active_secret (client wm))) eqn:Esec; cbn [negb] in Hsecond.
    + unfold ret in Hsecond. injection Hsecond as <-. split; [exact Esec |].
      apply Hhdr; reflexivity.
    + apply Hfind in Hsecond. destruct Hsecond as (Hs & Hh & Ha & Ht). split; [exact Hs |].
      apply Hhdr; [rewrite Hh | rewrite Ha | rewrite Ht]; reflexivity.
  - destruct (truthy (email (client wm)) && truthy (password (client wm))).
    + (* e-mail and password *)
      rewrite login_run in Hsecond. cbv zeta in Hsecond.
      destruct (http env _) as [msg | status content]; [discriminate |].
      destruct (json_login env content) as [data |]; [| discriminate].
      destruct (lg_user_auth_token data) as [token |]; [| discriminate].
      apply Hfind in Hsecond. cbn in Hsecond. destruct Hsecond as (Hs & Hh & Ha & Ht).
      split; [exact Hs |]. rewrite Hh, Ha, Ht. split.
      * rewrite lookup_insert_ne by discriminate. exact Happ.
      * intros _. apply lookup_insert_eq.
    + (* neither *)
      destruct (truthy (active_secret (client wm))) eqn:Esec; cbn [negb] in Hsecond.
      * unfold ret in Hsecond. injection Hsecond as <-. split; [exact Esec |].
        split; [exact Happ |]. rewrite Etoken. discriminate.
      * apply Hfind in Hsecond. destruct Hsecond as (Hs & Hh & Ha & Ht). split; [exact Hs |].
        rewrite Hh, Ha, Ht. split; [exact Happ |]. rewrite Etoken. discriminate.
Qed.

Lemma initialize_returns_ready_client_witness :
  let w' := fst (qobuz_client.initialize Sample.env_web_player
                   (Sample.world Sample.unconfigured_client ∅)) in
  true = true
  /\ truthy (active_secret (client w')) = true
  /\ headers (client w') !! "X-App-Id" = Some (py_str_opt (app_id (client w')))
  /\ (truthy (user_auth_token (client w')) = true ->
      headers (client w') !! "X-User-Auth-Token" = user_auth_token (client w')).
Proof.
  cbv zeta.
  apply (initialize_returns_ready_client Sample.env_web_player
           (Sample.world Sample.unconfigured_client ∅)).
  vm_compute. reflexivity.
Defined.

(** ** qobuz_client: the API calls *)

(** X5: every call through [request] sends exactly one GET, to the API
    root followed by the endpoint, with the client's current headers and
    the given query, and changes nothing else.  It returns the parsed
    document exactly when the answer has a 2xx status and a body that
    parses; any other status raises the HTTP status error
    without the body being parsed, and a lost connection raises the
    transport's error. *)
Theorem request_outcomes {A} env (parse : string -> option A) endpoint params w :
  let req := Get (headers (client w)) ("https://www.qobuz.com/api.json/0.2/" +:+ endpoint)
               params in
  let run := qobuz_client.request env parse endpoint params w in
  fst run = set_sent (sent w ++ [req]) w
  /\ (forall d,
        snd run = inr d
        <-> exists status content,
              http env req = Response status content
              /\ 200 <= status < 300 /\ parse content = Some d)
  /\ (forall status content,
        http env req = Response status content ->
        ~ (200 <= status < 300) ->
        snd run = inl (HTTPStatusError status))
  /\ (forall msg, http env req = NoResponse msg -> snd run = inl (TransportError msg)).
Proof.
  cbv zeta. rewrite request_run. cbv zeta. cbn [fst snd].
  change (qobuz_client.base_url +:+ endpoint)
    with ("https://www.qobuz.com/api.json/0.2/" +:+ endpoint).
  split; [reflexivity |].
  destruct (http env _) as [msg | status content].
  - split; [| split].
    + intros d. split; [discriminate | intros (? & ? & ? & _); discriminate].
    + intros ? ? ?; discriminate.
    + intros ? [= <-]. reflexivity.
  - unfold is_success.
    destruct (200 <=? status) eqn:Hlo; destruct (status <? 300) eqn:Hhi; cbn [andb].
    1: { apply Z.leb_le in Hlo. apply Z.ltb_lt in Hhi. split; [| split].
         - intros d. destruct (parse content) as [d' |] eqn:Hp.
           + split.
             * intros [= <-]. exists status, content. auto.
             * intros (? & ? & [= <- <-] & _ & Hp'). congruence.
           + split; [discriminate |]. intros (? & ? & [= <- <-] & _ & Hp'). congruence.
         - intros ? ? [= <- <-] Hout. lia.
         - intros ? ?; discriminate. }
    all: split; [| split];
      [ intros d; split; [discriminate |];
        intros (? & ? & [= <- <-] & [Ha Hb] & _);
        try (apply Z.leb_gt in Hlo); try (apply Z.ltb_ge in Hhi); lia
      | intros ? ? [= <- <-] _; reflexivity
      | intros ? ?; discriminate ].
Qed.

(** X6: [get_file_url] reads the clock once and sends one request whose
    query is consistent with it: [request_ts] is that reading and
    [request_sig] the MD5 digest of the [getFileUrl] template filled with
    the requested format, the track, the same reading and the client's
    active secret (the text [None] when no secret is set); [intent] is
    always [stream]. *)
Theorem get_file_url_signs_what_it_sends env track_id format_id w :
  let now := time_time env (clock_reads w) in
  let run := qobuz_client.get_file_url env track_id format_id w in
  exists params,
    sent (fst run)
    = (sent w ++ [Get (headers (client w))
                   "https://www.qobuz.com/api.json/0.2/track/getFileUrl" params])%list
    /\ clock_reads (fst run) = S (clock_reads w)
    /\ client (fst run) = client w
    /\ params !! "request_ts" = Some (PyInt now)
    /\ params !! "request_sig"
       = Some (PyStr (hashlib.md5_hexdigest
                        ("trackgetFileUrlformat_id" +:+ Py.str_of_Z format_id
                         +:+ "intentstreamtrack_id" +:+ py_str track_id
                         +:+ Py.str_of_Z now +:+ py_str_opt (active_secret (client w)))))
    /\ params !! "track_id" = Some track_id
    /\ params !! "format_id" = Some (PyInt format_id)
    /\ params !! "intent" = Some (PyStr "stream")
    /\ dom params = {[ "request_ts"; "request_sig"; "track_id"; "format_id"; "intent" ]}.
Proof.
  cbv zeta. rewrite get_file_url_run. cbv zeta. cbn [fst].
  eexists. split; [reflexivity |]. split; [reflexivity |]. split; [reflexivity |].
  unfold qobuz_client.file_url_params, file_url_signature. cbn [qobuz_client.ts qobuz_client.sig].
  split; [apply lookup_insert_eq |].
  split; [rewrite lookup_insert_ne by discriminate; apply lookup_insert_eq |].
  split; [do 2 (rewrite lookup_insert_ne by discriminate); apply lookup_insert_eq |].
  split; [do 3 (rewrite lookup_insert_ne by discriminate); apply lookup_insert_eq |].
  split; [do 4 (rewrite lookup_insert_ne by discriminate); apply lookup_singleton_eq |].
  rewrite !dom_insert_L, dom_singleton_L. set_solver.
Qed.

(** X4: a scrape of the web player that fails, at whichever step, has
    sent one or two requests (the login page, then the bundle) and has
    touched neither the list of candidate secrets, nor the client's
    headers, nor its active secret, nor its token: what a client held
    before a failed scrape it still holds. *)
Theorem scrape_bundle_failure_keeps_credentials env w w' e :
  qobuz_client._scrape_bundle env w = (w', inl e) ->
  secrets (client w') = secrets (client w)
  /\ headers (client w') = headers (client w)
  /\ active_secret (client w') = active_secret (client w)
  /\ user_auth_token (client w') = user_auth_token (client w)
  /\ (sent w' = (sent w ++ [login_page_request])%list
      \/ exists path, sent w' = (sent w ++ [login_page_request; bundle_request path])%list).
Proof.
  intros H.
  unfold qobuz_client._scrape_bundle, log, modify, http_get, raise_for_status,
    qobuz_client.update_client, bind, ret, raise in H.
  cbn in H. fold login_page_request in H.
  destruct (http env login_page_request) as [msg | st1 text].
  { injection H as <- _. cbn. auto 10. }
  destruct ((200 <=? st1) && (st1 <? 300)).
  2: { injection H as <- _. cbn. auto 10. }
  destruct (re_bundle_url env text) as [path |].
  2: { injection H as <- _. cbn. auto 10. }
  cbn in H. fold (bundle_request path) in H.
  assert (Htwo : forall l : list http_request,
             ((l ++ [login_page_request]) ++ [bundle_request path]
              = l ++ [login_page_request; bundle_request path])%list).
  { intros l. rewrite <- app_assoc. reflexivity. }
  destruct (http env (bundle_request path)) as [msg | st2 bundle_js].
  { injection H as <- _. cbn. rewrite Htwo. eauto 10. }
  destruct ((200 <=? st2) && (st2 <? 300)).
  2: { injection H as <- _. cbn. rewrite Htwo. eauto 10. }
  destruct (re_app_id env bundle_js) as [id |].
  2: { injection H as <- _. cbn. rewrite Htwo. eauto 10. }
  cbn in H.
  destruct (qobuz_client.scrape_secrets env bundle_js) as [e' | decoded]; [| discriminate].
  injection H as <- _. cbn. rewrite Htwo. eauto 10.
Qed.

Lemma scrape_bundle_failure_keeps_credentials_witness :
  let w := Sample.world Sample.searching_client ∅ in
  let w' := fst (qobuz_client._scrape_bundle Sample.env w) in
  secrets (client w') = ["first"; ""; "second"; "third"]
  /\ headers (client w') = headers Sample.searching_client
  /\ active_secret (client w') = None
  /\ user_auth_token (client w') = Some "token"
  /\ (sent w' = [login_page_request]
      \/ exists path, sent w' = [login_page_request; bundle_request path]).
Proof.
  cbv zeta.
  apply (scrape_bundle_failure_keeps_credentials Sample.env
           (Sample.world Sample.searching_client ∅)
           (fst (qobuz_client._scrape_bundle Sample.env (Sample.world Sample.searching_client ∅)))
           (HTTPStatusError 404)).
  vm_compute. reflexivity.
Defined.

(** ** metadata_utils: thumbnails, captions and tagging *)


(** The caption depends on the world through the file at [file_path]
    only. *)
Lemma get_audio_info_result env file_path w1 w2 :
  files w1 !! file_path = files w2 !! file_path ->
  snd (metadata_utils.get_audio_info env file_path w1)
  = snd (metadata_utils.get_audio_info env file_path w2).
Proof.
  intros Hf.
  unfold metadata_utils.get_audio_info, try_except, read_file, log, gets, modify, bind, ret,
    raise.
  destruct (Py.endswith ".flac" file_path).
  - cbn. rewrite Hf. destruct (files w2 !! file_path) as [content |]; [| reflexivity].
    destruct (flac_read env content) as [info |]; [| reflexivity].
    destruct (match fl_bitrate info with Some b => 0 <? b | None => false end); [reflexivity |].
    destruct (fst (fl_length info) =? 0); reflexivity.
  - destruct (Py.endswith ".mp3" file_path); [| reflexivity].
    cbn. rewrite Hf. destruct (files w2 !! file_path) as [content |]; [| reflexivity].
    destruct (mp3_bitrate env content); reflexivity.
Qed.

(** X12: [get_audio_info] never raises and changes nothing but the log:
    it returns a caption, or the empty string after one error record; a
    path that ends neither in [.flac] nor in [.mp3] gives the empty string
    without a record; an MP3 file gives [MP3 <kbps> kbps]. *)
Theorem get_audio_info_never_raises env file_path w :
  exists w' caption,
    metadata_utils.get_audio_info env file_path w = (w', inr caption)
    /\ files w' = files w /\ dirs w' = dirs w /\ sent w' = sent w
    /\ (logs w' = logs w
        \/ caption = "" /\ exists e, logs w' = (logs w ++ [LogAudioInfoError e])%list)
    /\ (Py.endswith ".flac" file_path = false -> Py.endswith ".mp3" file_path = false ->
        caption = "" /\ w' = w)
    /\ (forall content b,
          Py.endswith ".flac" file_path = false -> Py.endswith ".mp3" file_path = true ->
          files w !! file_path = Some content -> mp3_bitrate env content = Some b ->
          caption = "MP3 " +:+ Py.str_of_Z (kbps env b) +:+ " kbps" /\ w' = w).
Proof.
  unfold metadata_utils.get_audio_info, try_except, read_file, log, gets, modify, bind, ret,
    raise.
  destruct (Py.endswith ".flac" file_path) eqn:Eflac.
  - assert (Hdone : forall (w' : World) (caption : string),
               files w' = files w -> dirs w' = dirs w -> sent w' = sent w ->
               (logs w' = logs w
                \/ caption = "" /\ exists e, logs w' = (logs w ++ [LogAudioInfoError e])%list) ->
               files w' = files w /\ dirs w' = dirs w /\ sent w' = sent w
               /\ (logs w' = logs w
                   \/ caption = ""
                      /\ exists e, logs w' = (logs w ++ [LogAudioInfoError e])%list)
               /\ (true = false -> Py.endswith ".mp3" file_path = false ->
                   caption = "" /\ w' = w)
               /\ (forall content b,
                     true = false -> Py.endswith ".mp3" file_path = true ->
                     files w !! file_path = Some content -> mp3_bitrate env content = Some b ->
                     caption = "MP3 " +:+ Py.str_of_Z (kbps env b) +:+ " kbps" /\ w' = w)).
    { intros w' caption H1 H2 H3 H4. repeat (split; [assumption |]).
      split; [discriminate | intros ? ? ?; discriminate]. }
    cbn. destruct (files w !! file_path) as [content |].
    2: { eexists _, _. split; [reflexivity |]. apply Hdone; try reflexivity. right. eauto. }
    destruct (flac_read env content) as [info |].
    2: { eexists _, _. split; [reflexivity |]. apply Hdone; try reflexivity. right. eauto. }
    destruct (match fl_bitrate info with Some b => 0 <? b | None => false end).
    { eexists _, _. split; [reflexivity |]. apply Hdone; try reflexivity. left. reflexivity. }
    destruct (fst (fl_length info) =? 0).
    + eexists _, _. split; [reflexivity |]. apply Hdone; try reflexivity. right. eauto.
    + eexists _, _. split; [reflexivity |]. apply Hdone; try reflexivity. left. reflexivity.
  - destruct (Py.endswith ".mp3" file_path) eqn:Emp3.
    + cbn. destruct (files w !! file_path) as [content |] eqn:Hc.
      2: { eexists _, _. split; [reflexivity |]. cbn. do 3 (split; [reflexivity |]).
           split; [right; eauto |]. split; [discriminate |].
           intros ? ? _ _ ?; discriminate. }
      destruct (mp3_bitrate env content) as [b |] eqn:Hb.
      2: { eexists _, _. split; [reflexivity |]. cbn. do 3 (split; [reflexivity |]).
           split; [right; eauto |]. split; [discriminate |].
           intros content' b' _ _ Hc' Hb'. congruence. }
      eexists _, _. split; [reflexivity |]. cbn. do 3 (split; [reflexivity |]).
      split; [left; reflexivity |]. split; [discriminate |].
      intros content' b' _ _ Hc' Hb'. split; [congruence | reflexivity].
    + exists w, "". split; [reflexivity |]. do 3 (split; [reflexivity |]).
      split; [left; reflexivity |]. split; [auto |]. intros ? ? _ ?; discriminate.
Qed.

(** The two metadata helpers as steps of a download: they touch no
    directory, the caption call no file, and the thumbnail call no
    temporary file. *)
Lemma preserves_dirs_get_audio_info env file_path :
  preserves dirs (metadata_utils.get_audio_info env file_path).
Proof.
  unfold metadata_utils.get_audio_info, read_file, log.
  apply preserves_try; [| intros e; frame].
  destruct (Py.endswith ".flac" file_path); [frame |].
  destruct (Py.endswith ".mp3" file_path); frame.
Qed.

Lemma preserves_files_get_audio_info env file_path :
  preserves files (metadata_utils.get_audio_info env file_path).
Proof.
  unfold metadata_utils.get_audio_info, read_file, log.
  apply preserves_try; [| intros e; frame].
  destruct (Py.endswith ".flac" file_path); [frame |].
  destruct (Py.endswith ".mp3" file_path); frame.
Qed.

Lemma preserves_dirs_create_thumbnail env image_path :
  preserves dirs (metadata_utils.create_thumbnail env image_path).
Proof.
  unfold metadata_utils.create_thumbnail, os_path_exists, read_file, write_file, log. frame.
Qed.

Lemma create_thumbnail_keeps_other_files env image_path k w :
  (forall p, k <> Py.os_path_join (Py.os_path_dirname p) "thumb.jpg") ->
  files (fst (metadata_utils.create_thumbnail env image_path w)) !! k = files w !! k.
Proof.
  intros Hk. unfold metadata_utils.create_thumbnail.
  destruct image_path as [p |]; [| reflexivity].
  destruct (Py.is_empty p); [reflexivity |].
  unfold os_path_exists, gets. unfold bind at 1.
  destruct (path_exists w p); cbn [negb]; [| reflexivity].
  unfold try_except, read_file, write_file, log, gets, modify, bind, ret, raise. cbn.
  destruct (files w !! p) as [img |]; [| reflexivity].
  destruct (pil_thumbnail env img) as [e | thumb]; [reflexivity |].
  cbn. apply lookup_insert_ne. apply not_eq_sym, Hk.
Qed.

(** The world after the first step of [tag_mp3] on a temporary file
    that holds [audio]: other files, and everything else, are as
    before. *)
Lemma early_save_run env (is_mp3 : bool) filename audio w :
  exists w0,
    ((if is_mp3 then
        match id3_save_empty env audio with
        | Some with_header => write_file filename with_header
        | None => ret tt
        end
      else ret tt) : M unit) w = (w0, inr tt)
    /\ w0 = (if is_mp3 then
               match id3_save_empty env audio with
               | Some with_header => set_files (<[filename := with_header]> (files w)) w
               | None => w
               end
             else w)
    /\ (forall k, k <> filename -> files w0 !! k = files w !! k)
    /\ dirs w0 = dirs w /\ sent w0 = sent w /\ logs w0 = logs w
    /\ progress w0 = progress w /\ client w0 = client w /\ clock_reads w0 = clock_reads w.
Proof.
  destruct is_mp3; [destruct (id3_save_empty env audio) as [h |] |].
  - eexists. split; [reflexivity |]. split; [reflexivity |]. cbn.
    split; [| auto 10]. intros k Hk. apply lookup_insert_ne. congruence.
  - exists w. auto 10.
  - exists w. auto 10.
Qed.

(** What a tagging call that returns has done. *)
Lemma tag_file_returns env is_mp3 filename final_name track album cover_path w w' :
  metadata_utils.tag_file env is_mp3 filename final_name track album cover_path w
  = (w', inr tt) ->
  filename <> final_name ->
  exists audio cover tagged,
    files w !! filename = Some audio
    /\ tag_write env is_mp3 audio track album cover = inr tagged
    /\ files w' = <[final_name := tagged]> (delete filename (files w))
    /\ dirs w' = dirs w /\ sent w' = sent w /\ logs w' = logs w
    /\ progress w' = progress w /\ client w' = client w /\ clock_reads w' = clock_reads w.
Proof.
  intros H Hne. unfold metadata_utils.tag_file in H.
  bind_as H w1 audio Haudio. unfold read_file, gets, bind in Haudio. cbn in Haudio.
  destruct (files w !! filename) as [audio' |] eqn:Hsrc0; [| discriminate].
  unfold ret in Haudio. injection Haudio as <- <-.
  destruct (early_save_run env is_mp3 filename audio' w)
    as (w0 & Hearly & _ & Hf0 & Hd0 & Hs0 & Hl0 & Hp0 & Hc0 & Hn0).
  bind_as H w1 u0 Hstep. rewrite Hearly in Hstep. injection Hstep as <- _.
  bind_as H w2 cover Hcover.
  assert (Hcover' : w2 = w0).
  { destruct (truthy cover_path); unfold gets, ret in Hcover; injection Hcover as <- _; auto. }
  subst w2. clear Hcover.
  bind_as H w3 tagged Htagged.
  destruct (tag_write env is_mp3 audio' track album cover) as [e | tagged'] eqn:Htag;
    [discriminate |].
  unfold ret in Htagged. injection Htagged as <- <-.
  bind_as H w4 u Hwrite. unfold write_file, modify in Hwrite. injection Hwrite as <- _.
  bind_as H w5 present Hpresent. unfold os_path_exists, gets in Hpresent.
  injection Hpresent as <- <-.
  bind_as H w6 u' Hremove.
  exists audio', cover, tagged'. split; [reflexivity |]. split; [exact Htag |].
  set (w1 := set_files (<[filename := tagged']> (files w0)) w0) in *.
  assert (Hremoved : files w6 !! filename = Some tagged'
                     /\ (forall k, k <> final_name -> files w6 !! k = files w1 !! k)
                     /\ dirs w6 = dirs w /\ sent w6 = sent w /\ logs w6 = logs w
                     /\ progress w6 = progress w /\ client w6 = client w
                     /\ clock_reads w6 = clock_reads w).
  { destruct (path_exists w1 final_name).
    - unfold os_remove, gets, bind in Hremove. cbn in Hremove.
      destruct (<[filename := tagged']> (files w0) !! final_name); [| discriminate].
      unfold modify in Hremove. injection Hremove as <- _. cbn.
      split; [| split; [| auto 10]].
      + rewrite lookup_delete_ne by congruence. apply lookup_insert_eq.
      + intros k Hk. rewrite lookup_delete_ne by congruence. reflexivity.
    - unfold ret in Hremove. injection Hremove as <- _. cbn.
      split; [apply lookup_insert_eq | auto 10]. }
  destruct Hremoved as (Hsrc & Hother & Hd & Hs & Hl & Hp & Hc & Hn).
  unfold os_rename, read_file, gets, bind in H. cbn in H. rewrite Hsrc in H.
  unfold ret, modify in H. injection H as <-. cbn.
  split; [| auto 10].
  apply map_eq. intros k.
  destruct (decide (k = final_name)) as [-> | Hk].
  - rewrite !lookup_insert_eq. reflexivity.
  - rewrite !lookup_insert_ne by congruence.
    destruct (decide (k = filename)) as [-> | Hk'].
    + rewrite !lookup_delete_eq. reflexivity.
    + rewrite !lookup_delete_ne by congruence. rewrite Hother by exact Hk.
      subst w1. cbn. rewrite lookup_insert_ne by congruence. apply Hf0. exact Hk'.
Qed.

(** X10: tagging replaces the final file in one step or not at all.  With
    a temporary file in place and a final name that is not a directory,
    [tag_flac] / [tag_mp3] either succeed, and then the final name holds
    what the tagger made of the temporary file's bytes (whatever was there
    before) and the temporary file is gone; or they raise the tagger's
    error, and then the earlier final file and every file but the
    temporary one are as they were.  The temporary file is as it was too
    when [tag_flac] fails, and when [tag_mp3] fails on a file with an ID3
    header; a temporary file without one has by then been rewritten by
    [tag_mp3] with an empty header. *)
Theorem tag_file_all_or_nothing env (is_mp3 : bool) filename final_name track album
    cover_path w audio :
  filename <> final_name ->
  final_name ∉ dirs w ->
  files w !! filename = Some audio ->
  let w0 :=
    if is_mp3 then
      match id3_save_empty env audio with
      | Some with_header => set_files (<[filename := with_header]> (files w)) w
      | None => w
      end
    else w in
  match tag_write env is_mp3 audio track album
          (if truthy cover_path then files w0 !! py_str_opt cover_path else None) with
  | inr tagged =>
      exists w',
        metadata_utils.tag_file env is_mp3 filename final_name track album cover_path w
        = (w', inr tt)
        /\ files w' = <[final_name := tagged]> (delete filename (files w))
        /\ files w' !! final_name = Some tagged
        /\ files w' !! filename = None
  | inl e =>
      metadata_utils.tag_file env is_mp3 filename final_name track album cover_path w
      = (w0, inl e)
      /\ files w0 !! final_name = files w !! final_name
      /\ (forall p, p <> filename -> files w0 !! p = files w !! p)
      /\ (is_mp3 = false \/ id3_save_empty env audio = None -> w0 = w)
      /\ (forall with_header,
            is_mp3 = true -> id3_save_empty env audio = Some with_header ->
            files w0 !! filename = Some with_header)
  end.
Proof.
  intros Hne Hdir Haudio w0.
  destruct (early_save_run env is_mp3 filename audio w)
    as (w0' & Hearly & Hw0 & Hf0 & Hd0 & _).
  assert (Heq : w0' = w0) by exact Hw0. clear Hw0. subst w0'.
  assert (Hcover : (if truthy cover_path
                    then gets (fun w1 : World => files w1 !! py_str_opt cover_path)
                    else ret None) w0
                   = (w0, inr (if truthy cover_path then files w0 !! py_str_opt cover_path
                               else None))).
  { destruct (truthy cover_path); reflexivity. }
  unfold metadata_utils.tag_file.
  rewrite (bind_run _ _ w w audio) by (apply read_file_run; exact Haudio).
  rewrite (bind_run _ _ w w0 tt Hearly).
  rewrite (bind_run _ _ w0 w0 _ Hcover).
  destruct (tag_write env is_mp3 audio track album _) as [e | tagged] eqn:Htag.
  - split; [reflexivity |]. split; [apply Hf0; congruence |]. split; [exact Hf0 |].
    split.
    + intros [-> | Hnone]; [reflexivity |]. unfold w0. rewrite Hnone.
      destruct is_mp3; reflexivity.
    + intros h -> Hsome. unfold w0. rewrite Hsome. cbn. apply lookup_insert_eq.
  - rewrite (bind_run _ _ w0 w0 tagged) by reflexivity.
    rewrite (bind_run _ _ w0 (set_files (<[filename := tagged]> (files w0)) w0) tt)
      by reflexivity.
    remember (set_files (<[filename := tagged]> (files w0)) w0) as w1 eqn:Hw1.
    rewrite (bind_run _ _ w1 w1 (path_exists w1 final_name)) by reflexivity.
    assert (Hsrc : files w1 !! filename = Some tagged)
      by (subst w1; apply lookup_insert_eq).
    assert (Hdir1 : final_name ∉ dirs w1) by (subst w1; cbn; rewrite Hd0; exact Hdir).
    assert (Hmap : forall m : gmap string string,
               <[final_name := tagged]> (delete filename m) !! final_name = Some tagged
               /\ <[final_name := tagged]> (delete filename m) !! filename = None).
    { intros m. split; [apply lookup_insert_eq |].
      rewrite lookup_insert_ne by congruence. apply lookup_delete_eq. }
    assert (Hsame : forall m : gmap string string,
               (forall k, k <> final_name -> m !! k = files w1 !! k) ->
               <[final_name := tagged]> (delete filename m)
               = <[final_name := tagged]> (delete filename (files w))).
    { intros m Hm. apply map_eq. intros k.
      destruct (decide (k = final_name)) as [-> | Hk].
      - rewrite !lookup_insert_eq. reflexivity.
      - rewrite !lookup_insert_ne by congruence.
        destruct (decide (k = filename)) as [-> | Hk'].
        + rewrite !lookup_delete_eq. reflexivity.
        + rewrite !lookup_delete_ne by congruence. rewrite Hm by exact Hk.
          subst w1. cbn. rewrite lookup_insert_ne by congruence. apply Hf0. exact Hk'. }
    destruct (path_exists w1 final_name) eqn:Hex.
    + unfold path_exists in Hex. rewrite (bool_decide_eq_false_2 (final_name ∈ dirs w1)) in Hex
        by exact Hdir1.
      rewrite orb_false_r in Hex. apply bool_decide_eq_true in Hex. destruct Hex as [old Hold].
      rewrite (bind_run _ _ w1 _ tt (os_remove_run final_name w1 old Hold)).
      rewrite (os_rename_run filename final_name _ tagged).
      2: { cbn. rewrite lookup_delete_ne by congruence. exact Hsrc. }
      eexists. split; [reflexivity |]. cbn.
      rewrite (Hsame (delete final_name (files w1))).
      2: { intros k Hk. rewrite lookup_delete_ne by congruence. reflexivity. }
      split; [reflexivity |]. apply Hmap.
    + rewrite (bind_run _ _ w1 w1 tt) by reflexivity.
      rewrite (os_rename_run filename final_name _ tagged Hsrc).
      eexists. split; [reflexivity |]. cbn.
      rewrite (Hsame (files w1)) by reflexivity.
      split; [reflexivity |]. apply Hmap.
Qed.

Lemma tag_file_all_or_nothing_witness :
  let w := Sample.world Sample.configured_client
             {[ "a/01. One.mp3.tmp" := "MP3DATA"; "a/01. One.mp3" := "old" ]} in
  metadata_utils.tag_file Sample.env_failing_tagger true "a/01. One.mp3.tmp" "a/01. One.mp3"
    (Sample.track 1 "One") Sample.album None w
  = (set_files (<["a/01. One.mp3.tmp" := "ID3MP3DATA"]> (files w)) w,
     inl (KeyError "track_number"))
  /\ files (set_files (<["a/01. One.mp3.tmp" := "ID3MP3DATA"]> (files w)) w)
       !! "a/01. One.mp3" = Some "old".
Proof.
  cbv zeta.
  pose proof (tag_file_all_or_nothing Sample.env_failing_tagger true
                "a/01. One.mp3.tmp" "a/01. One.mp3"
                (Sample.track 1 "One") Sample.album None
                (Sample.world Sample.configured_client
                   {[ "a/01. One.mp3.tmp" := "MP3DATA"; "a/01. One.mp3" := "old" ]})
                "MP3DATA" ltac:(discriminate) ltac:(apply not_elem_of_empty)
                ltac:(vm_compute; reflexivity)) as H.
  cbv zeta in H. destruct H as (Hrun & _).
  split; [exact Hrun |]. vm_compute. reflexivity.
Defined.

(** ** metadata_utils: genres *)

Lemma existsb_eqb_In (g : string) (l : list string) :
  List.existsb (String.eqb g) l = true <-> In g l.
Proof.
  rewrite List.existsb_exists. split.
  - intros (x & Hin & Heq). apply String.eqb_eq in Heq. subst x. exact Hin.
  - intros Hin. exists g. split; [exact Hin | apply String.eqb_refl].
Qed.

Lemma append_new_NoDup genres : forall acc,
  NoDup acc -> NoDup (metadata_utils.append_new genres acc).
Proof.
  induction genres as [| g rest IH]; intros acc Hnd; cbn; [exact Hnd |].
  destruct (List.existsb (String.eqb g) acc) eqn:E; [apply IH; exact Hnd |].
  apply IH. apply NoDup_app. split; [exact Hnd |]. split.
  - intros x Hx Hg. apply list_elem_of_singleton in Hg. subst x.
    apply list_elem_of_In, existsb_eqb_In in Hx. congruence.
  - apply NoDup_singleton.
Qed.

Lemma append_new_In genres : forall acc x,
  In x (metadata_utils.append_new genres acc) <-> In x acc \/ In x genres.
Proof.
  induction genres as [| g rest IH]; intros acc x; cbn; [tauto |].
  destruct (List.existsb (String.eqb g) acc) eqn:E; rewrite IH.
  - apply existsb_eqb_In in E. split; [tauto |]. intros [H | [<- | H]]; auto.
  - rewrite List.in_app_iff. cbn. tauto.
Qed.

Lemma plain_name_app a b :
  plain_name (a +:+ b) = plain_name a && plain_name b.
Proof.
  unfold plain_name. induction a as [| c a IH]; [reflexivity |].
  change (list_ascii_of_string (String c a +:+ b)) with (c :: list_ascii_of_string (a +:+ b)).
  cbn [list_ascii_of_string List.forallb]. rewrite IH, andb_assoc. reflexivity.
Qed.

Lemma findall_runs_parts s : forall run,
  plain_name run = true ->
  Forall (fun p => p <> "" /\ plain_name p = true) (metadata_utils.findall_runs metadata_utils.genre_break s run).
Proof.
  assert (Hrun : forall run, plain_name run = true ->
                   Forall (fun p => p <> "" /\ plain_name p = true)
                     (if Py.is_empty run then [] else [run])).
  { intros [| c r] Hp; cbn; repeat constructor; [discriminate | exact Hp]. }
  induction s as [| c s IH]; intros run Hp; cbn [metadata_utils.findall_runs].
  - apply Hrun, Hp.
  - destruct (metadata_utils.genre_break c) eqn:Ec.
    + apply List.Forall_app. split; [apply Hrun, Hp | apply IH; reflexivity].
    + apply IH. rewrite plain_name_app, Hp. unfold plain_name.
      cbn [list_ascii_of_string List.forallb andb]. rewrite Ec. reflexivity.
Qed.

Lemma remove_dups_id (l : list string) : NoDup l -> remove_dups l = l.
Proof.
  induction 1 as [| x l Hx Hnd IH]; [reflexivity |].
  cbn. destruct (decide_rel elem_of x l); [contradiction | rewrite IH; reflexivity].
Qed.

Lemma remove_dups_skip (xs ys : list string) (g : string) :
  g ∈ ys -> remove_dups (xs ++ g :: ys)%list = remove_dups (xs ++ ys)%list.
Proof.
  intros Hg. induction xs as [| x xs IH]; cbn.
  - destruct (decide_rel elem_of g ys); [reflexivity | contradiction].
  - rewrite IH.
    destruct (decide_rel elem_of x (xs ++ g :: ys)%list) as [Hin | Hout];
      destruct (decide_rel elem_of x (xs ++ ys)%list) as [Hin' | Hout']; try reflexivity.
    + exfalso. apply Hout'. apply elem_of_app in Hin. apply elem_of_app.
      destruct Hin as [H | H]; [left; exact H | right].
      apply elem_of_cons in H. destruct H as [-> | H]; assumption.
    + exfalso. apply Hout. apply elem_of_app in Hin'. apply elem_of_app.
      destruct Hin' as [H | H]; [left; exact H | right; apply elem_of_cons; right; exact H].
Qed.

Lemma append_new_first_occurrences genres : forall acc,
  NoDup acc ->
  metadata_utils.append_new genres acc = List.rev (remove_dups (List.rev (acc ++ genres)%list)).
Proof.
  induction genres as [| g rest IH]; intros acc Hnd; cbn [metadata_utils.append_new].
  - rewrite app_nil_r, remove_dups_id, List.rev_involutive; [reflexivity |].
    apply NoDup_ListNoDup, List.NoDup_rev, NoDup_ListNoDup, Hnd.
  - destruct (List.existsb (String.eqb g) acc) eqn:E.
    + rewrite IH by exact Hnd. f_equal.
      rewrite !List.rev_app_distr. cbn [List.rev]. rewrite <- app_assoc. cbn [app].
      symmetry. apply remove_dups_skip.
      apply list_elem_of_In, List.in_rev. rewrite List.rev_involutive.
      apply existsb_eqb_In. exact E.
    + rewrite IH.
      * rewrite <- app_assoc. reflexivity.
      * apply NoDup_app. split; [exact Hnd |]. split; [| apply NoDup_singleton].
        intros x Hx Hg. apply list_elem_of_singleton in Hg. subst x.
        apply list_elem_of_In, existsb_eqb_In in Hx. congruence.
Qed.

Lemma findall_runs_plain g : forall rest run,
  plain_name g = true ->
  metadata_utils.findall_runs metadata_utils.genre_break (g +:+ rest) run
  = metadata_utils.findall_runs metadata_utils.genre_break rest (run +:+ g).
Proof.
  induction g as [| c g IH]; intros rest run Hp.
  - rewrite string_app_nil_r. reflexivity.
  - unfold plain_name in Hp. cbn [list_ascii_of_string List.forallb] in Hp.
    apply andb_true_iff in Hp. destruct Hp as [Hc Hg]. apply negb_true_iff in Hc.
    change (String c g +:+ rest) with (String c (g +:+ rest)).
    cbn [metadata_utils.findall_runs]. rewrite Hc. rewrite IH by exact Hg.
    rewrite string_app_assoc. reflexivity.
Qed.

Lemma findall_runs_join genres : forall g run,
  Forall (fun g => plain_name g = true) (g :: genres) ->
  metadata_utils.findall_runs metadata_utils.genre_break (Py.join "/" (g :: genres)) run
  = ((if Py.is_empty (run +:+ g) then [] else [run +:+ g])
     ++ List.filter (fun g => negb (Py.is_empty g)) genres)%list.
Proof.
  induction genres as [| g' genres IH]; intros g run Hall.
  - inversion Hall as [| ? ? Hg _]; subst.
    change (Py.join "/" [g]) with g.
    rewrite <- (string_app_nil_r g) at 1. rewrite findall_runs_plain by exact Hg.
    cbn. rewrite app_nil_r. reflexivity.
  - inversion Hall as [| ? ? Hg Hrest]; subst.
    change (Py.join "/" (g :: g' :: genres)) with (g +:+ String "/" (Py.join "/" (g' :: genres))).
    rewrite findall_runs_plain by exact Hg.
    cbn [metadata_utils.findall_runs]. change (metadata_utils.genre_break "/") with true. cbv iota.
    rewrite IH by exact Hrest. f_equal.
    cbn [List.filter]. change ("" +:+ g') with g'.
    destruct (Py.is_empty g'); reflexivity.
Qed.

Lemma findall_runs_of s runs :
  genre_runs s runs ->
  metadata_utils.findall_runs metadata_utils.genre_break s "" = runs.
Proof.
  induction 1 as [| c s runs Hc _ IH | run Hne Hp | run c s runs Hne Hp Hc _ IH].
  - reflexivity.
  - cbn [metadata_utils.findall_runs]. rewrite Hc, IH. reflexivity.
  - rewrite <- (string_app_nil_r run) at 1. rewrite findall_runs_plain by exact Hp.
    change ("" +:+ run) with run. destruct run; [congruence | reflexivity].
  - rewrite findall_runs_plain by exact Hp. change ("" +:+ run) with run.
    cbn [metadata_utils.findall_runs]. rewrite Hc, IH.
    destruct run; [congruence | reflexivity].
Qed.

Lemma genre_runs_findall s : forall run,
  plain_name run = true ->
  genre_runs (run +:+ s) (metadata_utils.findall_runs metadata_utils.genre_break s run).
Proof.
  induction s as [| c s IH]; intros run Hp.
  - rewrite string_app_nil_r. cbn [metadata_utils.findall_runs].
    destruct run as [| x run]; [constructor |].
    apply runs_last; [discriminate | exact Hp].
  - cbn [metadata_utils.findall_runs]. destruct (metadata_utils.genre_break c) eqn:Hc.
    + pose proof (IH "" eq_refl) as Htail. change ("" +:+ s) with s in Htail.
      destruct run as [| x run].
      * apply runs_break; assumption.
      * apply runs_piece; [discriminate | exact Hp | exact Hc | exact Htail].
    + assert (Hp' : plain_name (run +:+ String c "") = true).
      { rewrite plain_name_app, Hp. unfold plain_name.
        cbn [list_ascii_of_string List.forallb andb]. rewrite Hc. reflexivity. }
      pose proof (IH _ Hp') as Htail. rewrite string_app_assoc in Htail. exact Htail.
Qed.

Lemma filter_non_empty (l : list string) :
  Forall (fun p => p <> "" /\ plain_name p = true) l ->
  List.filter (fun g => negb (Py.is_empty g)) l = l.
Proof.
  induction 1 as [| p l [Hne _] _ IH]; [reflexivity |].
  cbn [List.filter]. destruct p; [congruence |]. cbn. rewrite IH. reflexivity.
Qed.

(** X9: [format_genres] cuts the names, joined by slashes, at every
    character of the pattern's class, and lists the pieces, each once, at
    the place of its first occurrence, separated by a comma and a space.
    The class is the slash, the backslash and, because the pattern is
    written with doubled backslashes in a raw string, the characters [u],
    [2], [1] and [9]; a piece is a longest stretch of other characters.
    The text has exactly one such cutting.  So [Blues] comes out as
    [Bl, es], while a comma inside a name is no cut. *)
Theorem format_genres_pieces genres :
  (exists runs, genre_runs (Py.join "/" genres) runs)
  /\ (forall runs,
        genre_runs (Py.join "/" genres) runs ->
        metadata_utils.format_genres genres = Py.join ", " (distinct_names runs)
        /\ Forall (fun p => p <> ""
                            /\ forall c, In c (list_ascii_of_string p) ->
                                         ~ In c ["\"; "u"; "2"; "1"; "9"; "/"]%char) runs)
  /\ (forall runs runs',
        genre_runs (Py.join "/" genres) runs ->
        genre_runs (Py.join "/" genres) runs' -> runs = runs')
  /\ metadata_utils.format_genres ["Blues"] = "Bl, es"
  /\ metadata_utils.format_genres ["Pop"; "Pop, Rock"] = "Pop, Pop, Rock".
Proof.
  split; [| split; [| split; [| split; reflexivity]]].
  - exists (metadata_utils.findall_runs metadata_utils.genre_break (Py.join "/" genres) "").
    exact (genre_runs_findall (Py.join "/" genres) "" eq_refl).
  - intros runs Hruns. apply findall_runs_of in Hruns.
    pose proof (findall_runs_parts (Py.join "/" genres) "" eq_refl) as Hall.
    rewrite Hruns in Hall. split.
    + destruct genres as [| g genres].
      { cbn in Hruns. subst runs. reflexivity. }
      unfold metadata_utils.format_genres, distinct_names. cbv zeta.
      rewrite Hruns, append_new_first_occurrences by constructor.
      rewrite (filter_non_empty runs Hall). reflexivity.
    + apply List.Forall_forall. intros p Hp.
      rewrite List.Forall_forall in Hall. destruct (Hall p Hp) as [Hne Hplain].
      split; [exact Hne |]. intros c Hc Hbreak.
      unfold plain_name in Hplain. rewrite List.forallb_forall in Hplain.
      specialize (Hplain c Hc). apply negb_true_iff in Hplain.
      unfold metadata_utils.genre_break in Hplain.
      assert (Hex : List.existsb (Ascii.eqb c) ["\"; "u"; "2"; "1"; "9"; "/"]%char = true).
      { apply List.existsb_exists. exists c. split; [exact Hbreak | apply Ascii.eqb_refl]. }
      congruence.
  - intros runs runs' H H'. apply findall_runs_of in H, H'. congruence.
Qed.

Example format_genres_tests :
  metadata_utils.format_genres ["Blues"; "Pop/Rock"; "Rock"] = "Bl, es, Pop, Rock"
  /\ metadata_utils.format_genres ["Pop"; "Pop, Rock"] = "Pop, Pop, Rock"
  /\ metadata_utils.format_genres ["R&B/Soul"; "Soul"; "2019"] = "R&B, So, l, 0"
  /\ metadata_utils.format_genres [""; "/"] = "".
Proof. vm_compute. repeat split; reflexivity. Qed.

(** X8: for genre names that hold none of the characters at which the
    pattern cuts, [format_genres] gives the non-empty names separated by a
    comma and a space, each once, at the place of its first occurrence;
    for no genre at all it gives the empty string. *)
Theorem format_genres_plain_names genres :
  Forall (fun g => plain_name g = true) genres ->
  metadata_utils.format_genres genres = Py.join ", " (distinct_names genres).
Proof.
  intros Hall. destruct genres as [| g genres]; [reflexivity |].
  unfold metadata_utils.format_genres, distinct_names. cbv zeta.
  rewrite findall_runs_join by exact Hall.
  rewrite append_new_first_occurrences by constructor.
  cbn [app List.filter]. change ("" +:+ g) with g.
  destruct (Py.is_empty g); reflexivity.
Qed.

Lemma format_genres_plain_names_witness :
  metadata_utils.format_genres ["Pop"; "Rock"; ""; "Pop"; "Jazz"; "Rock"] = "Pop, Rock, Jazz".
Proof.
  rewrite (format_genres_plain_names ["Pop"; "Rock"; ""; "Pop"; "Jazz"; "Rock"]).
  - reflexivity.
  - repeat constructor.
Defined.

(** ** metadata_utils: the copyright markers *)

Section Replace.

(** A replacement text [n0 :: new'] for [old], and a pattern [a :: q]
    whose first character is not in the replacement and whose other
    characters differ from the replacement's first one. *)
Variables (old : string) (n0 : ascii) (new' : string).
Variables (a : ascii) (q : string).
Hypothesis a_not_in_new : forall ch, In ch (list_ascii_of_string (String n0 new')) -> ch <> a.
Hypothesis q_not_n0 : forall ch, In ch (list_ascii_of_string q) -> ch <> n0.

Let new := String n0 new'.

Lemma prefix_cons x p y t :
  String.prefix (String x p) (String y t) = if ascii_dec x y then String.prefix p t else false.
Proof. reflexivity. Qed.

Lemma replace_head t x rest :
  x <> n0 ->
  Py.replace_from old new 0 t = String x rest ->
  exists t', t = String x t' /\ String.prefix old t = false
             /\ rest = Py.replace_from old new 0 t'.
Proof.
  intros Hx H. destruct t as [| c t']; [discriminate |].
  cbn [Py.replace_from] in H. destruct (String.prefix old (String c t')) eqn:E.
  - exfalso. unfold new in H.
    change (String n0 new' +:+ Py.replace_from old (String n0 new')
                                 (Nat.pred (String.length old)) t')
      with (String n0 (new' +:+ Py.replace_from old (String n0 new')
                                  (Nat.pred (String.length old)) t')) in H.
    injection H as H _. congruence.
  - injection H as <- <-. exists t'. auto.
Qed.

(** A prefix of the result that avoids the replacement's first character
    is a prefix of the source. *)
Lemma prefix_back p : forall t,
  (forall ch, In ch (list_ascii_of_string p) -> ch <> n0) ->
  String.prefix p (Py.replace_from old new 0 t) = true ->
  String.prefix p t = true.
Proof.
  induction p as [| x p IH]; intros t Hp H.
  - destruct t; reflexivity.
  - destruct (Py.replace_from old new 0 t) as [| y rest] eqn:E; [discriminate |].
    rewrite prefix_cons in H. destruct (ascii_dec x y) as [<- | ]; [| discriminate].
    destruct (replace_head t x rest (Hp x (or_introl eq_refl)) E) as (t' & -> & _ & ->).
    rewrite prefix_cons. destruct (ascii_dec x x); [| congruence].
    apply IH; [| exact H]. intros ch Hch. apply Hp. right. exact Hch.
Qed.

Lemma contains_skip_new s : forall rest,
  (forall ch, In ch (list_ascii_of_string s) -> ch <> a) ->
  contains (String a q) (s +:+ rest) = contains (String a q) rest.
Proof.
  induction s as [| c s IH]; intros rest Hs; [reflexivity |].
  change (String c s +:+ rest) with (String c (s +:+ rest)).
  cbn [contains]. rewrite prefix_cons.
  destruct (ascii_dec a c) as [<- | _].
  - exfalso. apply (Hs a); [left |]; reflexivity.
  - cbn [orb]. apply IH. intros ch Hch. apply Hs. right. exact Hch.
Qed.

Lemma contains_tail p c t : contains p (String c t) = false -> contains p t = false.
Proof. cbn [contains]. intros H. apply orb_false_iff in H. apply H. Qed.

(** Replacing [old] brings no occurrence of the pattern into a text
    that had none. *)
Lemma replace_from_keeps_free t : forall k,
  contains (String a q) t = false ->
  contains (String a q) (Py.replace_from old new k t) = false.
Proof.
  induction t as [| c t IH]; intros k Hfree; [destruct k; exact Hfree |].
  pose proof (contains_tail _ _ _ Hfree) as Hfree'.
  destruct k as [| k]; cbn [Py.replace_from]; [| apply IH; exact Hfree'].
  destruct (String.prefix old (String c t)).
  - unfold new at 1. rewrite contains_skip_new by exact a_not_in_new. apply IH. exact Hfree'.
  - cbn [contains]. rewrite (IH 0%nat Hfree'), orb_false_r.
    destruct (String.prefix (String a q) (String c (Py.replace_from old new 0 t))) eqn:E;
      [| reflexivity].
    exfalso. rewrite prefix_cons in E. destruct (ascii_dec a c) as [<- |]; [| discriminate].
    apply prefix_back in E; [| exact q_not_n0].
    cbn [contains] in Hfree. rewrite prefix_cons in Hfree.
    destruct (ascii_dec a a); [| congruence]. rewrite E in Hfree. discriminate.
Qed.

(** Replacing the pattern itself leaves no occurrence of it. *)
Lemma replace_from_leaves_none t : forall k,
  old = String a q ->
  contains (String a q) (Py.replace_from old new k t) = false.
Proof.
  intros k Hold. revert k.
  induction t as [| c t IH]; intros k; [destruct k; reflexivity |].
  destruct k as [| k]; cbn [Py.replace_from]; [| apply IH].
  destruct (String.prefix old (String c t)) eqn:Hmatch.
  - unfold new at 1. rewrite contains_skip_new by exact a_not_in_new. apply IH.
  - cbn [contains]. rewrite (IH 0%nat), orb_false_r.
    destruct (String.prefix (String a q) (String c (Py.replace_from old new 0 t))) eqn:E;
      [| reflexivity].
    exfalso. rewrite prefix_cons in E. destruct (ascii_dec a c) as [<- |]; [| discriminate].
    apply prefix_back in E; [| exact q_not_n0].
    rewrite Hold, prefix_cons in Hmatch.
    destruct (ascii_dec a a); [| congruence]. congruence.
Qed.

End Replace.

(** A text without the pattern is left as it is. *)
Lemma replace_from_free old new t :
  contains old t = false -> Py.replace_from old new 0 t = t.
Proof.
  induction t as [| c t IH]; intros H; [reflexivity |].
  cbn [contains] in H. apply orb_false_iff in H. destruct H as [Hhere Hlater].
  cbn [Py.replace_from]. rewrite Hhere, IH by exact Hlater. reflexivity.
Qed.

(** X7: [format_copyright] leaves no marker behind: whatever the text,
    the result contains neither [(P)] nor [(C)], so that formatting a
    formatted text again changes nothing. *)
Theorem format_copyright_leaves_no_marker s :
  contains "(P)" (metadata_utils.format_copyright s) = false
  /\ contains "(C)" (metadata_utils.format_copyright s) = false
  /\ metadata_utils.format_copyright (metadata_utils.format_copyright s)
     = metadata_utils.format_copyright s.
Proof.
  assert (Hfree : forall t, contains "(P)" t = false -> contains "(C)" t = false ->
                    metadata_utils.format_copyright t = t).
  { intros t H1 H2. unfold metadata_utils.format_copyright.
    destruct t as [| c t]; [reflexivity |].
    cbn [Py.is_empty negb]. unfold Py.replace. cbn [Py.is_empty].
    rewrite (replace_from_free "(P)" _ _ H1). apply replace_from_free. exact H2. }
  assert (Hp : forall t, contains "(P)"
                 (Py.replace_from "(C)" metadata_utils.COPYRIGHT 0
                    (Py.replace_from "(P)" metadata_utils.PHON_COPYRIGHT 0 t)) = false).
  { intros t.
    apply (replace_from_keeps_free "(C)" (ascii_of_nat 226)
             (String (ascii_of_nat 132) (String (ascii_of_nat 151) "")) "(" "P)").
    - intros ch [<- | [<- | [<- | []]]]; discriminate.
    - intros ch [<- | [<- | []]]; discriminate.
    - apply (replace_from_leaves_none "(P)" (ascii_of_nat 194) (String (ascii_of_nat 169) "")
               "(" "P)").
      + intros ch [<- | [<- | []]]; discriminate.
      + intros ch [<- | [<- | []]]; discriminate.
      + reflexivity. }
  assert (Hc : forall t, contains "(C)"
                 (Py.replace_from "(C)" metadata_utils.COPYRIGHT 0 t) = false).
  { intros t.
    apply (replace_from_leaves_none "(C)" (ascii_of_nat 226)
             (String (ascii_of_nat 132) (String (ascii_of_nat 151) "")) "(" "C)").
    - intros ch [<- | [<- | [<- | []]]]; discriminate.
    - intros ch [<- | [<- | []]]; discriminate.
    - reflexivity. }
  assert (Hboth : contains "(P)" (metadata_utils.format_copyright s) = false
                  /\ contains "(C)" (metadata_utils.format_copyright s) = false).
  { unfold metadata_utils.format_copyright. destruct s as [| c s]; [split; reflexivity |].
    cbn [Py.is_empty negb]. unfold Py.replace. cbn [Py.is_empty].
    split; [apply Hp | apply Hc]. }
  destruct Hboth as [H1 H2]. split; [exact H1 |]. split; [exact H2 |].
  apply Hfree; assumption.
Qed.

(** ** downloader: streaming a track *)

Lemma write_chunks_run tmp_path pbar total filename chunks : forall downloaded w cur,
  files w !! tmp_path = Some cur ->
  exists w',
    downloader.write_chunks tmp_path pbar total filename downloaded chunks w = (w', inr tt)
    /\ files w' = <[tmp_path := cur +:+ String.concat "" chunks]> (files w)
    /\ progress w'
       = (progress w ++ if pbar then progress_reports total filename downloaded chunks else [])%list
    /\ sent w' = sent w /\ dirs w' = dirs w /\ logs w' = logs w
    /\ client w' = client w /\ clock_reads w' = clock_reads w.
Proof.
  induction chunks as [| chunk rest IH]; intros downloaded w cur Hcur.
  - exists w. cbn. split; [reflexivity |]. split.
    + rewrite string_app_nil_r, insert_id; [reflexivity | exact Hcur].
    + destruct pbar; rewrite app_nil_r; auto 10.
  - cbn [downloader.write_chunks].
    rewrite (bind_run _ _ w
               (set_files (<[tmp_path := default "" (files w !! tmp_path) +:+ chunk]> (files w)) w)
               tt) by reflexivity.
    cbv zeta.
    set (w1 := set_files (<[tmp_path := default "" (files w !! tmp_path) +:+ chunk]> (files w)) w).
    set (d := downloaded + Z.of_nat (String.length chunk)).
    set (w2 := if pbar then set_progress (progress w1 ++ [(d, total, filename)]) w1 else w1).
    rewrite (bind_run _ _ w1 w2 tt) by (subst w2; destruct pbar; reflexivity).
    destruct (IH d w2 (cur +:+ chunk)) as (w' & Hrun & Hfiles & Hprog & Hs & Hd & Hl & Hc & Hn).
    { subst w2 w1. destruct pbar; cbn; rewrite lookup_insert_eq, Hcur; reflexivity. }
    exists w'. split; [exact Hrun |].
    assert (Hf2 : files w2 = <[tmp_path := cur +:+ chunk]> (files w)).
    { subst w2 w1. destruct pbar; cbn; rewrite Hcur; reflexivity. }
    split.
    + rewrite Hfiles, Hf2, insert_insert_eq, concat_cons_empty_sep, string_app_assoc.
      reflexivity.
    + split.
      * rewrite Hprog. subst w2 w1. destruct pbar; cbn; [| reflexivity].
        rewrite <- app_assoc. reflexivity.
      * subst w2 w1. destruct pbar; cbn in *; auto 10.
Qed.

(** X13: the download block sends one streaming request.  An answer
    outside 2xx raises before the temporary file is opened.  Otherwise the
    temporary file is created or truncated and receives the chunks in
    order: when the stream ends it holds exactly their concatenation; when
    the transport breaks the call raises, and the chunks that had arrived
    stay in the temporary file, which is not removed.  The progress callback,
    when there is one, is called once per chunk with the running byte
    count. *)
Theorem stream_to_file_outcomes env url tmp_path pbar filename w :
  match http_stream env url with
  | NoStream msg =>
      downloader.stream_to_file env url tmp_path pbar filename w
      = (set_sent (sent w ++ [Stream url]) w, inl (TransportError msg))
  | StreamResponse status content_length chunks broken =>
      if is_success status then
        exists w',
          downloader.stream_to_file env url tmp_path pbar filename w
          = (w', match broken with
                 | Some msg => inl (TransportError msg)
                 | None => inr tt
                 end)
          /\ files w' = <[tmp_path := String.concat "" chunks]> (files w)
          /\ progress w'
             = (progress w
                ++ if pbar then progress_reports (default 0 content_length) filename 0 chunks
                   else [])%list
          /\ sent w' = (sent w ++ [Stream url])%list
          /\ dirs w' = dirs w /\ logs w' = logs w
          /\ client w' = client w /\ clock_reads w' = clock_reads w
      else
        downloader.stream_to_file env url tmp_path pbar filename w
        = (set_sent (sent w ++ [Stream url]) w, inl (HTTPStatusError status))
  end.
Proof.
  unfold downloader.stream_to_file.
  rewrite (bind_run _ _ w (set_sent (sent w ++ [Stream url]) w) tt) by reflexivity.
  destruct (http_stream env url) as [msg | status content_length chunks broken];
    [reflexivity |].
  unfold raise_for_status. fold (is_success status).
  destruct (is_success status); [| reflexivity].
  set (w0 := set_sent (sent w ++ [Stream url]) w).
  rewrite (bind_run _ _ w0 w0 tt) by reflexivity.
  set (w1 := set_files (<[tmp_path := ""]> (files w0)) w0).
  rewrite (bind_run _ _ w0 w1 tt) by reflexivity.
  destruct (write_chunks_run tmp_path pbar (default 0 content_length) filename chunks 0 w1 "")
    as (w' & Hrun & Hfiles & Hprog & Hs & Hd & Hl & Hc & Hn).
  { subst w1. apply lookup_insert_eq. }
  rewrite (bind_run _ _ w1 w' tt Hrun).
  exists w'. split; [destruct broken; reflexivity |].
  split.
  { rewrite Hfiles. subst w1 w0. cbn. rewrite insert_insert_eq. reflexivity. }
  split; [exact Hprog |]. subst w1 w0. cbn in *. auto 10.
Qed.

(** The download block, when it returns: the stream was answered with a
    2xx status and ended properly, and the temporary file holds its
    chunks. *)
Lemma stream_to_file_returns env url tmp_path pbar filename w w' :
  downloader.stream_to_file env url tmp_path pbar filename w = (w', inr tt) ->
  exists status content_length chunks,
    http_stream env url = StreamResponse status content_length chunks None
    /\ files w' = <[tmp_path := String.concat "" chunks]> (files w)
    /\ dirs w' = dirs w.
Proof.
  intros H. unfold downloader.stream_to_file in H.
  bind_as H w0 u Hsent. unfold modify in Hsent. injection Hsent as <- _.
  destruct (http_stream env url) as [msg | status content_length chunks broken];
    [discriminate |].
  bind_as H w1 u1 Hstatus. unfold raise_for_status in Hstatus.
  destruct ((200 <=? status) && (status <? 300)); [| discriminate].
  unfold ret in Hstatus. injection Hstatus as <- _.
  bind_as H w2 u2 Hopen. unfold write_file, modify in Hopen. injection Hopen as <- _.
  bind_as H w3 u3 Hchunks.
  destruct broken as [msg |]; [discriminate |]. unfold ret in H. injection H as <-.
  destruct (write_chunks_run tmp_path pbar (default 0 content_length) filename chunks 0
              (set_files (<[tmp_path := ""]> (files (set_sent (sent w ++ [Stream url]) w)))
                 (set_sent (sent w ++ [Stream url]) w)) "")
    as (w'' & Hrun & Hfiles & _ & _ & Hdirs & _).
  { apply lookup_insert_eq. }
  pose proof (eq_trans (eq_sym Hrun) Hchunks) as E. injection E as <- _.
  exists status, content_length, chunks. split; [reflexivity |].
  split; [| exact Hdirs]. rewrite Hfiles. cbn. apply insert_insert_eq.
Qed.

(** ** downloader: a single track, its failures and what it delivers *)

(** X14: a track for which the provider resolves no stream URL (no [url]
    entry, or an empty one) is refused with [No download URL available]
    after the two metadata requests and before anything is done on disk:
    no folder is created, no file is written, nothing is logged. *)
Theorem download_track_without_url env self track_id album folder_opt pbar w
    status content track fi :
  http env (track_get_request (headers (client w)) track_id) = Response status content ->
  is_success status = true ->
  json_track env content = Some track ->
  is_Some (match album with Some a => Some a | None => t_album track end) ->
  snd (qobuz_client.get_file_url env track_id (quality self) w) = inr fi ->
  truthy (fi_url fi) = false ->
  exists w',
    downloader.download_track env self track_id album folder_opt pbar w
    = (w', inl (Exception "No download URL available. It might be a demo or restricted."))
    /\ sent w' = (sent w ++ [ track_get_request (headers (client w)) track_id;
                             file_url_request (headers (client w))
                               (time_time env (clock_reads w)) track_id (quality self)
                               (active_secret (client w)) ])%list
    /\ files w' = files w /\ dirs w' = dirs w /\ logs w' = logs w
    /\ progress w' = progress w /\ client w' = client w.
Proof.
  intros Hhttp Hst Hjson [album_doc Halbum] Hfi Hurl.
  set (w1 := set_sent (sent w ++ [track_get_request (headers (client w)) track_id]) w).
  assert (Htrack : qobuz_client.get_track env track_id w = (w1, inr track)).
  { rewrite get_track_run, Hhttp, Hst, Hjson. reflexivity. }
  assert (Hfi1 : snd (qobuz_client.get_file_url env track_id (quality self) w1) = inr fi).
  { rewrite (get_file_url_result env track_id (quality self) w w1) by reflexivity.
    exact Hfi. }
  unfold downloader.download_track.
  rewrite (bind_run _ _ w w1 (album_doc, track)).
  2: { destruct album as [a |].
       - injection Halbum as ->. rewrite (bind_run _ _ w w1 track Htrack). reflexivity.
       - rewrite (bind_run _ _ w w1 track Htrack). rewrite Halbum. reflexivity. }
  cbv beta iota.
  destruct (qobuz_client.get_file_url env track_id (quality self) w1) as [w2 [e | fi']] eqn:Hrun;
    cbn [snd] in Hfi1; [discriminate |].
  injection Hfi1 as ->.
  rewrite (bind_run _ _ w1 w2 fi Hrun). cbv zeta. rewrite Hurl. cbn [negb].
  exists w2. split; [reflexivity |].
  rewrite get_file_url_run in Hrun. cbv zeta in Hrun. injection Hrun as <- _.
  subst w1. cbn. rewrite <- app_assoc. auto 10.
Qed.

Lemma download_track_without_url_witness :
  exists w',
    downloader.download_track Sample.env Sample.self (PyInt 2) None None false Sample.fresh
    = (w', inl (Exception "No download URL available. It might be a demo or restricted."))
    /\ sent w' = ([] ++ [ track_get_request (headers Sample.configured_client) (PyInt 2);
                          file_url_request (headers Sample.configured_client)
                            1700000000 (PyInt 2) 6 (Some "s3cr3t") ])%list
    /\ files w' = ∅ /\ dirs w' = ∅ /\ logs w' = [] /\ progress w' = []
    /\ client w' = Sample.configured_client.
Proof.
  apply (download_track_without_url Sample.env Sample.self (PyInt 2) None None false
           Sample.fresh 200 "track-2" (Sample.track 2 "Two") {| fi_url := None |});
    try (vm_compute; reflexivity).
  eexists. reflexivity.
Defined.

Lemma rev_string_app a : forall b acc,
  Py.rev_string (a +:+ b) acc = Py.rev_string b (Py.rev_string a acc).
Proof.
  induction a as [| x a IH]; intros b acc; [reflexivity |].
  change (Py.rev_string (a +:+ b) (String x acc) = Py.rev_string b (Py.rev_string a (String x acc))).
  apply IH.
Qed.

(** A path made by joining something with [thumb.jpg] or [cover.jpg] is
    not the path of a temporary file. *)
Lemma join_jpg_not_tmp a x name :
  name = "thumb.jpg" \/ name = "cover.jpg" ->
  Py.os_path_join a name <> x +:+ ".tmp".
Proof.
  intros Hname Heq.
  assert (Hjoin : exists y, Py.os_path_join a name = y +:+ "/" +:+ name
                            \/ Py.os_path_join a name = y +:+ name).
  { unfold Py.os_path_join.
    destruct Hname as [-> | ->]; cbn [Py.startswith String.prefix Ascii.eqb Bool.eqb].
    all: destruct (Py.is_empty a || Py.endswith "/" a); exists a; auto. }
  destruct Hjoin as (y & [Hj | Hj]); rewrite Hj in Heq;
    apply (f_equal (fun s => Py.rev_string s "")) in Heq;
    rewrite !rev_string_app in Heq; destruct Hname as [-> | ->]; cbn in Heq; discriminate.
Qed.

Lemma preserves_dirs_cover_loop env cover_path urls :
  preserves dirs (downloader.cover_loop env cover_path urls).
Proof.
  induction urls as [| url urls IH]; cbn [downloader.cover_loop].
  - unfold log. frame.
  - destruct (Py.is_empty url); [exact IH |].
    apply preserves_bind.
    + apply preserves_try.
      * unfold http_get, write_file, log. frame.
      * intros e. unfold log. frame.
    + intros [|]; [frame | exact IH].
Qed.

Lemma preserves_dirs_download_cover env album folder_path :
  preserves dirs (downloader._download_cover env album folder_path).
Proof.
  unfold downloader._download_cover, os_path_exists.
  apply preserves_bind; [frame | intros [|]]; [frame |].
  apply preserves_bind; [frame | intros base_url].
  apply preserves_bind; [frame | intros small].
  apply preserves_dirs_cover_loop.
Qed.

Lemma tmp_path_differs (p : string) : p +:+ ".tmp" <> p.
Proof.
  intros H. apply (f_equal String.length) in H. rewrite string_length_app in H.
  cbn in H. lia.
Qed.

(** X15: a download that returns the triple has delivered the track: the
    final path holds what the tagger made of exactly the bytes the stream
    URL yielded, in the order of arrival; the temporary file is gone; the
    folder of the player metadata exists; and the caption is the audio
    information of the delivered file. *)
Theorem download_track_delivers_tagged_stream env self track_id album folder_opt pbar w w'
    final caption info :
  downloader.download_track env self track_id album folder_opt pbar w
  = (w', inr (downloader.ReturnTriple final caption info)) ->
  exists track album_doc fi filename status content_length chunks cover tagged,
    snd (qobuz_client.get_track env track_id w) = inr track
    /\ match album with Some a => Some a | None => t_album track end = Some album_doc
    /\ snd (qobuz_client.get_file_url env track_id (quality self) w) = inr fi
    /\ destination env self track album folder_opt
       = Some (downloader.pi_folder_path info, filename, final)
    /\ path_exists w final = false
    /\ http_stream env (py_str_opt (fi_url fi))
       = StreamResponse status content_length chunks None
    /\ tag_write env (quality self =? 5) (String.concat "" chunks) track album_doc cover
       = inr tagged
    /\ files w' !! final = Some tagged
    /\ files w' !! (final +:+ ".tmp") = None
    /\ downloader.pi_folder_path info ∈ dirs w'
    /\ snd (metadata_utils.get_audio_info env final w') = inr caption.
Proof.
  intros H.
  pose proof (download_track_success _ _ _ _ _ _ _ _ _ H)
    as (status0 & content0 & track & fi & folder & filename & final0
        & Hhttp & Hst & Hjson & Hfi & Hurl & Hdest & Hr).
  destruct Hr as [Hr | (Hnew & caption0 & artist_name & track_title & cover_path & thumb & Hr)];
    [discriminate |].
  injection Hr as <- <- ->. cbn [downloader.pi_folder_path].
  (* the calls up to the test for the final file *)
  set (w1 := set_sent (sent w ++ [track_get_request (headers (client w)) track_id]) w).
  assert (Htrack : qobuz_client.get_track env track_id w = (w1, inr track)).
  { rewrite get_track_run, Hhttp, Hst, Hjson. reflexivity. }
  assert (Hfi1 : snd (qobuz_client.get_file_url env track_id (quality self) w1) = inr fi).
  { rewrite (get_file_url_result env track_id (quality self) w w1) by reflexivity.
    exact Hfi. }
  destruct (qobuz_client.get_file_url env track_id (quality self) w1) as [w2 [e | fi']] eqn:Hrun;
    cbn [snd] in Hfi1; [discriminate |].
  injection Hfi1 as ->.
  assert (Hw2 : files w2 = files w /\ dirs w2 = dirs w).
  { rewrite get_file_url_run in Hrun. cbv zeta in Hrun. injection Hrun as <- _. auto. }
  destruct Hw2 as [Hfiles2 Hdirs2].
  pose proof Hdest as Hdest0.
  unfold destination in Hdest.
  destruct (match album with Some a => Some a | None => t_album track end)
    as [album_doc |] eqn:Halbum; [| discriminate].
  destruct (al_artist_name album_doc) as [artist_name' |] eqn:Hartist; [| discriminate].
  destruct (al_title album_doc) as [album_title |] eqn:Htitle; [| discriminate].
  destruct (t_track_number track) as [number |] eqn:Hnumber; [| discriminate].
  destruct (title_of track) as [track_title' |] eqn:Htt; [| discriminate].
  cbv zeta in Hdest. injection Hdest as Hfolder Hfilename Hfinal.
  unfold downloader.download_track in H.
  rewrite (bind_run _ _ w w1 (album_doc, track)) in H.
  2: { destruct album as [a |].
       - injection Halbum as ->. rewrite (bind_run _ _ w w1 track Htrack). reflexivity.
       - rewrite (bind_run _ _ w w1 track Htrack). rewrite Halbum. reflexivity. }
  cbv beta iota in H.
  rewrite (bind_run _ _ w1 w2 fi Hrun) in H. cbv zeta in H. rewrite Hurl in H. cbn [negb] in H.
  rewrite Hartist, Htitle, Hnumber in H.
  rewrite (bind_run _ _ w2 w2 artist_name') in H by reflexivity.
  rewrite (bind_run _ _ w2 w2 album_title) in H by reflexivity.
  rewrite Hfolder, Hfilename in Hfinal. rewrite Hfolder in H.
  rewrite (bind_run _ _ w2 (set_dirs ({[folder]} ∪ dirs w2) w2) tt) in H by reflexivity.
  remember (set_dirs ({[folder]} ∪ dirs w2) w2) as w3 eqn:Hw3.
  rewrite (bind_run _ _ w3 w3 number) in H by reflexivity.
  rewrite (bind_run _ _ w3 w3 track_title') in H by (rewrite get_title_run, Htt; reflexivity).
  rewrite Hfilename, Hfinal in H.
  rewrite (bind_run _ _ w3 w3 (path_exists w3 final)) in H by reflexivity.
  destruct (path_exists w3 final) eqn:Hex3.
  { bind_as H wa u Hlog. unfold ret in H. discriminate. }
  bind_as H w4 cover_path' Hcover.
  bind_as H w5 u1 Hstream.
  bind_as H w6 stale Hstale. unfold os_path_exists, gets in Hstale.
  injection Hstale as <- <-.
  bind_as H w7 u2 Hremove.
  bind_as H w8 thumb' Hthumb.
  bind_as H w9 u3 Htag.
  bind_as H w10 caption' Hcaption.
  unfold ret in H. injection H as <- <- _ _ _ _.
  set (tmp := final +:+ ".tmp") in *.
  (* the cover *)
  assert (Hd4 : dirs w4 = dirs w3).
  { pose proof (preserves_dirs_download_cover env album_doc folder w3) as Hp.
    rewrite Hcover in Hp. exact Hp. }
  (* the stream *)
  destruct u1.
  destruct (stream_to_file_returns _ _ _ _ _ _ _ Hstream)
    as (status & content_length & chunks & Hnet & Hf5 & Hd5).
  (* the stale thumbnail *)
  assert (H7 : files w7 !! tmp = files w5 !! tmp /\ dirs w7 = dirs w5).
  { destruct (path_exists w5 (Py.os_path_join folder "thumb.jpg")).
    - unfold try_except in Hremove.
      destruct (files w5 !! Py.os_path_join folder "thumb.jpg") as [old |] eqn:Hold.
      + rewrite (os_remove_run _ _ _ Hold) in Hremove. injection Hremove as <-.
        split; [| reflexivity].
        change (delete (Py.os_path_join folder "thumb.jpg") (files w5) !! tmp
                = files w5 !! tmp).
        apply lookup_delete_ne. apply join_jpg_not_tmp. auto.
      + rewrite (os_remove_fails _ _ Hold) in Hremove. injection Hremove as <-. auto.
    - unfold ret in Hremove. injection Hremove as <-. auto. }
  destruct H7 as [Hf7 Hd7].
  (* the new thumbnail *)
  assert (H8 : files w8 !! tmp = files w7 !! tmp /\ dirs w8 = dirs w7).
  { pose proof (create_thumbnail_keeps_other_files env cover_path' tmp w7) as Hkeep.
    pose proof (preserves_dirs_create_thumbnail env cover_path' w7) as Hdirs.
    unfold try_except in Hthumb.
    destruct (metadata_utils.create_thumbnail env cover_path' w7) as [w8' [e | t]];
      cbn [fst] in Hkeep, Hdirs.
    - unfold log, modify, bind, ret in Hthumb. injection Hthumb as <- _. cbn.
      split; [| exact Hdirs]. apply Hkeep. intros p. apply not_eq_sym, join_jpg_not_tmp. auto.
    - injection Hthumb as <- _.
      split; [| exact Hdirs]. apply Hkeep. intros p. apply not_eq_sym, join_jpg_not_tmp. auto. }
  destruct H8 as [Hf8 Hd8].
  (* tagging *)
  assert (Htag' : metadata_utils.tag_file env (quality self =? 5) tmp final track album_doc
                    cover_path' w8 = (w9, inr u3)).
  { destruct (quality self =? 5); exact Htag. }
  destruct u3.
  destruct (tag_file_returns _ _ _ _ _ _ _ _ _ Htag' (tmp_path_differs final))
    as (audio & cover & tagged & Haudio & Htagged & Hf9 & Hd9 & _).
  assert (Ha : audio = String.concat "" chunks).
  { rewrite Hf8, Hf7, Hf5, lookup_insert_eq in Haudio. congruence. }
  subst audio.
  (* the caption *)
  pose proof (preserves_files_get_audio_info env final w9) as Hf10.
  pose proof (preserves_dirs_get_audio_info env final w9) as Hd10.
  rewrite Hcaption in Hf10, Hd10. cbn [fst] in Hf10, Hd10.
  exists track, album_doc, fi, filename, status, content_length, chunks, cover, tagged.
  split; [rewrite Htrack; reflexivity |].
  split; [exact Halbum |].
  split; [exact Hfi |].
  split; [exact Hdest0 |].
  split; [exact Hnew |].
  split; [exact Hnet |].
  split; [exact Htagged |].
  rewrite Hf10, Hf9.
  split; [apply lookup_insert_eq |].
  split.
  { rewrite lookup_insert_ne by (apply not_eq_sym, tmp_path_differs). apply lookup_delete_eq. }
  split.
  { rewrite Hd10, Hd9, Hd8, Hd7, Hd5, Hd4, Hw3. cbn.
    apply elem_of_union. left. apply elem_of_singleton. reflexivity. }
  rewrite (get_audio_info_result env final w10 w9) by (rewrite Hf10; reflexivity).
  rewrite Hcaption. reflexivity.
Qed.

Lemma download_track_delivers_tagged_stream_witness :
  let w' := fst (downloader.download_track Sample.env Sample.self (PyInt 1) None None false
                   Sample.fresh) in
  exists track album_doc fi filename status content_length chunks cover tagged,
    snd (qobuz_client.get_track Sample.env (PyInt 1) Sample.fresh) = inr track
    /\ match @None album_data with Some a => Some a | None => t_album track end = Some album_doc
    /\ snd (qobuz_client.get_file_url Sample.env (PyInt 1) (quality Sample.self) Sample.fresh)
       = inr fi
    /\ destination Sample.env Sample.self track None None
       = Some ("./downloads/Artist - Album (2020)", filename,
               "./downloads/Artist - Album (2020)/01. One.flac")
    /\ path_exists Sample.fresh "./downloads/Artist - Album (2020)/01. One.flac" = false
    /\ http_stream Sample.env (py_str_opt (fi_url fi))
       = StreamResponse status content_length chunks None
    /\ tag_write Sample.env (quality Sample.self =? 5) (String.concat "" chunks) track
         album_doc cover
       = inr tagged
    /\ files w' !! "./downloads/Artist - Album (2020)/01. One.flac" = Some tagged
    /\ files w' !! ("./downloads/Artist - Album (2020)/01. One.flac" +:+ ".tmp") = None
    /\ "./downloads/Artist - Album (2020)" ∈ dirs w'
    /\ snd (metadata_utils.get_audio_info Sample.env
              "./downloads/Artist - Album (2020)/01. One.flac" w')
       = inr "FLAC Hi-Res 24-Bit / 44.1 kHz / 1411 kbps".
Proof.
  cbv zeta.
  apply (download_track_delivers_tagged_stream Sample.env Sample.self (PyInt 1) None None
           false Sample.fresh
           (fst (downloader.download_track Sample.env Sample.self (PyInt 1) None None false
                   Sample.fresh))
           "./downloads/Artist - Album (2020)/01. One.flac"
           "FLAC Hi-Res 24-Bit / 44.1 kHz / 1411 kbps"
           {| downloader.pi_title := "One"; downloader.pi_performer := "Artist";
              downloader.pi_duration := Some 180;
              downloader.pi_cover := Some "./downloads/Artist - Album (2020)/cover.jpg";
              downloader.pi_thumbnail := Some "./downloads/Artist - Album (2020)/thumb.jpg";
              downloader.pi_folder_path := "./downloads/Artist - Album (2020)" |}).
  vm_compute. reflexivity.
Defined.

(** X16: without a cached cover, [_download_cover] reads the album's
    [image] entry before anything else: an album document without the
    large or the small image URL makes it raise a [KeyError] with no
    request sent; the error names [image] when the document
    has no such entry, and otherwise [large] or, the large URL being
    there, [small].  With [cover.jpg] already in the folder the album
    document is not looked at at all. *)
Theorem download_cover_needs_image_entries env album folder_path w :
  let cover_path := Py.os_path_join folder_path "cover.jpg" in
  (path_exists w cover_path = true ->
   downloader._download_cover env album folder_path w = (w, inr (Some cover_path)))
  /\ (path_exists w cover_path = false ->
      al_image_large album = None \/ al_image_small album = None ->
      exists key, downloader._download_cover env album folder_path w = (w, inl (KeyError key)))
  /\ (path_exists w cover_path = false ->
      (al_image_large album = None ->
       downloader._download_cover env album folder_path w
       = (w, inl (KeyError (if al_image album then "large" else "image"))))
      /\ (forall large,
            al_image_large album = Some large ->
            al_image_small album = None ->
            downloader._download_cover env album folder_path w
            = (w, inl (KeyError (if al_image album then "small" else "image"))))).
Proof.
  intros cover_path. unfold downloader._download_cover, downloader.image_entry.
  fold cover_path.
  rewrite (bind_run _ _ w w (path_exists w cover_path)) by reflexivity.
  split; [| split]; intros Hex; rewrite Hex; [reflexivity | |].
  - intros [Hl | Hs].
    + rewrite Hl. eexists. reflexivity.
    + rewrite Hs. destruct (al_image_large album); eexists; reflexivity.
  - split.
    + intros Hl. rewrite Hl. reflexivity.
    + intros large Hl Hs. rewrite Hl, Hs. reflexivity.
Qed.

Lemma download_cover_needs_image_entries_witness :
  exists key,
    downloader._download_cover Sample.env
      {| al_artist_name := Some "Artist"; al_title := Some "Album";
         al_release_date_original := None; al_image := true;
         al_image_large := None; al_image_small := None;
         al_tracks_items := None; al_copyright := None |}
      "./downloads/Artist - Album ()" Sample.fresh
    = (Sample.fresh, inl (KeyError key)).
Proof.
  apply (proj1 (proj2 (download_cover_needs_image_entries Sample.env
                  {| al_artist_name := Some "Artist"; al_title := Some "Album";
                     al_release_date_original := None; al_image := true;
                     al_image_large := None; al_image_small := None;
                     al_tracks_items := None; al_copyright := None |}
                  "./downloads/Artist - Album ()" Sample.fresh))).
  - vm_compute. reflexivity.
  - left. reflexivity.
Defined.

(** ** downloader: where an album's results lie *)

Lemma slash_free_relative name :
  slash_free name = true -> Py.startswith "/" name = false.
Proof.
  destruct name as [| c name]; [reflexivity |].
  unfold slash_free, Py.startswith. cbn [list_ascii_of_string List.forallb String.prefix].
  intros H. apply andb_prop in H. destruct H as [Hc _]. apply negb_true_iff in Hc.
  destruct (ascii_dec "/" c) as [<- | _]; [discriminate Hc | reflexivity].
Qed.

Lemma strip_slashes_slash_free s : slash_free (Sample.strip_slashes s) = true.
Proof.
  unfold slash_free. induction s as [| c s IH]; [reflexivity |].
  cbn [Sample.strip_slashes]. destruct (Ascii.eqb c "/") eqn:Ec; [exact IH |].
  cbn [list_ascii_of_string List.forallb]. rewrite Ec. exact IH.
Qed.

Lemma album_track_file_cons env self folder track tracks path :
  album_track_file env self folder tracks path ->
  album_track_file env self folder (track :: tracks) path.
Proof.
  intros (item & id & hdrs & status & content & doc & number & title & Hin & H).
  exists item, id, hdrs, status, content, doc, number, title.
  split; [right; exact Hin | exact H].
Qed.

Lemma album_loop_results env self album folder_path pbar artist_name album_title tracks :
  al_artist_name album = Some artist_name ->
  al_title album = Some album_title ->
  folder_path
  = downloader.album_folder env self artist_name album_title
      (Py.split_first "-" (default "" (al_release_date_original album))) ->
  forall acc w w' results,
    downloader.album_loop env self album folder_path pbar tracks acc w = (w', inr results) ->
    exists new,
      results = (acc ++ new)%list
      /\ (List.length new <= List.length tracks)%nat
      /\ Forall (fun r => album_track_file env self folder_path tracks
                            (downloader.result_path r)) new.
Proof.
  intros Hartist Htitle Hfolder.
  induction tracks as [| track tracks IH]; intros acc w w' results H.
  - cbn in H. unfold ret in H. injection H as _ <-. exists []. rewrite app_nil_r.
    split; [reflexivity |]. split; [reflexivity | constructor].
  - cbn [downloader.album_loop] in H. bind_as H w1 acc1 Hturn.
    destruct (IH _ _ _ _ H) as (new & -> & Hlen & Hall).
    assert (Hall' : Forall (fun r => album_track_file env self folder_path (track :: tracks)
                                       (downloader.result_path r)) new).
    { apply (List.Forall_impl _ (fun r => album_track_file_cons _ _ _ track _ _) Hall). }
    unfold try_except in Hturn.
    destruct ((let! id := item "id" (ti_id track) in
               let! result := downloader.download_track env self id (Some album)
                                (Some folder_path) pbar in
               ret (acc ++ [result])%list) w) as [w0 [e | acc0]] eqn:Hbody.
    + (* the attempt raised: the accumulator is kept *)
      bind_as Hturn w2 title Ht. apply item_success in Ht. destruct Ht as [_ ->].
      unfold log, modify, bind, ret in Hturn. injection Hturn as _ <-.
      exists new. split; [reflexivity |]. split; [cbn; lia | exact Hall'].
    + injection Hturn as _ <-.
      bind_as Hbody w2 id Hid. apply item_success in Hid. destruct Hid as [Hid ->].
      bind_as Hbody w3 result Hdl. unfold ret in Hbody. injection Hbody as _ <-.
      exists (result :: new). split; [rewrite <- app_assoc; reflexivity |].
      split; [cbn; lia |]. constructor; [| exact Hall'].
      destruct (download_track_result_path _ _ _ _ _ _ _ _ _ Hdl)
        as (status & content & track_doc & folder & filename & Hhttp & _ & Hjson & Hdest).
      unfold destination in Hdest. rewrite Hartist, Htitle in Hdest.
      destruct (t_track_number track_doc) as [number |] eqn:Hnumber; [| discriminate].
      destruct (title_of track_doc) as [title |] eqn:Htitle_of; [| discriminate].
      cbv zeta in Hdest. injection Hdest as Hfolder' Hfilename Hpath.
      exists track, id, (headers (client w)), status, content, track_doc, number, title.
      split; [left; reflexivity |]. split; [exact Hid |]. split; [exact Hhttp |].
      split; [exact Hjson |]. split; [exact Hnumber |]. split; [exact Htitle_of |].
      rewrite <- Hpath. f_equal.
      cbn [truthy py_str_opt]. destruct (Py.is_empty folder_path); cbn [negb];
        [symmetry; exact Hfolder | reflexivity].
Qed.

(** X17: everything [download_album] returns is a track of the album in
    the album's own folder.  The folder is computed once from the album
    document, [<download root>/<sanitized "artist - title (year)">] (the
    year being the release date up to its first hyphen, empty when the
    document has none); each result's path is that folder joined with the
    sanitized file name [<number>. <title><extension>] of the document
    served for one of the album's track ids; there are never more results
    than tracks.  When sanitized names hold no slash, each path is the
    folder, a separating slash (unless the folder is empty or ends in
    one) and a name without a slash, so every file lies directly in the
    album's folder. *)
Theorem download_album_results_in_album_folder env self album_id pbar w w' results :
  downloader.download_album env self album_id pbar w = (w', inr results) ->
  exists album tracks artist_name album_title,
    snd (qobuz_client.get_album env album_id w) = inr album
    /\ al_tracks_items album = Some tracks
    /\ al_artist_name album = Some artist_name
    /\ al_title album = Some album_title
    /\ (List.length results <= List.length tracks)%nat
    /\ let folder :=
         Py.os_path_join (base_path self)
           (sanitize_filename env
              (artist_name +:+ " - " +:+ album_title +:+ " ("
               +:+ Py.split_first "-" (default "" (al_release_date_original album))
               +:+ ")")) in
       Forall (fun r => album_track_file env self folder tracks (downloader.result_path r))
         results
       /\ ((forall s, slash_free (sanitize_filename env s) = true) ->
           Forall (fun r => exists name,
                     slash_free name = true
                     /\ downloader.result_path r
                        = if Py.is_empty folder || Py.endswith "/" folder
                          then folder +:+ name
                          else folder +:+ "/" +:+ name) results).
Proof.
  intros H. unfold downloader.download_album in H.
  bind_as H w1 album Halbum.
  bind_as H w2 tracks Htracks. apply item_success in Htracks. destruct Htracks as [Htracks ->].
  bind_as H w2 artist_name Hartist. apply item_success in Hartist.
  destruct Hartist as [Hartist ->].
  bind_as H w2 album_title Htitle. apply item_success in Htitle. destruct Htitle as [Htitle ->].
  cbv zeta in H.
  destruct (album_loop_results env self album _ pbar artist_name album_title tracks
              Hartist Htitle eq_refl _ _ _ _ H) as (new & -> & Hlen & Hall).
  exists album, tracks, artist_name, album_title.
  split; [rewrite Halbum; reflexivity |].
  split; [exact Htracks |]. split; [exact Hartist |]. split; [exact Htitle |].
  split; [exact Hlen |]. cbv zeta. split; [exact Hall |].
  intros Hsane. revert Hall. apply List.Forall_impl.
  intros r (item & id & hdrs & status & content & doc & number & title & _ & _ & _ & _ & _ & _
            & Hpath).
  exists (sanitize_filename env
            (Py.format_02 number +:+ ". " +:+ title
             +:+ (if quality self =? 5 then ".mp3" else ".flac"))).
  split; [apply Hsane |]. rewrite Hpath. unfold Py.os_path_join at 1.
  rewrite slash_free_relative by apply Hsane. reflexivity.
Qed.

Lemma download_album_results_in_album_folder_witness :
  Forall (fun r => exists name,
            slash_free name = true
            /\ downloader.result_path r = "./downloads/Artist - Album (2020)/" +:+ name)
    (match snd (downloader.download_album Sample.env_sanitizing Sample.self (PyStr "album-1")
                  false Sample.fresh) with
     | inr results => results
     | inl _ => []
     end)
  /\ List.map downloader.result_path
       (match snd (downloader.download_album Sample.env_sanitizing Sample.self
                     (PyStr "album-1") false Sample.fresh) with
        | inr results => results
        | inl _ => []
        end)
     = [ "./downloads/Artist - Album (2020)/01. One.flac";
         "./downloads/Artist - Album (2020)/03. Three.flac" ].
Proof.
  split; [| vm_compute; reflexivity].
  destruct (download_album_results_in_album_folder Sample.env_sanitizing Sample.self
              (PyStr "album-1") false Sample.fresh
              (fst (downloader.download_album Sample.env_sanitizing Sample.self
                      (PyStr "album-1") false Sample.fresh))
              _ ltac:(vm_compute; reflexivity))
    as (album & tracks & artist_name & album_title & Halbum & _ & Hartist & Htitle
        & _ & Hall).
  cbv zeta in Hall. destruct Hall as [_ Hall].
  specialize (Hall strip_slashes_slash_free).
  vm_compute in Halbum. injection Halbum as <-.
  vm_compute in Hartist. injection Hartist as <-.
  vm_compute in Htitle. injection Htitle as <-.
  vm_compute in Hall. vm_compute. exact Hall.
Defined.

(** ** main: the user settings *)

Lemma int_of_string_str z :
  NilZero.int_of_string (Py.str_of_Z z) = Some (Z.to_int z).
Proof.
  unfold Py.str_of_Z. apply NilZero.isi.
  - destruct z as [| p | p]; cbn; try discriminate.
    intros [= Hp]. apply (DecimalPos.Unsigned.to_uint_nonnil p). exact Hp.
  - destruct z as [| p | p]; cbn; try discriminate.
    intros [= Hp]. apply (DecimalPos.Unsigned.to_uint_nonnil p). exact Hp.
Qed.

Lemma str_of_Z_inj z1 z2 : Py.str_of_Z z1 = Py.str_of_Z z2 -> z1 = z2.
Proof.
  intros H. apply DecimalZ.to_int_inj.
  pose proof (int_of_string_str z1) as H1. rewrite H, int_of_string_str in H1. congruence.
Qed.

Lemma sample_int_str z : Sample.int (Py.str_of_Z z) = Some z.
Proof.
  unfold Sample.int. rewrite int_of_string_str. cbn [option_map].
  rewrite DecimalZ.of_to. reflexivity.
Qed.

Lemma get_set_entry key key' fallback self user_id value other :
  main.get_entry key' fallback (main.set_entry key self user_id value) other
  = if bool_decide (other = user_id) && String.eqb key key' then value
    else main.get_entry key' fallback self other.
Proof.
  unfold main.get_entry, main.set_entry. cbv zeta. cbn [main.settings].
  destruct (bool_decide (other = user_id)) eqn:Euser; cbn [andb].
  - apply bool_decide_eq_true in Euser. subst other. rewrite lookup_insert_eq.
    change (default ?d (Some ?x)) with x.
    destruct (String.eqb key key') eqn:Ekey.
    + apply String.eqb_eq in Ekey. subst key'. rewrite lookup_insert_eq. reflexivity.
    + apply String.eqb_neq in Ekey. rewrite lookup_insert_ne by exact Ekey.
      case_bool_decide as Hold.
      * reflexivity.
      * rewrite lookup_insert_eq.
        destruct (main.settings self !! Py.str_of_Z user_id) eqn:El; [| reflexivity].
        exfalso. apply Hold. eauto.
  - apply bool_decide_eq_false in Euser.
    assert (Hne : Py.str_of_Z user_id <> Py.str_of_Z other).
    { intros H. apply Euser. symmetry. apply str_of_Z_inj. exact H. }
    rewrite lookup_insert_ne by exact Hne.
    case_bool_decide as Hold; [reflexivity |].
    rewrite lookup_insert_ne by exact Hne. reflexivity.
Qed.

(** X18: the user settings behave as a table with fall-backs.  After
    [set_quality] the same user's [get_quality] gives the stored value,
    and after [set_lang] the same user's [get_lang]; a setter changes
    neither the other entry of that user nor anything of another user; a
    user without an entry gets the configured default quality and the
    language [ru]. *)
Theorem user_settings_get_after_set QUALITY self user_id value disk :
  let after_quality := fst (main.set_quality self user_id value disk) in
  let after_lang := fst (main.set_lang self user_id value disk) in
  main.get_quality QUALITY after_quality user_id = value
  /\ main.get_lang after_quality user_id = main.get_lang self user_id
  /\ main.get_lang after_lang user_id = value
  /\ main.get_quality QUALITY after_lang user_id = main.get_quality QUALITY self user_id
  /\ (forall other,
        other <> user_id ->
        main.get_quality QUALITY after_quality other = main.get_quality QUALITY self other
        /\ main.get_lang after_quality other = main.get_lang self other
        /\ main.get_quality QUALITY after_lang other = main.get_quality QUALITY self other
        /\ main.get_lang after_lang other = main.get_lang self other)
  /\ (main.settings self !! Py.str_of_Z user_id = None ->
      main.get_quality QUALITY self user_id = PyInt QUALITY
      /\ main.get_lang self user_id = PyStr "ru").
Proof.
  cbv zeta. unfold main.set_quality, main.set_lang, main.get_quality, main.get_lang.
  cbn [fst]. rewrite !get_set_entry.
  rewrite (bool_decide_eq_true_2 (user_id = user_id)) by reflexivity. cbn.
  repeat (split; [reflexivity |]). split.
  - intros other Hother. rewrite !get_set_entry.
    rewrite (bool_decide_eq_false_2 (other = user_id)) by exact Hother. cbn. auto.
  - intros Hnone. unfold main.get_entry. rewrite Hnone. split; reflexivity.
Qed.

(** X19: every change of a setting is on disk when the setter returns.
    After [set_quality] and after [set_lang], a [UserSettings] object
    constructed from the same path holds exactly the settings of the
    object that was changed, and no other file is written.  Constructed
    from a path at which there is no file the object is empty, and from a
    file that does not hold JSON the construction raises. *)
Theorem user_settings_survive_restart self user_id value disk :
  (forall set, set = main.set_quality \/ set = main.set_lang ->
     main.__init__ (main.file_path self) (snd (set self user_id value disk))
     = inr (fst (set self user_id value disk))
     /\ main.file_path (fst (set self user_id value disk)) = main.file_path self
     /\ (forall p, p <> main.file_path self ->
           snd (set self user_id value disk) !! p = disk !! p))
  /\ (forall p, disk !! p = None ->
        main.__init__ p disk = inr {| main.file_path := p; main.settings := ∅ |})
  /\ (forall p, disk !! p = Some None -> main.__init__ p disk = inl JSONDecodeError).
Proof.
  split; [| split].
  - assert (Hkey : forall key,
               let self' := main.set_entry key self user_id value in
               main.__init__ (main.file_path self) (main._save self' disk) = inr self'
               /\ main.file_path self' = main.file_path self
               /\ (forall p, p <> main.file_path self ->
                     main._save self' disk !! p = disk !! p)).
    { intros key. cbv zeta. split; [| split].
      - unfold main.__init__, main._load, main._save, main.set_entry. cbn [main.file_path].
        rewrite lookup_insert_eq. reflexivity.
      - reflexivity.
      - intros p Hp. unfold main._save, main.set_entry. cbn [main.file_path].
        apply lookup_insert_ne. congruence. }
    intros set [-> | ->]; [exact (Hkey "quality") | exact (Hkey "lang")].
  - intros p Hp. unfold main.__init__, main._load. rewrite Hp. reflexivity.
  - intros p Hp. unfold main.__init__, main._load. rewrite Hp. reflexivity.
Qed.

(** ** main: the callback data *)

Lemma decimal_char_plain c :
  is_decimal_char c = true ->
  (nat_of_ascii c <? 128)%nat && negb (Ascii.eqb c ":") = true.
Proof.
  unfold is_decimal_char. cbn [List.existsb]. intros H.
  repeat (apply orb_prop in H;
          destruct H as [H | H]; [apply Ascii.eqb_eq in H; subst c; reflexivity |]).
  discriminate H.
Qed.

Lemma string_of_uint_decimal d :
  List.forallb is_decimal_char (list_ascii_of_string (NilEmpty.string_of_uint d)) = true.
Proof. induction d; cbn; try reflexivity; exact IHd. Qed.

Lemma str_of_Z_decimal z :
  List.forallb is_decimal_char (list_ascii_of_string (Py.str_of_Z z)) = true.
Proof.
  unfold Py.str_of_Z, NilZero.string_of_int, NilZero.string_of_uint.
  destruct (Z.to_int z) as [d | d].
  - destruct d; try reflexivity; apply (string_of_uint_decimal (_ d)).
  - change (List.forallb is_decimal_char
              (list_ascii_of_string
                 match d with
                 | Decimal.Nil => "0"
                 | _ => NilEmpty.string_of_uint d
                 end) = true).
    destruct d; try reflexivity; apply (string_of_uint_decimal (_ d)).
Qed.

Lemma str_of_Z_head z :
  exists c rest, Py.str_of_Z z = String c rest /\ is_decimal_char c = true.
Proof.
  pose proof (str_of_Z_decimal z) as H.
  destruct (Py.str_of_Z z) as [| c rest] eqn:E.
  - exfalso. pose proof (int_of_string_str z) as Hi. rewrite E in Hi. discriminate Hi.
  - exists c, rest. split; [reflexivity |].
    cbn in H. apply andb_prop in H. exact (proj1 H).
Qed.

Lemma plain_id_cons c s :
  plain_id (String c s)
  = (nat_of_ascii c <? 128)%nat && negb (Ascii.eqb c ":") && plain_id s.
Proof. reflexivity. Qed.

Lemma str_of_Z_plain z : plain_id (Py.str_of_Z z) = true.
Proof.
  pose proof (str_of_Z_decimal z) as H. unfold plain_id.
  induction (list_ascii_of_string (Py.str_of_Z z)) as [| c l IH]; [reflexivity |].
  cbn [List.forallb] in *. apply andb_prop in H. destruct H as [Hc Hl].
  rewrite (decimal_char_plain c Hc). exact (IH Hl).
Qed.

Lemma plain_id_colon_free s : plain_id s = true -> colon_free s = true.
Proof.
  unfold plain_id, colon_free.
  induction (list_ascii_of_string s) as [| c l IH]; [reflexivity |].
  cbn [List.forallb]. intros H. apply andb_prop in H. destruct H as [Hc Hl].
  apply andb_prop in Hc. rewrite (proj2 Hc). exact (IH Hl).
Qed.

Lemma ascii_not_continuation c :
  (nat_of_ascii c <? 128)%nat = true -> Py.is_continuation c = false.
Proof.
  unfold Py.is_continuation. cbv zeta. intros H. apply Nat.ltb_lt in H.
  apply andb_false_intro1. apply Nat.leb_gt. exact H.
Qed.

(** *** [s[:n]] *)

Lemma take_plain_app a : forall n s,
  plain_id a = true ->
  (String.length a <= n)%nat ->
  Py.take n (a +:+ s) = a +:+ Py.take (n - String.length a) s.
Proof.
  induction a as [| c a IH]; intros n s Ha Hn.
  - change ("" +:+ s) with s. cbn [String.length]. rewrite Nat.sub_0_r. reflexivity.
  - change (String c a +:+ s) with (String c (a +:+ s)).
    rewrite plain_id_cons in Ha. apply andb_prop in Ha. destruct Ha as [Hc Ha].
    apply andb_prop in Hc. destruct Hc as [Hc _].
    cbn [String.length] in Hn. destruct n as [| n]; [lia |].
    cbn [Py.take String.length]. rewrite (ascii_not_continuation c Hc).
    rewrite (IH n s Ha) by lia.
    change (String c a +:+ Py.take (S n - S (String.length a)) s)
      with (String c (a +:+ Py.take (S n - S (String.length a)) s)).
    reflexivity.
Qed.

Lemma take_short s : forall n, (Py.len s <= n)%nat -> Py.take n s = s.
Proof.
  induction s as [| c s IH]; intros n Hn; [reflexivity |].
  cbn [Py.take Py.len] in *. destruct (Py.is_continuation c).
  - rewrite (IH n Hn). reflexivity.
  - destruct n as [| n]; [lia |]. rewrite (IH n) by lia. reflexivity.
Qed.

Lemma take_is_prefix s : forall n, exists t, s = Py.take n s +:+ t.
Proof.
  induction s as [| c s IH]; intros n.
  - exists "". reflexivity.
  - cbn [Py.take]. destruct (Py.is_continuation c).
    + destruct (IH n) as [t Ht]. exists t.
      change (String c s = String c (Py.take n s +:+ t)). f_equal. exact Ht.
    + destruct n as [| n].
      * exists (String c s). reflexivity.
      * destruct (IH n) as [t Ht]. exists t.
        change (String c s = String c (Py.take n s +:+ t)). f_equal. exact Ht.
Qed.

(** *** [s.split(":")] and [":".join] *)

Lemma colon_free_cons c s :
  colon_free (String c s) = negb (Ascii.eqb c ":") && colon_free s.
Proof. reflexivity. Qed.

Lemma split_from_colon_free a : forall piece,
  colon_free a = true -> Py.split_from ":" a piece = [piece +:+ a].
Proof.
  induction a as [| c a IH]; intros piece Ha.
  - cbn [Py.split_from]. rewrite string_app_nil_r. reflexivity.
  - rewrite colon_free_cons in Ha. apply andb_prop in Ha. destruct Ha as [Hc Ha].
    cbn [Py.split_from]. apply negb_true_iff in Hc. rewrite Hc.
    rewrite (IH _ Ha), string_app_assoc. reflexivity.
Qed.

Lemma split_from_app a : forall piece r,
  colon_free a = true ->
  Py.split_from ":" (a +:+ String ":" r) piece = (piece +:+ a) :: Py.split_from ":" r "".
Proof.
  induction a as [| c a IH]; intros piece r Ha.
  - change ("" +:+ String ":" r) with (String ":" r). cbn [Py.split_from].
    rewrite Ascii.eqb_refl, string_app_nil_r. reflexivity.
  - rewrite colon_free_cons in Ha. apply andb_prop in Ha. destruct Ha as [Hc Ha].
    change (String c a +:+ String ":" r) with (String c (a +:+ String ":" r)).
    cbn [Py.split_from]. apply negb_true_iff in Hc. rewrite Hc.
    rewrite (IH _ r Ha), string_app_assoc. reflexivity.
Qed.

Lemma split_app a r :
  colon_free a = true ->
  Py.split ":" (a +:+ String ":" r) = a :: Py.split ":" r.
Proof. intros Ha. unfold Py.split. rewrite (split_from_app a "" r Ha). reflexivity. Qed.

Lemma split_colon_free a : colon_free a = true -> Py.split ":" a = [a].
Proof. intros Ha. unfold Py.split. rewrite (split_from_colon_free a "" Ha). reflexivity. Qed.

Lemma split_from_not_nil s : forall piece, Py.split_from ":" s piece <> [].
Proof.
  induction s as [| c s IH]; intros piece; cbn [Py.split_from]; [discriminate |].
  destruct (Ascii.eqb c ":"); [discriminate | apply IH].
Qed.

Lemma join_split_from s : forall piece,
  Py.join ":" (Py.split_from ":" s piece) = piece +:+ s.
Proof.
  unfold Py.join. induction s as [| c s IH]; intros piece.
  - cbn [Py.split_from String.concat]. rewrite string_app_nil_r. reflexivity.
  - cbn [Py.split_from]. destruct (Ascii.eqb_spec c ":") as [-> | Hc].
    + specialize (IH ""). change ("" +:+ s) with s in IH.
      destruct (Py.split_from ":" s "") as [| x l] eqn:E;
        [exfalso; exact (split_from_not_nil s "" E) |].
      cbn [String.concat]. cbn [String.concat] in IH. rewrite IH. reflexivity.
    + rewrite IH, string_app_assoc. reflexivity.
Qed.

Lemma join_split s : Py.join ":" (Py.split ":" s) = s.
Proof. exact (join_split_from s ""). Qed.

Lemma split_from_single d : forall piece x,
  Py.split_from ":" d piece = [x] -> colon_free d = true.
Proof.
  induction d as [| y d IHd]; intros piece x Hone; [reflexivity |].
  rewrite colon_free_cons. cbn [Py.split_from] in Hone.
  destruct (Ascii.eqb y ":") eqn:Ey.
  - exfalso. injection Hone as _ Hone. exact (split_from_not_nil d "" Hone).
  - cbn [negb andb]. exact (IHd _ _ Hone).
Qed.

Lemma split_from_piece d : forall piece p0 l,
  Py.split_from ":" d "" = p0 :: l ->
  Py.split_from ":" d piece = (piece +:+ p0) :: l.
Proof.
  induction d as [| y d IHd]; intros piece p0 l Hd.
  - cbn [Py.split_from] in *. injection Hd as <- <-. rewrite string_app_nil_r. reflexivity.
  - cbn [Py.split_from] in *. destruct (Ascii.eqb y ":").
    + injection Hd as <- <-. rewrite string_app_nil_r. reflexivity.
    + destruct (Py.split_from ":" d "") as [| q0 l0] eqn:E;
        [exfalso; exact (split_from_not_nil d "" E) |].
      rewrite (IHd _ q0 l0 eq_refl) in Hd. injection Hd as <- <-.
      rewrite (IHd _ q0 l0 eq_refl), string_app_assoc. reflexivity.
Qed.

(** A prefix of [a:r], where [a] has no colon, is a prefix of [a] or
    [a:] and a prefix of [r]. *)
Lemma split_of_prefix a : forall d t r,
  colon_free a = true ->
  d +:+ t = a +:+ String ":" r ->
  Py.split ":" d = [d]
  \/ exists d', Py.split ":" d = a :: Py.split ":" d' /\ d' +:+ t = r.
Proof.
  induction a as [| c a IH]; intros d t r Ha H.
  - change ("" +:+ String ":" r) with (String ":" r) in H.
    destruct d as [| x d].
    + left. reflexivity.
    + change (String x d +:+ t) with (String x (d +:+ t)) in H.
      injection H as -> H. right. exists d. split; [| exact H].
      exact (split_app "" d eq_refl).
  - rewrite colon_free_cons in Ha. apply andb_prop in Ha. destruct Ha as [Hc Ha].
    change (String c a +:+ String ":" r) with (String c (a +:+ String ":" r)) in H.
    destruct d as [| x d].
    + left. reflexivity.
    + change (String x d +:+ t) with (String x (d +:+ t)) in H.
      injection H as -> H. apply negb_true_iff in Hc.
      destruct (IH d t r Ha H) as [Hone | (d' & Hsplit & Hrest)].
      * left. unfold Py.split in *. cbn [Py.split_from]. rewrite Hc.
        rewrite (split_from_colon_free d _ (split_from_single d _ _ Hone)), string_app_assoc.
        reflexivity.
      * right. exists d'. split; [| exact Hrest].
        unfold Py.split in *. cbn [Py.split_from]. rewrite Hc.
        rewrite (split_from_piece d _ a (Py.split_from ":" d' "") Hsplit). reflexivity.
Qed.

(** *** The data of a button, cut at 64 characters *)

Lemma take_field a n s :
  plain_id a = true ->
  (String.length a < n)%nat ->
  Py.take n (a +:+ String ":" s) = a +:+ String ":" (Py.take (n - String.length a - 1) s).
Proof.
  intros Ha Hn. rewrite (take_plain_app a n _ Ha) by lia.
  destruct (n - String.length a)%nat as [| k] eqn:E; [lia |].
  cbn [Py.take]. change (Py.is_continuation ":") with false. cbv iota.
  replace (S k - 1)%nat with k by lia. reflexivity.
Qed.

(** A button [tag:a:b:s], cut at 64 characters, keeps its three fields
    when they fit, and a prefix of [s]. *)
Lemma button_fields tag a b s :
  plain_id tag = true -> plain_id a = true -> plain_id b = true ->
  (String.length tag + String.length a + String.length b + 3 <= 64)%nat ->
  let k := (61 - String.length tag - String.length a - String.length b)%nat in
  Py.take 64 (tag +:+ String ":" (a +:+ String ":" (b +:+ String ":" s)))
  = tag +:+ String ":" (a +:+ String ":" (b +:+ String ":" (Py.take k s)))
  /\ Py.split ":" (Py.take 64 (tag +:+ String ":" (a +:+ String ":" (b +:+ String ":" s))))
     = tag :: a :: b :: Py.split ":" (Py.take k s).
Proof.
  intros Htag Ha Hb Hlen k.
  assert (Htake : Py.take 64 (tag +:+ String ":" (a +:+ String ":" (b +:+ String ":" s)))
                  = tag +:+ String ":" (a +:+ String ":" (b +:+ String ":" (Py.take k s)))).
  { rewrite (take_field tag 64 _ Htag) by lia.
    rewrite (take_field a _ _ Ha) by lia.
    rewrite (take_field b _ _ Hb) by lia.
    replace (64 - String.length tag - 1 - String.length a - 1 - String.length b - 1)%nat
      with k by (unfold k; lia).
    reflexivity. }
  split; [exact Htake |].
  rewrite Htake.
  rewrite (split_app tag _ (plain_id_colon_free tag Htag)).
  rewrite (split_app a _ (plain_id_colon_free a Ha)).
  rewrite (split_app b _ (plain_id_colon_free b Hb)).
  reflexivity.
Qed.

(** X20: the button to a page of search results leads back to that search.
    Its data [f"sp:{offset}:{query}"[:64]] is dispatched to
    [cb_search_page], and [cb_search_page] reads from it the offset and the
    first [60 - len(str(offset))] characters of the query, colons
    included: the whole query when it is no longer than that. *)
Theorem search_page_button_round_trip (int : string -> option Z) offset query :
  (forall z, int (Py.str_of_Z z) = Some z) ->
  (String.length (Py.str_of_Z offset) <= 60)%nat ->
  main.dispatch (main.search_page_button offset query) = Some main.CbSearchPage
  /\ main.cb_search_page int (main.search_page_button offset query)
     = inr (Py.take (60 - String.length (Py.str_of_Z offset)) query, offset)
  /\ ((Py.len query <= 60 - String.length (Py.str_of_Z offset))%nat ->
      main.cb_search_page int (main.search_page_button offset query) = inr (query, offset)).
Proof.
  intros Hint Hlen.
  assert (Hdata : main.search_page_button offset query
                  = "sp" +:+ String ":" (Py.str_of_Z offset +:+ String ":"
                      (Py.take (60 - String.length (Py.str_of_Z offset)) query))).
  { unfold main.search_page_button.
    change ("sp:" +:+ Py.str_of_Z offset +:+ ":" +:+ query)
      with ("sp" +:+ String ":" (Py.str_of_Z offset +:+ String ":" query)).
    rewrite (take_field "sp" 64 _ eq_refl) by (cbn; lia).
    rewrite (take_field _ _ _ (str_of_Z_plain offset)) by (cbn; lia).
    replace (64 - String.length "sp" - 1 - String.length (Py.str_of_Z offset) - 1)%nat
      with (60 - String.length (Py.str_of_Z offset))%nat by (cbn; lia).
    reflexivity. }
  assert (Hread : main.cb_search_page int (main.search_page_button offset query)
                  = inr (Py.take (60 - String.length (Py.str_of_Z offset)) query, offset)).
  { unfold main.cb_search_page. cbv zeta. rewrite Hdata.
    rewrite (split_app "sp" _ eq_refl).
    rewrite (split_app _ _ (plain_id_colon_free _ (str_of_Z_plain offset))).
    unfold main.part, main.to_int. cbn [lookup list_lookup List.skipn].
    rewrite Hint, drop_0, join_split. reflexivity. }
  split.
  { rewrite Hdata.
    change ("sp" +:+ String ":" ?x) with (String "s" (String "p" (String ":" x))).
    match goal with
    | |- main.dispatch (String _ (String _ (String _ ?r))) = _ => destruct r; reflexivity
    end. }
  split; [exact Hread |].
  intros Hq. rewrite Hread, (take_short query _ Hq). reflexivity.
Qed.

Lemma search_page_button_round_trip_witness :
  main.dispatch (main.search_page_button 5 "daft punk: discovery") = Some main.CbSearchPage
  /\ main.cb_search_page Sample.int (main.search_page_button 5 "daft punk: discovery")
     = inr ("daft punk: discovery", 5).
Proof.
  destruct (search_page_button_round_trip Sample.int 5 "daft punk: discovery"
              sample_int_str ltac:(vm_compute; lia)) as (Hdispatch & _ & Hwhole).
  split; [exact Hdispatch |]. apply Hwhole. vm_compute. lia.
Defined.

Lemma dispatch_decimal_head c s :
  is_decimal_char c = true -> main.dispatch (String c s) = None.
Proof.
  unfold is_decimal_char. cbn [List.existsb]. intros H.
  repeat (apply orb_prop in H;
          destruct H as [H | H]; [apply Ascii.eqb_eq in H; subst c; reflexivity |]).
  discriminate H.
Qed.

(** What [cb_album_details] reads from the data of a button
    [al:album_id:track_offset:context_data]. *)
Lemma album_page_button_read (int : string -> option Z) album_id track_offset context_data :
  (forall z, int (Py.str_of_Z z) = Some z) ->
  plain_id album_id = true ->
  (String.length album_id + String.length (Py.str_of_Z track_offset) <= 59)%nat ->
  main.cb_album_details int (album_page_button album_id track_offset context_data)
  = inr (album_id, track_offset,
         Py.take (59 - String.length album_id - String.length (Py.str_of_Z track_offset))
           context_data).
Proof.
  intros Hint Hid Hlen.
  unfold main.cb_album_details, album_page_button. cbv zeta.
  change ("al:" +:+ album_id +:+ ":" +:+ Py.str_of_Z track_offset +:+ ":" +:+ context_data)
    with ("al" +:+ String ":" (album_id +:+ String ":"
            (Py.str_of_Z track_offset +:+ String ":" context_data))).
  destruct (button_fields "al" album_id (Py.str_of_Z track_offset) context_data
              eq_refl Hid (str_of_Z_plain track_offset)) as [_ Hsplit];
    [cbn [String.length]; lia |].
  rewrite Hsplit.
  unfold main.part, main.to_int. cbn [lookup list_lookup List.skipn].
  rewrite Hint, drop_0, join_split.
  replace (61 - String.length "al" - String.length album_id
           - String.length (Py.str_of_Z track_offset))%nat
    with (59 - String.length album_id - String.length (Py.str_of_Z track_offset))%nat
    by (cbn [String.length]; lia).
  reflexivity.
Qed.

(** X21: a button to a page of an album's tracks leads back to that album.
    The data [f"al:{album_id}:{track_offset}:{context_data}"[:64]] is
    dispatched to [cb_album_details]; when the album id is free of
    colons and fits with the offset, [cb_album_details] reads from it the
    album, the offset and the first characters of the context, colons
    included: the whole context when it fits. *)
Theorem album_page_button_round_trip (int : string -> option Z) album_id track_offset
    context_data :
  (forall z, int (Py.str_of_Z z) = Some z) ->
  plain_id album_id = true ->
  (String.length album_id + String.length (Py.str_of_Z track_offset) <= 59)%nat ->
  let room := (59 - String.length album_id - String.length (Py.str_of_Z track_offset))%nat in
  main.dispatch (album_page_button album_id track_offset context_data)
  = Some main.CbAlbumDetails
  /\ main.cb_album_details int (album_page_button album_id track_offset context_data)
     = inr (album_id, track_offset, Py.take room context_data)
  /\ ((Py.len context_data <= room)%nat ->
      main.cb_album_details int (album_page_button album_id track_offset context_data)
      = inr (album_id, track_offset, context_data)).
Proof.
  intros Hint Hid Hlen room.
  pose proof (album_page_button_read int album_id track_offset context_data Hint Hid Hlen)
    as Hread.
  split; [| split; [exact Hread |]].
  - unfold album_page_button.
    change ("al:" +:+ album_id +:+ ":" +:+ Py.str_of_Z track_offset +:+ ":" +:+ context_data)
      with (String "a" (String "l" (String ":"
              (album_id +:+ ":" +:+ Py.str_of_Z track_offset +:+ ":" +:+ context_data)))).
    cbn [Py.take]. change (Py.is_continuation "a") with false.
    change (Py.is_continuation "l") with false. change (Py.is_continuation ":") with false.
    cbv iota.
    match goal with
    | |- main.dispatch (String _ (String _ (String _ ?r))) = _ => destruct r; reflexivity
    end.
  - intros Hroom. rewrite Hread. fold room. rewrite (take_short _ _ Hroom). reflexivity.
Qed.

Lemma album_page_button_round_trip_witness :
  main.dispatch (album_page_button "0060254728697" 8 "5:daft punk") = Some main.CbAlbumDetails
  /\ main.cb_album_details Sample.int (album_page_button "0060254728697" 8 "5:daft punk")
     = inr ("0060254728697", 8, "5:daft punk").
Proof.
  destruct (album_page_button_round_trip Sample.int "0060254728697" 8 "5:daft punk"
              sample_int_str eq_refl ltac:(vm_compute; lia)) as (Hdispatch & _ & Hwhole).
  split; [exact Hdispatch |]. apply Hwhole. vm_compute. lia.
Defined.

(** X22: the Back button of an album page that was opened from the search
    results reaches no handler.  The search results give an album the data
    [f"al:{album['id']}:0:{offset}:{query}"[:64]]; when the id is free of
    colons and no longer than 58 characters, [cb_album_details] reads from
    it the context [f"{offset}:{query}"], cut to what was left of the 64
    characters; and whatever it reads, the Back button, whose data is that
    context, matches the filter of no registered handler. *)
Theorem album_back_button_from_search (int : string -> option Z) album_id offset query :
  plain_id (py_str album_id) = true ->
  ((forall z, int (Py.str_of_Z z) = Some z) ->
   (String.length (py_str album_id) <= 58)%nat ->
   main.cb_album_details int (main.album_button album_id offset query)
   = inr (py_str album_id, 0,
          Py.take (58 - String.length (py_str album_id))
            (Py.str_of_Z offset +:+ ":" +:+ query)))
  /\ (forall aid off context_data,
        main.cb_album_details int (main.album_button album_id offset query)
        = inr (aid, off, context_data) ->
        main.dispatch (main.album_back_button context_data) = None
        /\ Forall (fun h => fst h (main.album_back_button context_data) = false)
             main.callback_query_handlers).
Proof.
  intros Hid.
  assert (Hbutton : main.album_button album_id offset query
                    = album_page_button (py_str album_id) 0
                        (Py.str_of_Z offset +:+ ":" +:+ query)) by reflexivity.
  split.
  - intros Hint Hlen. rewrite Hbutton.
    rewrite (album_page_button_read int _ 0 _ Hint Hid)
      by (change (Py.str_of_Z 0) with "0"; cbn [String.length]; lia).
    change (Py.str_of_Z 0) with "0". cbn [String.length].
    replace (59 - String.length (py_str album_id) - 1)%nat
      with (58 - String.length (py_str album_id))%nat by lia.
    reflexivity.
  - assert (Hdead : forall context_data,
               main.dispatch context_data = None ->
               main.dispatch context_data = None
               /\ Forall (fun h => fst h context_data = false) main.callback_query_handlers).
    { intros s Hs. split; [exact Hs |]. unfold main.dispatch in Hs.
      destruct (List.find (fun h => fst h s) main.callback_query_handlers) eqn:Efind;
        [discriminate Hs |].
      apply Forall_forall. intros h Hh. apply list_elem_of_In in Hh.
      pose proof (List.find_none _ _ Efind h Hh) as Hf. exact Hf. }
    assert (Hprefix : forall d t c rest,
               d +:+ t = String c rest -> is_decimal_char c = true ->
               main.dispatch (main.album_back_button d) = None).
    { intros d t c rest Hd Hc. destruct d as [| x d]; [reflexivity |].
      change (String x d +:+ t) with (String x (d +:+ t)) in Hd. injection Hd as -> _.
      unfold main.album_back_button. cbn [Py.take].
      pose proof (decimal_char_plain c Hc) as Hplain. apply andb_prop in Hplain.
      rewrite (ascii_not_continuation c (proj1 Hplain)).
      apply dispatch_decimal_head. exact Hc. }
    intros aid off context_data Hread. apply Hdead.
    unfold main.cb_album_details in Hread. cbv zeta in Hread.
    unfold main.album_button in Hread.
    destruct (take_is_prefix
                ("al:" +:+ py_str album_id +:+ ":0:" +:+ Py.str_of_Z offset +:+ ":" +:+ query)
                64) as [t Ht].
    remember (Py.take 64
                ("al:" +:+ py_str album_id +:+ ":0:" +:+ Py.str_of_Z offset +:+ ":" +:+ query))
      as data eqn:Edata.
    clear Edata.
    change ("al:" +:+ py_str album_id +:+ ":0:" +:+ Py.str_of_Z offset +:+ ":" +:+ query)
      with ("al" +:+ String ":" (py_str album_id +:+ String ":"
              ("0" +:+ String ":" (Py.str_of_Z offset +:+ String ":" query)))) in Ht.
    symmetry in Ht.
    destruct (split_of_prefix "al" data t _ eq_refl Ht) as [Hone | (d1 & Hsplit1 & Ht1)].
    { rewrite Hone in Hread. discriminate Hread. }
    destruct (split_of_prefix _ d1 t _ (plain_id_colon_free _ Hid) Ht1)
      as [Hone | (d2 & Hsplit2 & Ht2)].
    { unfold Py.split in Hone. rewrite Hsplit1 in Hread. unfold Py.split in Hread.
      rewrite Hone in Hread. discriminate Hread. }
    rewrite Hsplit1, Hsplit2 in Hread.
    destruct (split_of_prefix "0" d2 t _ eq_refl Ht2) as [Hone | (d3 & Hsplit3 & Ht3)].
    { rewrite Hone in Hread. unfold main.part in Hread.
      cbn [lookup list_lookup List.skipn] in Hread.
      destruct (main.to_int int d2); [discriminate Hread |].
      injection Hread as _ _ <-. reflexivity. }
    rewrite Hsplit3 in Hread. unfold main.part in Hread.
    cbn [lookup list_lookup List.skipn] in Hread.
    destruct (main.to_int int "0"); [discriminate Hread |].
    rewrite drop_0, join_split in Hread. injection Hread as _ _ <-.
    destruct (str_of_Z_head offset) as (c & rest & Hoff & Hc).
    rewrite Hoff in Ht3.
    change (String c rest +:+ String ":" query) with (String c (rest +:+ String ":" query))
      in Ht3.
    exact (Hprefix d3 t c _ Ht3 Hc).
Qed.

Lemma album_back_button_from_search_witness :
  main.cb_album_details Sample.int (main.album_button (PyStr "0060254728697") 5 "daft punk")
  = inr ("0060254728697", 0, "5:daft punk")
  /\ main.dispatch (main.album_back_button "5:daft punk") = None.
Proof.
  destruct (album_back_button_from_search Sample.int (PyStr "0060254728697") 5 "daft punk"
              eq_refl) as [Hread Hback].
  split.
  - exact (Hread sample_int_str ltac:(vm_compute; lia)).
  - exact (proj1 (Hback _ _ _ (Hread sample_int_str ltac:(vm_compute; lia)))).
Defined.

(** What [cb_artist] reads from the data of a button
    [ar:artist_id:offset:query]. *)
Lemma artist_button_read (int : string -> option Z) artist_id offset query :
  (forall z, int (Py.str_of_Z z) = Some z) ->
  plain_id (py_str artist_id) = true ->
  (String.length (py_str artist_id) + String.length (Py.str_of_Z offset) <= 59)%nat ->
  main.cb_artist int (main.artist_button artist_id offset query)
  = inr (py_str artist_id, offset,
         List.hd ""
           (Py.split ":"
              (Py.take (59 - String.length (py_str artist_id)
                        - String.length (Py.str_of_Z offset)) query))).
Proof.
  intros Hint Hid Hlen.
  unfold main.cb_artist, main.artist_button. cbv zeta.
  change ("ar:" +:+ py_str artist_id +:+ ":" +:+ Py.str_of_Z offset +:+ ":" +:+ query)
    with ("ar" +:+ String ":" (py_str artist_id +:+ String ":"
            (Py.str_of_Z offset +:+ String ":" query))).
  destruct (button_fields "ar" (py_str artist_id) (Py.str_of_Z offset) query
              eq_refl Hid (str_of_Z_plain offset)) as [_ Hsplit];
    [cbn [String.length]; lia |].
  rewrite Hsplit.
  replace (61 - String.length "ar" - String.length (py_str artist_id)
           - String.length (Py.str_of_Z offset))%nat
    with (59 - String.length (py_str artist_id) - String.length (Py.str_of_Z offset))%nat
    by (cbn [String.length]; lia).
  destruct (Py.split ":" (Py.take _ query)) as [| x l] eqn:E;
    [exfalso; exact (split_from_not_nil _ "" E) |].
  unfold main.part, main.to_int.
  cbn [lookup list_lookup List.length Nat.ltb Nat.leb List.hd].
  rewrite Hint. reflexivity.
Qed.

(** X23: the artist page remembers the search only up to the first colon of
    the query.  The search results give an artist the data
    [f"ar:{artist['id']}:{offset}:{query}"[:64]], which is dispatched to
    [cb_artist].  When the data fits in 64 characters,
    [cb_artist] reads from it the artist, the offset and, as the query to
    go back to, the query itself if it has no colon, and only its part
    before the first colon if it has one. *)
Theorem artist_button_query_up_to_colon (int : string -> option Z) artist_id offset q1 :
  (forall z, int (Py.str_of_Z z) = Some z) ->
  plain_id (py_str artist_id) = true ->
  colon_free q1 = true ->
  let used := (String.length (py_str artist_id) + String.length (Py.str_of_Z offset))%nat in
  (forall query, main.dispatch (main.artist_button artist_id offset query) = Some main.CbArtist)
  /\ ((used + Py.len q1 <= 59)%nat ->
      main.cb_artist int (main.artist_button artist_id offset q1)
      = inr (py_str artist_id, offset, q1))
  /\ (forall q2,
        (used + Py.len (q1 +:+ ":" +:+ q2) <= 59)%nat ->
        main.cb_artist int (main.artist_button artist_id offset (q1 +:+ ":" +:+ q2))
        = inr (py_str artist_id, offset, q1)).
Proof.
  intros Hint Hid Hq1 used. split; [| split].
  - intros query. unfold main.artist_button.
    change ("ar:" +:+ py_str artist_id +:+ ":" +:+ Py.str_of_Z offset +:+ ":" +:+ query)
      with (String "a" (String "r" (String ":"
              (py_str artist_id +:+ ":" +:+ Py.str_of_Z offset +:+ ":" +:+ query)))).
    cbn [Py.take]. change (Py.is_continuation "a") with false.
    change (Py.is_continuation "r") with false. change (Py.is_continuation ":") with false.
    cbv iota.
    match goal with
    | |- main.dispatch (String _ (String _ (String _ ?r))) = _ => destruct r; reflexivity
    end.
  - intros Hfit. unfold used in Hfit.
    rewrite (artist_button_read int artist_id offset q1 Hint Hid) by lia.
    rewrite (take_short q1) by lia.
    rewrite (split_colon_free q1 Hq1). reflexivity.
  - intros q2 Hfit. unfold used in Hfit.
    rewrite (artist_button_read int artist_id offset _ Hint Hid) by lia.
    rewrite (take_short (q1 +:+ ":" +:+ q2)) by lia.
    change (q1 +:+ ":" +:+ q2) with (q1 +:+ String ":" q2).
    rewrite (split_app q1 q2 Hq1). reflexivity.
Qed.

Lemma artist_button_query_up_to_colon_witness :
  main.cb_artist Sample.int (main.artist_button (PyInt 26390) 5 "daft punk")
  = inr ("26390", 5, "daft punk")
  /\ main.cb_artist Sample.int (main.artist_button (PyInt 26390) 5 "daft punk: discovery")
     = inr ("26390", 5, "daft punk").
Proof.
  destruct (artist_button_query_up_to_colon Sample.int (PyInt 26390) 5 "daft punk"
              sample_int_str eq_refl eq_refl) as (_ & Hplain & Hcolon).
  split.
  - apply Hplain. vm_compute. lia.
  - apply (Hcolon " discovery"). vm_compute. lia.
Defined.

(** ** main: the pages of an album's tracks *)

Lemma tracks_slice_nonneg {A} (tracks : list A) track_offset :
  0 <= track_offset ->
  main.tracks_slice track_offset tracks
  = List.firstn 8 (List.skipn (Z.to_nat track_offset) tracks).
Proof.
  intros Hoff. unfold main.tracks_slice, Py.slice, Py.slice_bound. cbv zeta.
  set (n := Z.of_nat (List.length tracks)).
  assert (Hn : 0 <= n) by (unfold n; lia).
  destruct (Z.ltb_spec track_offset 0) as [Hneg | _]; [lia |].
  destruct (Z.ltb_spec (Z.min (track_offset + 8) n) 0) as [Hneg | _]; [lia |].
  destruct (Z_lt_le_dec track_offset n) as [Hin | Hout].
  - rewrite (Z.min_l track_offset n) by lia.
    remember (List.skipn (Z.to_nat track_offset) tracks) as rest eqn:Erest.
    assert (Hrest : Z.of_nat (List.length rest) = n - track_offset).
    { subst rest. rewrite length_drop. unfold n. lia. }
    destruct (Z_le_gt_dec (track_offset + 8) n) as [Hfull | Hshort].
    + replace (Z.to_nat (Z.min (Z.min (track_offset + 8) n) n - track_offset)) with 8%nat
        by lia.
      reflexivity.
    + replace (Z.to_nat (Z.min (Z.min (track_offset + 8) n) n - track_offset))
        with (List.length rest) by lia.
      rewrite firstn_all. symmetry. apply firstn_all2. lia.
  - rewrite (List.skipn_all2 tracks) by (unfold n in Hout; lia).
    rewrite (List.skipn_all2 tracks) by (unfold n in Hout; lia).
    rewrite !firstn_nil. reflexivity.
Qed.

Lemma firstn_add {A} (l : list A) : forall a b,
  List.firstn (a + b) l = (List.firstn a l ++ List.firstn b (List.skipn a l))%list.
Proof.
  induction l as [| x l IH]; intros a b.
  - rewrite !firstn_nil, skipn_nil, firstn_nil. reflexivity.
  - destruct a as [| a]; [reflexivity |].
    cbn [Nat.add List.firstn List.skipn List.app]. f_equal. apply IH.
Qed.

Lemma concat_pages {A} (l : list A) n :
  List.concat (List.map (fun k => List.firstn 8 (List.skipn (8 * k) l)) (List.seq 0 n))
  = List.firstn (8 * n) l.
Proof.
  induction n as [| n IH]; [reflexivity |].
  rewrite List.seq_S, List.map_app, List.concat_app, IH.
  cbn [Nat.add List.map List.concat]. rewrite List.app_nil_r.
  replace (8 * S n)%nat with (8 * n + 8)%nat by lia.
  symmetry. apply firstn_add.
Qed.

Lemma album_pages_firstn {A} (tracks : list A) :
  album_pages tracks
  = List.map (fun k => List.firstn 8 (List.skipn (8 * k) tracks))
      (List.seq 0 (Nat.div (List.length tracks + 7) 8)).
Proof.
  unfold album_pages. apply List.map_ext. intros k.
  rewrite tracks_slice_nonneg by lia.
  replace (Z.to_nat (8 * Z.of_nat k)) with (8 * k)%nat by lia. reflexivity.
Qed.

(** X24: the pages of an album show every track once.  [cb_album_details]
    shows at a track offset the slice [tracks[offset:min(offset + 8,
    len(tracks))]]; the slices at the offsets 0, 8, 16, ... below the
    number of tracks, put one after the other, are the track list itself,
    each holds between one and eight tracks, and the navigation row of the
    page at [8 * k] holds a button to the page before it unless [k] is 0
    and a button to the page after it unless it is the last page, and
    nothing else. *)
Theorem album_pages_show_every_track {A} (tracks : list A) :
  let pages := Nat.div (List.length tracks + 7) 8 in
  List.concat (album_pages tracks) = tracks
  /\ List.length (album_pages tracks) = pages
  /\ Forall (fun page => (1 <= List.length page <= 8)%nat) (album_pages tracks)
  /\ (forall k album_id context_data,
        (k < pages)%nat ->
        main.album_nav album_id (8 * Z.of_nat k) (Z.of_nat (List.length tracks)) context_data
        = ((if (0 <? k)%nat
            then [album_page_button album_id (8 * Z.of_nat (k - 1)) context_data] else [])
           ++ (if (k + 1 <? pages)%nat
               then [album_page_button album_id (8 * Z.of_nat (k + 1)) context_data]
               else []))%list).
Proof.
  intros pages.
  assert (Hpages : (8 * pages < List.length tracks + 8
                    /\ List.length tracks <= 8 * pages)%nat).
  { unfold pages.
    pose proof (Nat.div_mod_eq (List.length tracks + 7) 8) as Hdiv.
    pose proof (Nat.mod_upper_bound (List.length tracks + 7) 8 ltac:(lia)) as Hmod.
    lia. }
  split; [| split; [| split]].
  - rewrite album_pages_firstn, concat_pages. fold pages.
    apply firstn_all2. lia.
  - unfold album_pages. rewrite List.length_map, List.length_seq. reflexivity.
  - rewrite album_pages_firstn. fold pages. apply Forall_forall. intros page Hpage.
    apply list_elem_of_In, List.in_map_iff in Hpage. destruct Hpage as (k & <- & Hk).
    apply List.in_seq in Hk. rewrite length_take, length_drop. lia.
  - intros k album_id context_data Hk. unfold main.album_nav, album_page_button. cbv zeta.
    destruct (Z.leb_spec 8 (8 * Z.of_nat k)) as [Hback | Hback];
      destruct (Nat.ltb_spec 0 k) as [Hk0 | Hk0]; try lia;
      destruct (Z.ltb_spec (8 * Z.of_nat k + 8) (Z.of_nat (List.length tracks)))
        as [Hfwd | Hfwd];
      destruct (Nat.ltb_spec (k + 1) pages) as [Hk1 | Hk1]; try lia.
    + replace (8 * Z.of_nat k - 8) with (8 * Z.of_nat (k - 1)) by lia.
      replace (8 * Z.of_nat k + 8) with (8 * Z.of_nat (k + 1)) by lia. reflexivity.
    + replace (8 * Z.of_nat k - 8) with (8 * Z.of_nat (k - 1)) by lia. reflexivity.
    + replace (8 * Z.of_nat k + 8) with (8 * Z.of_nat (k + 1)) by lia. reflexivity.
    + reflexivity.
Qed.
